(** * The experiment driver [example_experiment2_lq_cma.py]

    A shallow embedding of the benchmarking script: the restart loop around
    the solver, the batch filter of the suite loop, the bookkeeping of the
    [stoppings] and [timings] dictionaries, the results file, and the
    module-level prologue (imports, help handling) and epilogue
    (post-processing).

    External libraries (cocoex, cma, scipy, numpy, the wall clock) are not
    part of the script.  Their behaviour is a parameter of the development:
    an abstract [world] that every external call reads and advances.

    Numbers: Python [int] is [Z].  Python [float] is modelled twice.  The
    driver [restart_loop], [process_problem], [experiment] computes with
    exact rationals [Q]: that is what Python computes as long as no
    operation rounds or overflows.  The functions [evalsleft_py] and
    [slsqp_iter_py] and the driver built on them, [restart_loop_py],
    [process_problem_py], [experiment_py], compute as IEEE 754 binary64
    does, with its rounding, its infinities and the exceptions of [int()].
    Wall-clock times are rationals.

    Left out: the text of the printed messages.  The name of the output
    folder (lines 104-108) is modelled on its own, as the string the
    script builds; the events of a run do not carry it, the run has one
    results file. *)

From Stdlib Require Import ZArith QArith Qminmax Qround Qabs Lia Lqa List String Bool.
From Stdlib Require DecimalString DecimalZ Ascii.
From stdpp Require Import base option list gmap.

Set Default Proof Using "Type".

Local Open Scope Z_scope.

(** ** Python numerics *)

(** [int(x)] on a float truncates toward zero. *)
Definition py_int (q : Q) : Z := Z.quot (Qnum q) (Z.pos (Qden q)).

(** Exceptions the script can raise or let through. *)
Inductive exn : Type :=
  | ZeroDivisionError
  | IndexError
  | NameError (name : string)
  | ImportError (name : string)
  | AttributeError (name : string)
  | ValueError (msg : string)
  | ExternalError (msg : string)
  | OverflowError.

(** A Python value or a raised exception. *)
Inductive result (A : Type) : Type :=
  | Ok (a : A)
  | Raise (e : exn).
Arguments Ok {A} a.
Arguments Raise {A} e.

(** How a piece of the script ends.  [OutOfFuel] is not a Python outcome:
    it marks a [while] loop cut off by the fuel of the model. *)
Inductive outcome (A : Type) : Type :=
  | Returns (a : A)
  | Raises (e : exn)
  | OutOfFuel.
Arguments Returns {A} a.
Arguments Raises {A} e.
Arguments OutOfFuel {A}.

(** [a % b] on integers: the sign follows the divisor, as [Z.modulo] does;
    a zero divisor raises. *)
Definition py_mod (a b : Z) : result Z :=
  if b =? 0 then Raise ZeroDivisionError else Ok (a mod b).

(** True division [a / b] (the script imports [division] from [__future__]). *)
Definition py_truediv (a b : Q) : result Q :=
  if Qeq_bool b 0 then Raise ZeroDivisionError else Ok (a / b)%Q.

(** ** Problems and configuration *)

(** What the driver reads of a cocoex problem. *)
Record problem : Type := {
  index : Z;
  dimension : Z;
  evaluations : Z;
  evaluations_constraints : Z;
  final_target_hit : bool
}.

(** The solvers the dispatch of the restart loop tells apart; any other
    callable is [other_solver] with its [__name__] and [__module__]. *)
Inductive solver : Type :=
  | scipy_fmin
  | scipy_fmin_slsqp
  | scipy_fmin_cobyla
  | cocoex_random_search
  | random_search
  | cma_fmin2
  | other_solver (name module : string).

Definition solver_name (s : solver) : string :=
  match s with
  | scipy_fmin => "fmin"
  | scipy_fmin_slsqp => "fmin_slsqp"
  | scipy_fmin_cobyla => "fmin_cobyla"
  | cocoex_random_search => "random_search"
  | random_search => "random_search"
  | cma_fmin2 => "fmin2"
  | other_solver n _ => n
  end.

(** [fmin.__module__]; for the library solvers the package that exports
    them stands for the submodule that defines them, whose name depends on
    the version of the library. *)
Definition solver_module (s : solver) : string :=
  match s with
  | scipy_fmin | scipy_fmin_slsqp | scipy_fmin_cobyla => "scipy.optimize"
  | cocoex_random_search => "cocoex.solvers"
  | random_search => "__main__"
  | cma_fmin2 => "cma.evolution_strategy"
  | other_solver _ m => m
  end.

(** [f is g] on the known solvers. *)
Definition solver_is (f g : solver) : bool :=
  match f, g with
  | scipy_fmin, scipy_fmin
  | scipy_fmin_slsqp, scipy_fmin_slsqp
  | scipy_fmin_cobyla, scipy_fmin_cobyla
  | cocoex_random_search, cocoex_random_search
  | random_search, random_search
  | cma_fmin2, cma_fmin2 => true
  | _, _ => false
  end.

(** [sub in s] on strings. *)
Definition str_contains (sub s : string) : bool :=
  match String.index 0 sub s with Some _ => true | None => false end.

(** How a global name is bound: the script tests ['cocopp' in globals()]
    and [cocopp not in (None, 'None')]. *)
Inductive binding : Type :=
  | Unbound
  | BoundNone
  | BoundStr (s : string)
  | BoundModule.

(** The module-level input variables. *)
Record config : Type := {
  fmin : solver;
  suite_name : string;
  budget_multiplier : Q;
  suite_filter_options : string;
  batches : Z;
  current_batch : Z;
  cocopp : binding
}.

(** The input variables as lines 78-92 set them. *)
Definition input_variables (f : solver) (cocopp_binding : binding) : config :=
  {| fmin := f;
     suite_name := "bbob";
     budget_multiplier := 2 * 1e5 + 0;
     suite_filter_options := EmptyString;
     batches := 1;
     current_batch := 1;
     cocopp := cocopp_binding |}.

(** ** Remaining budget and batch filter *)

(** The expression inside [int(...)] of [evalsleft], lines 136-137, over
    the rationals. *)
Definition budget_expr (bm : Q) (p : problem) : Q :=
  (inject_Z (dimension p) * bm + 1
   - inject_Z (Z.max (evaluations p) (evaluations_constraints p)))%Q.

(** [evalsleft()] over the rationals, read on the current state of the
    problem; [evalsleft_py] below computes it in Python's numbers. *)
Definition evalsleft (bm : Q) (p : problem) : Z := py_int (budget_expr bm p).

(** The guard of the [while] loop, line 141. *)
Definition restart_guard (bm : Q) (p : problem) : bool :=
  (0 <? evalsleft bm p) && negb (final_target_hit p).

(** Line 125: [batch_counter % batches != current_batch % batches], the
    condition of [continue]. *)
Definition batch_skips (nbatches cur batch_counter : Z) : result bool :=
  match py_mod batch_counter nbatches with
  | Ok a =>
      match py_mod cur nbatches with
      | Ok b => Ok (negb (a =? b))
      | Raise e => Raise e
      end
  | Raise e => Raise e
  end.

(** ** The process the script runs in *)

Record environment : Type := {
  platform_lower : string;     (* sys.platform.lower() *)
  is_main : bool;              (* __name__ == "__main__" *)
  argv : list string;          (* sys.argv *)
  has_mkl : bool;
  has_numpy : bool;
  has_cocoex : bool;
  has_cocopp : bool;
  has_scipy : bool;
  has_cma : bool
}.

(** [s in (...)] on strings. *)
Definition string_in (s : string) (l : list string) : bool := existsb (String.eqb s) l.

Definition help_tokens : list string := ["-h"; "help"; "-help"; "--help"]%string.

(** One entry of the dictionary [args_to_dict] returns; [globals().update]
    rebinds the name.  Names the model does not read are [set_other]. *)
Inductive assignment : Type :=
  | set_suite_name (v : string)
  | set_budget_multiplier (v : Q)
  | set_suite_filter_options (v : string)
  | set_batches (v : Z)
  | set_current_batch (v : Z)
  | set_cocopp (v : binding)
  | set_other (name : string).

Definition apply_assignment (c : config) (a : assignment) : config :=
  match a with
  | set_suite_name v =>
      {| fmin := fmin c; suite_name := v; budget_multiplier := budget_multiplier c;
         suite_filter_options := suite_filter_options c; batches := batches c;
         current_batch := current_batch c; cocopp := cocopp c |}
  | set_budget_multiplier v =>
      {| fmin := fmin c; suite_name := suite_name c; budget_multiplier := v;
         suite_filter_options := suite_filter_options c; batches := batches c;
         current_batch := current_batch c; cocopp := cocopp c |}
  | set_suite_filter_options v =>
      {| fmin := fmin c; suite_name := suite_name c; budget_multiplier := budget_multiplier c;
         suite_filter_options := v; batches := batches c;
         current_batch := current_batch c; cocopp := cocopp c |}
  | set_batches v =>
      {| fmin := fmin c; suite_name := suite_name c; budget_multiplier := budget_multiplier c;
         suite_filter_options := suite_filter_options c; batches := v;
         current_batch := current_batch c; cocopp := cocopp c |}
  | set_current_batch v =>
      {| fmin := fmin c; suite_name := suite_name c; budget_multiplier := budget_multiplier c;
         suite_filter_options := suite_filter_options c; batches := batches c;
         current_batch := v; cocopp := cocopp c |}
  | set_cocopp v =>
      {| fmin := fmin c; suite_name := suite_name c; budget_multiplier := budget_multiplier c;
         suite_filter_options := suite_filter_options c; batches := batches c;
         current_batch := current_batch c; cocopp := v |}
  | set_other _ => c
  end.



(** ** Python's numbers

    A Python [int] is exact.  A Python [float] is an IEEE 754 binary64
    number: every operation returns the real result rounded to the nearest
    representable value, ties to the even mantissa, and overflows to
    infinity.  The sign of zero is not kept: nothing here reads it. *)

Inductive double : Type :=
  | Finite (value : Q)
  | Infinite (negative : bool)
  | NaN.

(** The nearest integer, ties to even. *)
Definition round_half_even (q : Q) : Z :=
  let f := Qfloor q in
  match Qcompare (q - inject_Z f) (1 # 2) with
  | Lt => f
  | Gt => f + 1
  | Eq => if Z.even f then f else f + 1
  end.

(** [q * 2^e]. *)
Definition scale2 (q : Q) (e : Z) : Q :=
  if 0 <=? e then (q * inject_Z (2 ^ e))%Q else (q / inject_Z (2 ^ (- e)))%Q.

(** [floor (log2 q)] for [0 < q]. *)
Definition ilog2 (q : Q) : Z :=
  let k := Z.log2 (Qnum q) - Z.log2 (Z.pos (Qden q)) in
  if Qle_bool (scale2 1 k) q then k else k - 1.

(** Rounding to binary64: 53 bits of mantissa, the smallest exponent
    -1074 (subnormal numbers), infinity from [2^1024] on. *)
Definition fl (x : Q) : double :=
  let q := Qred x in
  let a := Qabs q in
  if Qeq_bool a 0 then Finite 0
  else
    let e := Z.max (ilog2 a - 52) (-1074) in
    let r := scale2 (inject_Z (round_half_even (scale2 a (- e)))) e in
    if Qle_bool (inject_Z (2 ^ 1024)) r then Infinite (negb (Qle_bool 0 q))
    else Finite (Qred (if Qle_bool 0 q then r else - r)).

Definition fneg (x : double) : double :=
  match x with
  | Finite a => Finite (- a)
  | Infinite s => Infinite (negb s)
  | NaN => NaN
  end.

Definition fadd (x y : double) : double :=
  match x, y with
  | Finite a, Finite b => fl (a + b)
  | Finite _, Infinite s | Infinite s, Finite _ => Infinite s
  | Infinite s, Infinite s' => if Bool.eqb s s' then Infinite s else NaN
  | _, _ => NaN
  end.

Definition fsub (x y : double) : double := fadd x (fneg y).

Definition fmul (x y : double) : double :=
  match x, y with
  | Finite a, Finite b => fl (a * b)
  | Finite a, Infinite s | Infinite s, Finite a =>
      if Qeq_bool a 0 then NaN else Infinite (xorb s (negb (Qle_bool 0 a)))
  | Infinite s, Infinite s' => Infinite (xorb s s')
  | _, _ => NaN
  end.

(** An [int] where a [float] is needed: the nearest float, or
    [OverflowError] ("int too large to convert to float"). *)
Definition float_of_int (n : Z) : result double :=
  match fl (inject_Z n) with
  | Infinite _ => Raise OverflowError
  | d => Ok d
  end.

(** [int(x)] on a float: truncation toward zero; infinity and NaN raise. *)
Definition int_of_float (x : double) : result Z :=
  match x with
  | Finite a => Ok (py_int a)
  | Infinite _ => Raise OverflowError
  | NaN => Raise (ValueError "cannot convert float NaN to integer")
  end.

(** [a / b] on two [int]s: the quotient rounded once. *)
Definition int_truediv (a b : Z) : result double :=
  if b =? 0 then Raise ZeroDivisionError
  else match fl (inject_Z a / inject_Z b) with
       | Infinite _ => Raise OverflowError
       | d => Ok d
       end.

(** What [budget_multiplier] is bound to: an [int], as after
    [budget_multiplier=3], or a [float], as after line 84 or
    [budget_multiplier=1e4]; a float is given by the value of its literal
    and is the float nearest to it. *)
Inductive number : Type :=
  | int_number (k : Z)
  | float_number (x : Q).

Definition number_value (b : number) : Q :=
  match b with
  | int_number k => inject_Z k
  | float_number x => x
  end.

(** [r >>= f] on Python values. *)
Definition and_then {A B} (r : result A) (f : A -> result B) : result B :=
  match r with
  | Ok a => f a
  | Raise e => Raise e
  end.

(** [evalsleft()], lines 136-137, as Python computes it:
    [int(problem.dimension * budget_multiplier + 1 - max((problem.evaluations,
    problem.evaluations_constraints)))].  With an [int] multiplier all is
    integer arithmetic; with a [float] each of the three operations takes
    its [int] operand to a float and rounds its result. *)
Definition evalsleft_py (b : number) (p : problem) : result Z :=
  let most := Z.max (evaluations p) (evaluations_constraints p) in
  match b with
  | int_number k => Ok (dimension p * k + 1 - most)
  | float_number x =>
      and_then (float_of_int (dimension p)) (fun d =>
      and_then (float_of_int 1) (fun one =>
      and_then (float_of_int most) (fun m =>
      int_of_float (fsub (fadd (fmul d (fl x)) one) m))))
  end.

(** The condition of the [while] loop, line 141:
    [evalsleft() > 0 and not problem.final_target_hit]. *)
Definition restart_guard_py (b : number) (p : problem) : result bool :=
  and_then (evalsleft_py b p) (fun left =>
  Ok ((0 <? left) && negb (final_target_hit p))).

(** Line 149: [int(evalsleft() / problem.dimension + 1)], on the value
    [left] of [evalsleft()]. *)
Definition slsqp_iter_py (left dim : Z) : result Z :=
  and_then (int_truediv left dim) (fun q =>
  and_then (float_of_int 1) (fun one =>
  int_of_float (fadd q one))).

(** Line 165: [int(min((3e2, budget_multiplier + 1)))]; [min] keeps its
    first argument unless the second is less. *)
Definition toggle_iter_py (b : number) : result Z :=
  match b with
  | int_number k => Ok (if k + 1 <? 300 then k + 1 else 300)
  | float_number x =>
      and_then (float_of_int 1) (fun one =>
      match fadd (fl x) one with
      | Finite y => Ok (py_int (if Qle_bool 300 y then 300 else y))
      | Infinite true => Raise OverflowError
      | _ => Ok 300
      end)
  end.

(** No operation of [evalsleft()] rounds: the multiplier, the product, the
    sum and the difference are floats as they stand. *)
Definition representable (y : Q) : Prop := exists r, fl y = Finite r /\ (r == y)%Q.

Definition no_rounding (x : Q) (p : problem) : Prop :=
  let most := Z.max (evaluations p) (evaluations_constraints p) in
  representable x /\
  representable (inject_Z (dimension p)) /\
  representable (inject_Z (dimension p) * x) /\
  representable (inject_Z (dimension p) * x + 1) /\
  representable (inject_Z most) /\
  representable (inject_Z (dimension p) * x + 1 - inject_Z most).

(** ** Solver calls *)

(** Arguments the driver passes to the solver, one constructor per call
    site of the restart loop ([propose_x0()] is an external value and is
    left out). *)
Inductive fmin_args : Type :=
  | args_fmin (maxfun : Z)                               (* line 146 *)
  | args_slsqp (iter : Z)                                (* line 149 *)
  | args_random_search (lbounds ubounds : list Z) (evals : Z)  (* line 154 *)
  | args_cma_restarts (sigma maxfevals restarts : Z)     (* line 156 *)
  | args_cobyla (maxfun : Z)                             (* line 160 *)
  | args_slsqp_toggle (iter : Z)                         (* line 164 *)
  | args_cma (sigma maxfevals popsize restarts : Z).     (* line 180 *)

(** The population-size hint of a call, when it carries one. *)
Definition popsize_hint (a : fmin_args) : option Z :=
  match a with
  | args_cma _ _ popsize _ => Some popsize
  | _ => None
  end.

(** What a solver call leaves behind on the problem object. *)
Record problem_update : Type := {
  new_evaluations : Z;
  new_evaluations_constraints : Z;
  new_final_target_hit : bool
}.

Definition apply_update (u : problem_update) (p : problem) : problem :=
  {| index := index p;
     dimension := dimension p;
     evaluations := new_evaluations u;
     evaluations_constraints := new_evaluations_constraints u;
     final_target_hit := new_final_target_hit u |}.


(** The evaluation budget a call hands to the solver, where the call site
    passes [evalsleft()] itself ([maxfun], [evals], [maxfevals]). *)
Definition maxevals_of (a : fmin_args) : option Z :=
  match a with
  | args_fmin maxfun => Some maxfun
  | args_random_search _ _ evals => Some evals
  | args_cma_restarts _ maxfevals _ => Some maxfevals
  | args_cobyla maxfun => Some maxfun
  | args_cma _ maxfevals _ _ => Some maxfevals
  | args_slsqp _ | args_slsqp_toggle _ => None
  end.

(** The solvers that reach the final [else] of the dispatch. *)
Definition takes_default_branch (s : solver) : bool :=
  match s with
  | cma_fmin2 | other_solver _ _ => true
  | _ => false
  end.

(** The solvers whose branch appends to [stoppings]. *)
Definition records_stoppings (s : solver) : bool :=
  match s with
  | scipy_fmin | scipy_fmin_slsqp | cma_fmin2 | other_solver _ _ => true
  | scipy_fmin_cobyla | cocoex_random_search | random_search => false
  end.

(** The problems a batch run selects, with their [batch_counter]. *)
Fixpoint batch_from (nbatches cur batch_counter : Z) (suite : list problem)
  : list (Z * problem) :=
  match suite with
  | [] => []
  | p :: rest =>
      match batch_skips nbatches cur batch_counter with
      | Ok false => (batch_counter, p) :: batch_from nbatches cur (batch_counter + 1) rest
      | _ => batch_from nbatches cur (batch_counter + 1) rest
      end
  end.

Definition batch_of (nbatches cur : Z) (suite : list problem) : list (Z * problem) :=
  batch_from nbatches cur 0 suite.

(** The hints of the attempts made from [irestart = i] on. *)
Definition doubling (dp : Z) (i : Z) (n : nat) : list (Z * Z) :=
  map (fun k => (i + 1 + Z.of_nat k, 2 ^ (i + 1 + Z.of_nat k) * dp)) (seq 0 n).


(** ** A sample outside world

    Concrete externals on which the model can be run.  The world is the
    number of clock readings made so far. *)
Module Sample.

Definition time_time (w : nat) : Q * nat := (inject_Z (Z.of_nat w), S w).

(** No evaluation hits the final target. *)
Definition evaluate (p : problem) (x : list Q) (w : nat) : bool * nat := (false, w).

Definition random_row (n : nat) (w : nat) : list Q * nat := (repeat (1 # 2)%Q n, w).

(** A solver that spends one evaluation per call and never hits the
    target. *)
Definition run_solver (f : solver) (a : fmin_args) (p : problem) (w : nat)
  : result (problem_update * unit) * nat :=
  (Ok ({| new_evaluations := evaluations p + 1;
          new_evaluations_constraints := evaluations_constraints p;
          new_final_target_hit := false |}, tt), w).

Definition cma_popsize (dim : Z) : Z := 4 + 3 * Z.log2 dim.

Definition fresh_problem (idx dim : Z) : problem :=
  {| index := idx; dimension := dim; evaluations := 0;
     evaluations_constraints := 0; final_target_hit := false |}.

(** The suite every name stands for here. *)
Definition small_suite : list problem :=
  [fresh_problem 0 2; fresh_problem 1 2; fresh_problem 2 3].

Definition cocoex_suite (name options : string) (w : nat)
  : result (list problem) * nat := (Ok small_suite, w).

(** The names a Python 3 interpreter binds in a script before it runs. *)
Definition interpreter_globals : list string :=
  ["__name__"; "__doc__"; "__package__"; "__loader__"; "__spec__"; "__annotations__";
   "__builtins__"; "__file__"; "__cached__"]%string.

(** The part of a token before its first [=]. *)
Definition name_of (arg : string) : string :=
  match String.index 0 "=" arg with
  | Some n => String.substring 0 n arg
  | None => arg
  end.

(** Is the name [batch], or the beginning of exactly one known name? *)
Definition addresses (known : list string) (name : string) : bool :=
  String.eqb name "batch"
  || (length (filter (fun k => String.prefix name k = true) known) =? 1)%nat.

(** Every token must be of the form [name=value] and its name must address
    a known name; the values are not read. *)
Definition args_to_dict (args known : list string) (w : nat)
  : result (list assignment) * nat :=
  if forallb (str_contains "=") args then
    if forallb (fun a => addresses known (name_of a)) args then (Ok [], w)
    else (Raise (ValueError "not found or ambiguous in known_names"), w)
  else (Raise (ValueError "not enough values to unpack"), w).

(** The input variables as the script sets them, with cma and cocopp
    imported. *)
Definition shipped_config : config := input_variables cma_fmin2 BoundModule.

Definition with_solver (c : config) (f : solver) : config :=
  {| fmin := f; suite_name := suite_name c; budget_multiplier := budget_multiplier c;
     suite_filter_options := suite_filter_options c; batches := batches c;
     current_batch := current_batch c; cocopp := cocopp c |}.

(** A machine with every library installed, running the script. *)
Definition full_environment (args : list string) : environment :=
  {| platform_lower := "linux"; is_main := true;
     argv := "example_experiment2_lq_cma.py"%string :: args;
     has_mkl := true; has_numpy := true; has_cocoex := true;
     has_cocopp := true; has_scipy := true; has_cma := true |}.

(** A 3-dimensional problem after its first evaluation. *)
Definition evaluated_once : problem :=
  {| index := 0; dimension := 3; evaluations := 1;
     evaluations_constraints := 0; final_target_hit := false |}.

Definition with_budget_multiplier (c : config) (bm : Q) : config :=
  apply_assignment c (set_budget_multiplier bm).

(** The same machine without the cma library. *)
Definition without_cma (env : environment) : environment :=
  {| platform_lower := platform_lower env; is_main := is_main env; argv := argv env;
     has_mkl := has_mkl env; has_numpy := has_numpy env; has_cocoex := has_cocoex env;
     has_cocopp := has_cocopp env; has_scipy := has_scipy env; has_cma := false |}.

End Sample.

(** ** The driver: state, output and the monad that threads them *)

Section Driver.

(** The outside of the script. *)
Variable world : Type.
(** Termination record of a solver run ([output[4]], [output[3:]],
    [es.stop()]). *)
Variable stop_info : Type.
(** [time.time()]. *)
Variable time_time : world -> Q * world.
(** Does the evaluation [problem(x)] leave the final target hit? *)
Variable evaluate : problem -> list Q -> world -> bool * world.
(** [np.random.rand]: one row of the sample, of the given length. *)
Variable random_row : nat -> world -> list Q * world.
(** A library solver run on a problem with the given arguments. *)
Variable run_solver :
  solver -> fmin_args -> problem -> world -> result (problem_update * stop_info) * world.
(** [cma.CMAEvolutionStrategy(dimension * [1], 1, ...).popsize]. *)
Variable cma_popsize : Z -> Z.
(** [cocoex.Suite(name, empty string, options)], as the list of its problems. *)
Variable cocoex_suite : string -> string -> world -> result (list problem) * world.
(** [cocoex.utilities.args_to_dict(sys.argv[1:], globals(), ...)]: the
    arguments, then the names of [globals()], which are the names an
    argument may address. *)
Variable args_to_dict :
  list string -> list string -> world -> result (list assignment) * world.
(** The names the interpreter binds in the module before its first
    statement ([__name__], [__doc__], [__file__], ...). *)
Variable interpreter_globals : list string.

Inductive message : Type :=
  | msg_doc
  | msg_mkl_not_installed
  | msg_setting_threads (nt : Z)
  | msg_benchmarking (name module suite : string)
  | msg_dimension_done (t : gmap Z (list Q))
  | msg_batch_finished (cur nbatches : Z) (seconds : Q)
  | msg_full_done (seconds : Q)
  | msg_timing_summary (t : gmap Z (list Q)).

(** What the script does to the outside, in order. *)
Inductive event : Type :=
  | ev_print (m : message)
  | ev_mkl_set_num_threads (nt : Z)
  | ev_environ (name : string) (nt : Z)
  | ev_suite (name options : string)
  | ev_observer (name : string)
  | ev_observe_with (idx : Z)
  | ev_evaluate (idx : Z) (x : list Q)
  | ev_solver (irestart : Z) (p : problem) (a : fmin_args)
  | ev_minimal_print (idx : Z) (restarted : Z) (final : bool)
  | ev_write_file (content : gmap Z (list stop_info))
  | ev_postprocess
  | ev_browser.

(** The mutable state of a run. [stoppings] and [timings] are the two
    [defaultdict(list)]; [results_file] is what the
    [_stopping_conditions.pydict] file holds, as [ast.literal_eval] reads it
    back from [repr(dict(stoppings))]. *)
Record state : Type := {
  the_world : world;
  stoppings : gmap Z (list stop_info);
  timings : gmap Z (list Q);
  results_file : option (gmap Z (list stop_info))
}.

(** A computation of the script: it reads and writes the state, emits
    events, and returns, raises or runs out of fuel.  Events emitted before
    an exception are kept. *)
Definition driver (A : Type) : Type := state -> list event * outcome (A * state).

Definition ret {A} (a : A) : driver A := fun s => ([], Returns (a, s)).

Definition bind {A B} (m : driver A) (f : A -> driver B) : driver B :=
  fun s =>
    match m s with
    | (t, Returns (a, s')) => let '(t', r) := f a s' in (t ++ t', r)
    | (t, Raises e) => (t, Raises e)
    | (t, OutOfFuel) => (t, OutOfFuel)
    end.

Definition raise {A} (e : exn) : driver A := fun s => ([], Raises e).
Definition out_of_fuel {A} : driver A := fun s => ([], OutOfFuel).
Definition emit (e : event) : driver unit := fun s => ([e], Returns (tt, s)).
Definition get : driver state := fun s => ([], Returns (s, s)).
Definition put (s : state) : driver unit := fun _ => ([], Returns (tt, s)).
Definition lift {A} (r : result A) : driver A :=
  fun s => match r with
           | Ok a => ([], Returns (a, s))
           | Raise e => ([], Raises e)
           end.

Definition with_world (s : state) (w : world) : state :=
  {| the_world := w; stoppings := stoppings s;
     timings := timings s; results_file := results_file s |}.

(** An external call that advances the world. *)
Definition external {A} (f : world -> A * world) : driver A :=
  fun s => let '(a, w) := f (the_world s) in ([], Returns (a, with_world s w)).

#[local] Instance driver_ret : MRet driver := @ret.
#[local] Instance driver_bind : MBind driver := fun A B f m => bind m f.

Definition set_stoppings (d : gmap Z (list stop_info)) : driver unit :=
  fun s => ([], Returns (tt, {| the_world := the_world s; stoppings := d;
                                timings := timings s; results_file := results_file s |})).

Definition set_timings (d : gmap Z (list Q)) : driver unit :=
  fun s => ([], Returns (tt, {| the_world := the_world s; stoppings := stoppings s;
                                timings := d; results_file := results_file s |})).

(** [d[key]] on a [defaultdict(list)]: a missing key is created with []. *)
Definition defaultdict_get {V} (d : gmap Z (list V)) (key : Z) : list V * gmap Z (list V) :=
  match d !! key with
  | Some l => (l, d)
  | None => ([], <[key := []]> d)
  end.

(** [d[key].append(x)] on a [defaultdict(list)]. *)
Definition defaultdict_append {V} (d : gmap Z (list V)) (key : Z) (x : V) : gmap Z (list V) :=
  let '(l, d') := defaultdict_get d key in <[key := l ++ [x]]> d'.

Definition stoppings_append (key : Z) (x : stop_info) : driver unit :=
  s ← get; set_stoppings (defaultdict_append (stoppings s) key x).

Definition timings_append (key : Z) (x : Q) : driver unit :=
  s ← get; set_timings (defaultdict_append (timings s) key x).

(** Lines 204-210: the file is rewritten with [repr(dict(stoppings))]. *)
Definition write_results_file : driver unit :=
  s ← get;
  emit (ev_write_file (stoppings s)) ;;
  put {| the_world := the_world s; stoppings := stoppings s;
         timings := timings s; results_file := Some (stoppings s) |}.

(** ** Calls on the problem *)

(** The problem after one more evaluation: cocoex counts it in
    [evaluations]; [hit] is the final-target flag it leaves. *)
Definition evaluated (p : problem) (hit : bool) : problem :=
  {| index := index p;
     dimension := dimension p;
     evaluations := evaluations p + 1;
     evaluations_constraints := evaluations_constraints p;
     final_target_hit := hit |}.

(** [problem(x)]. *)
Definition problem_call (p : problem) (x : list Q) : driver problem :=
  emit (ev_evaluate (index p) x) ;;
  hit ← external (evaluate p x);
  ret (evaluated p hit).

(** [np.zeros(n)]. *)
Definition zeros (n : Z) : list Q := repeat 0%Q (Z.to_nat n).

(** [n * [x]] on a list of one element. *)
Definition list_times (n : Z) (x : Z) : list Z := repeat x (Z.to_nat n).

(** ** [random_search], lines 71-74 *)

Fixpoint random_rand (rows cols : nat) : driver (list (list Q)) :=
  match rows with
  | O => ret []
  | S rows' =>
      r ← external (random_row cols);
      rs ← random_rand rows' cols;
      ret (r :: rs)
  end.

(** [lbounds + (ubounds - lbounds) * row], element by element, for bounds
    and a row of one length, as the driver passes them and [np.random.rand]
    returns them (on other shapes numpy broadcasts or raises). *)
Fixpoint scale_row (lbounds ubounds : list Z) (row : list Q) : list Q :=
  match lbounds, ubounds, row with
  | l :: ls, u :: us, r :: rs =>
      (inject_Z l + (inject_Z u - inject_Z l) * r)%Q :: scale_row ls us rs
  | _, _, _ => []
  end.

Fixpoint evaluate_all (p : problem) (xs : list (list Q)) : driver problem :=
  match xs with
  | [] => ret p
  | x :: xs' => p' ← problem_call p x; evaluate_all p' xs'
  end.

(** The body of [random_search], for [evals >= 0] (numpy refuses a
    negative number of rows; the loop calls it with [evalsleft() > 0]). *)
Definition random_search_run (p : problem) (lbounds ubounds : list Z) (evals : Z)
  : driver problem :=
  sample ← random_rand (Z.to_nat evals) (length ubounds);
  evaluate_all p (map (scale_row lbounds ubounds) sample).

(** ** The restart loop, lines 140-199 *)

Section Experiment.

Variable cfg : config.

Abbreviation bm := (budget_multiplier cfg).

(** A call of a library solver: it leaves new counters on the problem and
    returns its output. *)
Definition call_solver (irestart : Z) (p : problem) (a : fmin_args)
  : driver (problem * stop_info) :=
  emit (ev_solver irestart p a) ;;
  r ← external (run_solver (fmin cfg) a p);
  '(u, out) ← lift r;
  ret (apply_update u p, out).

(** [default_popsize], lines 117-118. *)
Definition default_popsize (dim : Z) : Z := cma_popsize dim.

(** One pass through the body of the [while] loop with [irestart] already
    incremented; the boolean tells whether the pass ended in [break].  The
    budget and the iteration limit of line 149 are computed over the
    rationals; [restart_body_py] computes them in Python's numbers. *)
Definition restart_body (irestart : Z) (p : problem) : driver (problem * bool) :=
  if solver_is (fmin cfg) scipy_fmin then
    '(p', out) ← call_solver irestart p (args_fmin (evalsleft bm p));
    stoppings_append (index p') out ;;
    ret (p', false)
  else if solver_is (fmin cfg) scipy_fmin_slsqp then
    q ← lift (py_truediv (inject_Z (evalsleft bm p)) (inject_Z (dimension p)));
    '(p', out) ← call_solver irestart p (args_slsqp (py_int (q + 1)));
    stoppings_append (index p') out ;;
    ret (p', false)
  else if solver_is (fmin cfg) cocoex_random_search then
    '(p', _) ← call_solver irestart p
        (args_random_search (list_times (dimension p) (-5))
                            (list_times (dimension p) 5) (evalsleft bm p));
    ret (p', false)
  else if solver_is (fmin cfg) random_search then
    emit (ev_solver irestart p
        (args_random_search (list_times (dimension p) (-5))
                            (list_times (dimension p) 5) (evalsleft bm p))) ;;
    p' ← random_search_run p (list_times (dimension p) (-5))
                            (list_times (dimension p) 5) (evalsleft bm p);
    ret (p', false)
  else if (11 <? 3) && String.eqb (solver_name (fmin cfg)) "fmin2"
          && str_contains "cma" (solver_module (fmin cfg)) then
    '(p', out) ← call_solver irestart p (args_cma_restarts 2 (evalsleft bm p) 9);
    stoppings_append (index p') out ;;
    ret (p', false)
  else if solver_is (fmin cfg) scipy_fmin_cobyla then
    '(p', _) ← call_solver irestart p (args_cobyla (evalsleft bm p));
    ret (p', false)
  else
    p1 ← (if (11 <? 3) && (irestart =? 0) then
            '(p', out) ← call_solver irestart p
                (args_slsqp_toggle (py_int (Qmin 3e2 (bm + 1))));
            stoppings_append (index p') out ;;
            ret p'
          else ret p);
    let sigma := 2 in
    let popsize := 2 ^ irestart * default_popsize (dimension p1) in
    '(p2, out) ← call_solver irestart p1
        (args_cma sigma (evalsleft bm p1) popsize 0);
    stoppings_append (index p2) out ;;
    ret (p2, (1 <? 3) && (9 <=? irestart)).

(** The [while] loop; [fuel] bounds the number of passes of the model. It
    returns the last [irestart] and the problem as the loop leaves it. *)
Fixpoint restart_loop (fuel : nat) (irestart : Z) (p : problem) : driver (Z * problem) :=
  if restart_guard bm p then
    match fuel with
    | O => out_of_fuel
    | S fuel' =>
        let irestart := irestart + 1 in
        '(p', stop) ← restart_body irestart p;
        if stop : bool then ret (irestart, p') else restart_loop fuel' irestart p'
    end
  else ret (irestart, p).

(** ** One problem of the suite, lines 129-210 *)

(** Lines 129-132: looking up [timings[problem.dimension]] creates the key;
    a new dimension after at least one other prints the previous one. *)
Definition note_dimension (p : problem) : driver unit :=
  s ← get;
  let '(l, d) := defaultdict_get (timings s) (dimension p) in
  set_timings d ;;
  if negb (0 <? Z.of_nat (length l)) && (1 <? Z.of_nat (size d))
  then emit (ev_print (msg_dimension_done d))
  else ret tt.

(** The argument of [append] on lines 201-202:
    [(time.time() - time1) / problem.evaluations if problem.evaluations else 0].
    The condition is evaluated first; the clock is read and the division
    made only when it holds. *)
Definition timing_sample (time1 : Q) (p : problem) : driver Q :=
  if negb (evaluations p =? 0) then
    t ← external time_time;
    lift (py_truediv (t - time1) (inject_Z (evaluations p)))
  else ret 0%Q.

(** Lines 201-202: [timings[problem.dimension].append(...)]. *)
Definition record_timing (time1 : Q) (p : problem) : driver unit :=
  sample ← timing_sample time1 p;
  timings_append (dimension p) sample.

Definition process_problem (fuel : nat) (suite_len : Z) (p : problem) : driver unit :=
  note_dimension p ;;
  emit (ev_observe_with (index p)) ;;
  p1 ← problem_call p (zeros (dimension p));
  time1 ← external time_time;
  '(irestart, p2) ← restart_loop fuel (-1) p1;
  record_timing time1 p2 ;;
  emit (ev_minimal_print (index p2) irestart (index p2 =? suite_len - 1)) ;;
  write_results_file.

(** The loop over [enumerate(suite)], lines 124-210. *)
Fixpoint suite_loop (fuel : nat) (suite_len batch_counter : Z) (suite : list problem)
  : driver unit :=
  match suite with
  | [] => ret tt
  | p :: rest =>
      skip ← lift (batch_skips (batches cfg) (current_batch cfg) batch_counter);
      (if skip : bool then ret tt else process_problem fuel suite_len p) ;;
      suite_loop fuel suite_len (batch_counter + 1) rest
  end.

(** ** After the loop, lines 212-233 *)

(** ['cocopp' in globals() and cocopp not in (None, 'None')]. *)
Definition cocopp_wanted (b : binding) : bool :=
  match b with
  | Unbound | BoundNone => false
  | BoundStr s => negb (String.eqb s "None")
  | BoundModule => true
  end.

Definition postprocess : driver unit :=
  if (batches cfg =? 1) && cocopp_wanted (cocopp cfg) then
    match cocopp cfg with
    | BoundModule => emit ev_postprocess ;; emit ev_browser
    | _ => raise (AttributeError "main")
    end
  else ret tt.

Definition epilogue (time0 : Q) : driver unit :=
  s ← get;
  (* [sorted(timings)[-1]] *)
  (if Z.of_nat (size (timings s)) =? 0 then raise IndexError
   else emit (ev_print (msg_dimension_done (timings s)))) ;;
  t ← external time_time;
  (if 1 <? batches cfg
   then emit (ev_print (msg_batch_finished (current_batch cfg) (batches cfg) (t - time0)))
   else emit (ev_print (msg_full_done (t - time0)))) ;;
  emit (ev_print (msg_timing_summary (timings s))) ;;
  postprocess.

(** Lines 111-233, once the configuration is settled. *)
Definition experiment (fuel : nat) : driver unit :=
  emit (ev_suite (suite_name cfg) (suite_filter_options cfg)) ;;
  r ← external (cocoex_suite (suite_name cfg) (suite_filter_options cfg));
  suite ← lift r;
  emit (ev_observer (suite_name cfg)) ;;
  set_stoppings ∅ ;;
  set_timings ∅ ;;
  emit (ev_print (msg_benchmarking (solver_name (fmin cfg)) (solver_module (fmin cfg))
                                   (suite_name cfg))) ;;
  time0 ← external time_time;
  suite_loop fuel (Z.of_nat (length suite)) 0 suite ;;
  epilogue time0.

End Experiment.

(** ** Module level, lines 39-101 *)

(** [set_num_threads], lines 39-53. *)
Definition set_num_threads (env : environment) (nt : Z) (disp : bool) : driver unit :=
  (if has_mkl env then emit (ev_mkl_set_num_threads nt)
   else if disp then emit (ev_print msg_mkl_not_installed) else ret tt) ;;
  emit (ev_environ "OPENBLAS_NUM_THREADS" nt) ;;
  emit (ev_environ "NUMEXPR_NUM_THREADS" nt) ;;
  emit (ev_environ "OMP_NUM_THREADS" nt) ;;
  emit (ev_environ "MKL_NUM_THREADS" nt) ;;
  if disp then emit (ev_print (msg_setting_threads nt)) else ret tt.

(** An unguarded [import]. *)
Definition import (name : string) (installed : bool) : driver unit :=
  if installed then ret tt else raise (ImportError name).

(** Lines 55-92: imports and the input variables.  [cocopp] and [cma] are
    imported under [try ... except: pass]; [fmin = cma.fmin2] then reads
    the name [cma]. *)
Definition prologue (env : environment) : driver config :=
  (if negb (string_in (platform_lower env) ["darwin"; "windows"]%string)
   then set_num_threads env 1 true else ret tt) ;;
  import "numpy" (has_numpy env) ;;
  import "cocoex" (has_cocoex env) ;;
  let cocopp_binding := if has_cocopp env then BoundModule else Unbound in
  import "scipy" (has_scipy env) ;;
  let cma_binding := if has_cma env then BoundModule else Unbound in
  f ← match cma_binding with
      | BoundModule => ret cma_fmin2
      | _ => raise (NameError "cma")
      end;
  ret (input_variables f cocopp_binding).

(** The names in [globals()] at line 99, in the order they were bound: those
    of the interpreter, then the imports, functions and input variables of
    lines 34-92.  [cocopp] is among them only when its import succeeded (or
    the name is otherwise bound); [cma] is bound, or line 81 has raised. *)
Definition script_globals (c : config) : list string :=
  interpreter_globals
  ++ ["division"; "print_function"; "unicode_literals"; "__author__"; "sys"; "os";
      "set_num_threads"; "time"; "defaultdict"; "webbrowser"; "np"; "cocoex"]%string
  ++ match cocopp c with Unbound => [] | _ => ["cocopp"%string] end
  ++ ["scipy"; "cma"; "random_search"; "fmin"; "suite_name"; "budget_multiplier";
      "suite_filter_options"; "batches"; "current_batch"; "output_folder"]%string.

(** Lines 95-101. *)
Definition read_arguments (env : environment) (c : config) : driver config :=
  if is_main env then
    (if (1 <? Z.of_nat (length (argv env)))
        && string_in (nth 1 (argv env) EmptyString) help_tokens
     then emit (ev_print msg_doc) ;; raise (ValueError "printed help and aborted")
     else ret tt) ;;
    r ← external (args_to_dict (drop 1 (argv env)) (script_globals c));
    input_params ← lift r;
    ret (foldl apply_assignment c input_params)
  else ret c.

(** The whole script. *)
Definition script (fuel : nat) (env : environment) : driver unit :=
  c ← prologue env;
  c' ← read_arguments env c;
  experiment c' fuel.

(** A run starts with empty dictionaries and no results file. *)
Definition initial_state (w : world) : state :=
  {| the_world := w; stoppings := ∅; timings := ∅; results_file := None |}.




(** ** The restart loop with Python's arithmetic

    The loop of lines 140-199 once more, now with [evalsleft()] and the
    iteration limit of line 149 computed as Python computes them, for
    [budget_multiplier] bound to the number [b]: they can round, and they
    can raise.  Everything else is as in [restart_body] and
    [restart_loop].  The configuration [cfg] is read for the solver and the
    batch; its field [budget_multiplier] is not read here. *)

Section ExperimentPy.

Variable b : number.
Variable cfg : config.

Definition restart_body_py (irestart : Z) (p : problem) : driver (problem * bool) :=
  if solver_is (fmin cfg) scipy_fmin then
    left ← lift (evalsleft_py b p);
    '(p', out) ← call_solver cfg irestart p (args_fmin left);
    stoppings_append (index p') out ;;
    ret (p', false)
  else if solver_is (fmin cfg) scipy_fmin_slsqp then
    left ← lift (evalsleft_py b p);
    iter ← lift (slsqp_iter_py left (dimension p));
    '(p', out) ← call_solver cfg irestart p (args_slsqp iter);
    stoppings_append (index p') out ;;
    ret (p', false)
  else if solver_is (fmin cfg) cocoex_random_search then
    left ← lift (evalsleft_py b p);
    '(p', _) ← call_solver cfg irestart p
        (args_random_search (list_times (dimension p) (-5))
                            (list_times (dimension p) 5) left);
    ret (p', false)
  else if solver_is (fmin cfg) random_search then
    left ← lift (evalsleft_py b p);
    emit (ev_solver irestart p
        (args_random_search (list_times (dimension p) (-5))
                            (list_times (dimension p) 5) left)) ;;
    p' ← random_search_run p (list_times (dimension p) (-5))
                            (list_times (dimension p) 5) left;
    ret (p', false)
  else if (11 <? 3) && String.eqb (solver_name (fmin cfg)) "fmin2"
          && str_contains "cma" (solver_module (fmin cfg)) then
    left ← lift (evalsleft_py b p);
    '(p', out) ← call_solver cfg irestart p (args_cma_restarts 2 left 9);
    stoppings_append (index p') out ;;
    ret (p', false)
  else if solver_is (fmin cfg) scipy_fmin_cobyla then
    left ← lift (evalsleft_py b p);
    '(p', _) ← call_solver cfg irestart p (args_cobyla left);
    ret (p', false)
  else
    p1 ← (if (11 <? 3) && (irestart =? 0) then
            iter ← lift (toggle_iter_py b);
            '(p', out) ← call_solver cfg irestart p (args_slsqp_toggle iter);
            stoppings_append (index p') out ;;
            ret p'
          else ret p);
    let sigma := 2 in
    let popsize := 2 ^ irestart * default_popsize (dimension p1) in
    left ← lift (evalsleft_py b p1);
    '(p2, out) ← call_solver cfg irestart p1 (args_cma sigma left popsize 0);
    stoppings_append (index p2) out ;;
    ret (p2, (1 <? 3) && (9 <=? irestart)).

Fixpoint restart_loop_py (fuel : nat) (irestart : Z) (p : problem)
  : driver (Z * problem) :=
  go ← lift (restart_guard_py b p);
  if go : bool then
    match fuel with
    | O => out_of_fuel
    | S fuel' =>
        let irestart := irestart + 1 in
        '(p', stop) ← restart_body_py irestart p;
        if stop : bool then ret (irestart, p') else restart_loop_py fuel' irestart p'
    end
  else ret (irestart, p).

(** Lines 201-202 with the conversion Python makes before it divides: the
    divisor [problem.evaluations], an [int], is taken to a float, and an
    [int] too large for a float raises [OverflowError].  The sample itself
    stays a rational, as all times do. *)
Definition timing_sample_py (time1 : Q) (p : problem) : driver Q :=
  if negb (evaluations p =? 0) then
    t ← external time_time;
    lift (float_of_int (evaluations p)) ;;
    lift (py_truediv (t - time1) (inject_Z (evaluations p)))
  else ret 0%Q.

Definition record_timing_py (time1 : Q) (p : problem) : driver unit :=
  sample ← timing_sample_py time1 p;
  timings_append (dimension p) sample.

(** Lines 129-210 around this loop. *)
Definition process_problem_py (fuel : nat) (suite_len : Z) (p : problem) : driver unit :=
  note_dimension p ;;
  emit (ev_observe_with (index p)) ;;
  p1 ← problem_call p (zeros (dimension p));
  time1 ← external time_time;
  '(irestart, p2) ← restart_loop_py fuel (-1) p1;
  record_timing_py time1 p2 ;;
  emit (ev_minimal_print (index p2) irestart (index p2 =? suite_len - 1)) ;;
  write_results_file.

Fixpoint suite_loop_py (fuel : nat) (suite_len batch_counter : Z) (suite : list problem)
  : driver unit :=
  match suite with
  | [] => ret tt
  | p :: rest =>
      skip ← lift (batch_skips (batches cfg) (current_batch cfg) batch_counter);
      (if skip : bool then ret tt else process_problem_py fuel suite_len p) ;;
      suite_loop_py fuel suite_len (batch_counter + 1) rest
  end.

(** Lines 111-233. *)
Definition experiment_py (fuel : nat) : driver unit :=
  emit (ev_suite (suite_name cfg) (suite_filter_options cfg)) ;;
  r ← external (cocoex_suite (suite_name cfg) (suite_filter_options cfg));
  suite ← lift r;
  emit (ev_observer (suite_name cfg)) ;;
  set_stoppings ∅ ;;
  set_timings ∅ ;;
  emit (ev_print (msg_benchmarking (solver_name (fmin cfg)) (solver_module (fmin cfg))
                                   (suite_name cfg))) ;;
  time0 ← external time_time;
  suite_loop_py fuel (Z.of_nat (length suite)) 0 suite ;;
  epilogue cfg time0.

End ExperimentPy.

(** ** Reading a trace *)

Definition solver_calls (t : list event) : list (Z * problem * fmin_args) :=
  omap (fun e => match e with ev_solver i p a => Some (i, p, a) | _ => None end) t.

(** The restart number and population-size hint of the calls that carry a
    hint. *)
Definition hinted (t : list event) : list (Z * Z) :=
  omap (fun '(i, _, a) => pair i <$> popsize_hint a) (solver_calls t).

Definition is_solver_call (e : event) : bool :=
  match e with ev_solver _ _ _ => true | _ => false end.

Definition is_evaluation (e : event) : bool :=
  match e with ev_evaluate _ _ => true | _ => false end.

(** The events up to the first solver call. *)
Fixpoint before_first_solver (t : list event) : list event :=
  match t with
  | [] => []
  | e :: t' => if is_solver_call e then [] else e :: before_first_solver t'
  end.

(** Indices of the problems reported done by [minimal_print]. *)
Definition processed_indices (t : list event) : gset Z :=
  list_to_set
    (omap (fun e => match e with ev_minimal_print idx _ _ => Some idx | _ => None end) t).

(** Those of them that made at least one restart attempt. *)
Definition restarted_indices (t : list event) : gset Z :=
  list_to_set
    (omap (fun e => match e with
                    | ev_minimal_print idx r _ => if 0 <=? r then Some idx else None
                    | _ => None
                    end) t).

(** The contents written to the results file, in order. *)
Definition file_writes (t : list event) : list (gmap Z (list stop_info)) :=
  omap (fun e => match e with ev_write_file d => Some d | _ => None end) t.

(** A configuration with another batch selection. *)
Definition with_batch (c : config) (cur nbatches : Z) : config :=
  apply_assignment (apply_assignment c (set_current_batch cur)) (set_batches nbatches).

(** The environment with the optional library mkl removed. *)
Definition without_mkl (env : environment) : environment :=
  {| platform_lower := platform_lower env; is_main := is_main env; argv := argv env;
     has_mkl := false; has_numpy := has_numpy env; has_cocoex := has_cocoex env;
     has_cocopp := has_cocopp env; has_scipy := has_scipy env; has_cma := has_cma env |}.

(** The environment with the optional libraries mkl and cocopp removed. *)
Definition without_mkl_cocopp (env : environment) : environment :=
  {| platform_lower := platform_lower env; is_main := is_main env; argv := argv env;
     has_mkl := false; has_numpy := has_numpy env; has_cocoex := has_cocoex env;
     has_cocopp := false; has_scipy := has_scipy env; has_cma := has_cma env |}.

(** What one pass of the loop body does, whatever the solver. *)
Definition body_spec (cfg : config) (i : Z) (p : problem) (s : state)
  (r : list event * outcome (problem * bool * state)) : Prop :=
  (fmin cfg = scipy_fmin_slsqp /\ fst r = [] /\ exists e, snd r = Raises e) \/
  exists a rest,
    fst r = ev_solver i p a :: rest /\
    Forall (fun e => is_evaluation e = true) rest /\
    (forall b, maxevals_of a = Some b -> b = evalsleft (budget_multiplier cfg) p) /\
    popsize_hint a =
      (if takes_default_branch (fmin cfg)
       then Some (2 ^ i * default_popsize (dimension p)) else None) /\
    match snd r with
    | Returns (p', stop, s') =>
        index p' = index p /\ dimension p' = dimension p /\
        stop = takes_default_branch (fmin cfg) && (9 <=? i) /\
        timings s' = timings s /\ results_file s' = results_file s /\
        if records_stoppings (fmin cfg)
        then exists out, stoppings s' = defaultdict_append (stoppings s) (index p) out
        else stoppings s' = stoppings s
    | Raises _ => True
    | OutOfFuel => False
    end.

(** Events that report a finished problem. *)
Definition is_report (e : event) : bool :=
  match e with
  | ev_minimal_print _ _ _ | ev_write_file _ => true
  | _ => false
  end.

(** Processing the selected problems one after the other. *)
Fixpoint process_all (cfg : config) (fuel : nat) (suite_len : Z)
  (selected : list (Z * problem)) : driver unit :=
  match selected with
  | [] => ret tt
  | (_, p) :: rest =>
      process_problem cfg fuel suite_len p ;; process_all cfg fuel suite_len rest
  end.

(** Events that are neither a solver call, an evaluation nor a report. *)
Definition is_quiet (e : event) : bool :=
  negb (is_solver_call e || is_evaluation e || is_report e).

(** The keys [stoppings] holds after a trace, from the keys before it: a
    problem reported with [restarted >= 0] under a recording solver adds
    its index. *)
Fixpoint seen_after (recording : bool) (seen : gset Z) (t : list event) : gset Z :=
  match t with
  | [] => seen
  | ev_minimal_print idx r _ :: t' =>
      seen_after recording
        (if recording && (0 <=? r) then seen ∪ {[idx]} else seen) t'
  | _ :: t' => seen_after recording seen t'
  end.

(** Every write of the results file in the trace has exactly the keys
    seen so far. *)
Fixpoint keys_ok (recording : bool) (seen : gset Z) (t : list event) : Prop :=
  match t with
  | [] => True
  | ev_minimal_print idx r _ :: t' =>
      keys_ok recording
        (if recording && (0 <=? r) then seen ∪ {[idx]} else seen) t'
  | ev_write_file d :: t' => dom d = seen /\ keys_ok recording seen t'
  | _ :: t' => keys_ok recording seen t'
  end.

(** What [set_num_threads] does to the outside. *)
Definition is_thread_setup (e : event) : bool :=
  match e with
  | ev_mkl_set_num_threads _ | ev_environ _ _
  | ev_print msg_mkl_not_installed | ev_print (msg_setting_threads _) => true
  | _ => false
  end.

(** How lines 55-92 end, by what is installed. *)
Definition prologue_outcome (env : environment) (s : state) : outcome (config * state) :=
  if negb (has_numpy env) then Raises (ImportError "numpy")
  else if negb (has_cocoex env) then Raises (ImportError "cocoex")
  else if negb (has_scipy env) then Raises (ImportError "scipy")
  else if negb (has_cma env) then Raises (NameError "cma")
  else Returns (input_variables cma_fmin2
                  (if has_cocopp env then BoundModule else Unbound), s).

(** Two configurations that differ at most in that [cocopp] is not bound
    in the first and is the module in the second. *)
Definition same_but_cocopp (c1 c2 : config) : Prop :=
  fmin c1 = fmin c2 /\ suite_name c1 = suite_name c2 /\
  budget_multiplier c1 = budget_multiplier c2 /\
  suite_filter_options c1 = suite_filter_options c2 /\
  batches c1 = batches c2 /\ current_batch c1 = current_batch c2 /\
  (cocopp c1 = cocopp c2 \/ (cocopp c1 = Unbound /\ cocopp c2 = BoundModule)).

(** The arguments of the command line are read alike whether or not the
    name [cocopp] is among the globals: no argument addresses it. *)
Definition cocopp_not_addressed (env : environment) : Prop :=
  forall w,
    args_to_dict (drop 1 (argv env)) (script_globals (input_variables cma_fmin2 Unbound)) w
    = args_to_dict (drop 1 (argv env))
        (script_globals (input_variables cma_fmin2 BoundModule)) w.


(** ** Further reading of runs *)

(** What holds of the value and the state a computation returns, when it
    returns. *)
Definition post {A} (m : driver A) (s : state) (Q : A -> state -> Prop) : Prop :=
  match snd (m s) with
  | Returns (a, s') => Q a s'
  | _ => True
  end.

(** The reports of a trace come in pairs: a [minimal_print] and, right
    after it, the write of the results file. *)
Fixpoint paired_reports (t : list event) : Prop :=
  match t with
  | [] => True
  | ev_minimal_print _ _ _ :: ev_write_file _ :: t' => paired_reports t'
  | _ => False
  end.

(** Two dictionaries that agree but for [key] being created empty. *)
Definition same_lists {V} (key : Z) (d1 d2 : gmap Z (list V)) : Prop :=
  delete key d2 = delete key d1 /\
  default [] (d2 !! key) = default [] (d1 !! key).

(** The two steps of post-processing, lines 232-233. *)
Definition is_postprocessing (e : event) : bool :=
  match e with
  | ev_postprocess | ev_browser => true
  | _ => false
  end.

(** A run that returns has a trace that ends with [suffix]. *)
Definition ends_with {A} (suffix : list event) (r : list event * outcome A) : Prop :=
  match snd r with
  | Returns _ => exists pre, fst r = pre ++ suffix
  | _ => True
  end.

(** The trace is some events that are not post-processing, and then
    nothing more or the two steps of post-processing. *)
Definition postprocessing_last {A} (r : list event * outcome A) : Prop :=
  exists pre tail,
    fst r = pre ++ tail /\
    Forall (fun e => is_postprocessing e = false) pre /\
    (tail = [] \/ tail = [ev_postprocess; ev_browser]).

(** The events of the loop over the suite. *)
Definition is_loop_event (e : event) : bool :=
  match e with
  | ev_print (msg_dimension_done _) | ev_observe_with _ | ev_evaluate _ _
  | ev_solver _ _ _ | ev_minimal_print _ _ _ | ev_write_file _ => true
  | _ => false
  end.

(** What [set_num_threads(1)] does, by whether mkl is installed. *)
Definition thread_setup (mkl : bool) : list event :=
  [if mkl then ev_mkl_set_num_threads 1 else ev_print msg_mkl_not_installed;
   ev_environ "OPENBLAS_NUM_THREADS" 1;
   ev_environ "NUMEXPR_NUM_THREADS" 1;
   ev_environ "OMP_NUM_THREADS" 1;
   ev_environ "MKL_NUM_THREADS" 1;
   ev_print (msg_setting_threads 1)].

(** The arguments each solver is called with, read off the branches of the
    dispatch that can be reached (lines 146, 149, 154, 160, 180). *)
Definition call_args (cfg : config) (irestart : Z) (p : problem) : fmin_args :=
  let left := evalsleft (budget_multiplier cfg) p in
  match fmin cfg with
  | scipy_fmin => args_fmin left
  | scipy_fmin_slsqp =>
      args_slsqp (py_int (inject_Z left / inject_Z (dimension p) + 1))
  | cocoex_random_search | random_search =>
      args_random_search (list_times (dimension p) (-5)) (list_times (dimension p) 5) left
  | scipy_fmin_cobyla => args_cobyla left
  | cma_fmin2 | other_solver _ _ =>
      args_cma 2 left (2 ^ irestart * default_popsize (dimension p)) 0
  end.

(** One pass of the loop body around a library solver: one call, then the
    record appended where the branch keeps one. *)
Definition library_pass (cfg : config) (irestart : Z) (p : problem) (s : state)
  : list event * outcome (problem * bool * state) :=
  let a := call_args cfg irestart p in
  let '(r, w) := run_solver (fmin cfg) a p (the_world s) in
  match r with
  | Ok (u, out) =>
      ([ev_solver irestart p a],
       Returns (apply_update u p,
                takes_default_branch (fmin cfg) && (9 <=? irestart),
                {| the_world := w;
                   stoppings := if records_stoppings (fmin cfg)
                                then defaultdict_append (stoppings s) (index p) out
                                else stoppings s;
                   timings := timings s;
                   results_file := results_file s |}))
  | Raise e => ([ev_solver irestart p a], Raises e)
  end.

(** What holds of every solver call of the loop. *)
Definition dispatched (cfg : config) (e : event) : Prop :=
  match e with
  | ev_solver i q a =>
      a = call_args cfg i q /\ restart_guard (budget_multiplier cfg) q = true
  | _ => True
  end.

(** Every list of [d1] is the beginning of the list [d2] holds under the
    same key (a missing key holds nothing). *)
Definition only_grown {V} (d1 d2 : gmap Z (list V)) : Prop :=
  forall key, exists more,
    default [] (d2 !! key) = default [] (d1 !! key) ++ more.

(** A call from one of the two switched-off places: [cma.fmin2] with its
    own restarts (lines 155-158, behind [11 < 3]) and the SLSQP toggle
    (lines 163-168, behind [11 < 3]). *)
Definition is_switched_off_call (e : event) : bool :=
  match e with
  | ev_solver _ _ (args_cma_restarts _ _ _) => true
  | ev_solver _ _ (args_slsqp_toggle _) => true
  | _ => false
  end.

(** ** Progress lines and dimensions *)

(** The progress line of a finished dimension, lines 130-132. *)
Definition is_dimension_done (e : event) : bool :=
  match e with
  | ev_print (msg_dimension_done _) => true
  | _ => false
  end.

(** Every dimension [timings] knows of holds a sample. *)
Definition all_sampled (d : gmap Z (list Q)) : Prop :=
  forall key l, d !! key = Some l -> l <> [].

(** The dimensions of the selected problems. *)
Definition dimensions_of (sel : list (Z * problem)) : gset Z :=
  list_to_set (map (fun kp => dimension (snd kp)) sel).

(** ** The output folder, lines 104-108 *)

(** ['%d' % n]: the decimal digits, after a minus sign if [n] is
    negative. *)
Definition format_d (n : Z) : string :=
  DecimalString.NilEmpty.string_of_int (Z.to_int n).

(** Zeros in front of the digits, behind the sign, up to [width]
    characters in all. *)
Definition zero_pad (width : nat) (d : Decimal.int) : Decimal.int :=
  match d with
  | Decimal.Pos u =>
      Decimal.Pos (Nat.iter (width - Decimal.nb_digits u) Decimal.D0 u)
  | Decimal.Neg u =>
      Decimal.Neg (Nat.iter (width - 1 - Decimal.nb_digits u) Decimal.D0 u)
  end.

(** ['%03d' % n], for [width = 3]. *)
Definition format_0d (width : nat) (n : Z) : string :=
  DecimalString.NilEmpty.string_of_int (zero_pad width (Z.to_int n)).

(** Lines 104-105: ['%s_of_%s_%dD_on_%s' % (fmin.__name__, fmin.__module__,
    int(budget_multiplier), suite_name)]. *)
Definition folder_stem (cfg : config) : string :=
  String.append (solver_name (fmin cfg))
    (String.append "_of_"
       (String.append (solver_module (fmin cfg))
          (String.append "_"
             (String.append (format_d (py_int (budget_multiplier cfg)))
                (String.append "D_on_" (suite_name cfg)))))).

(** Line 108: ["_batch%03dof%d" % (current_batch, batches)]. *)
Definition batch_suffix (cfg : config) : string :=
  String.append "_batch"
    (String.append (format_0d 3 (current_batch cfg))
       (String.append "of" (format_d (batches cfg)))).

(** Lines 104-108: [output_folder], from its value [folder] so far (the
    empty string of line 92, or what the arguments assigned). *)
Definition output_folder (folder : string) (cfg : config) : string :=
  let named := String.append folder (folder_stem cfg) in
  if 1 <? batches cfg then String.append named (batch_suffix cfg) else named.

(** Line 204: the name of the results file. *)
Definition results_file_name (folder : string) (cfg : config) : string :=
  String.append (output_folder folder cfg) "_stopping_conditions.pydict".

(** No letter [o] in a string. *)
Fixpoint no_letter_o (s : string) : bool :=
  match s with
  | EmptyString => true
  | String c s' => negb (Ascii.eqb c (Ascii.ascii_of_nat 111)) && no_letter_o s'
  end.

(** ** Reading runs of the loop with Python's arithmetic *)

(** What one pass of [restart_body_py] does: either the arithmetic raises
    before the solver is called, or the solver is called once, with the
    budget [evalsleft()] returns on the problem as it stands. *)
Definition body_py_spec (b : number) (cfg : config) (i : Z) (p : problem)
  (r : list event * outcome (problem * bool * state)) : Prop :=
  (fst r = [] /\
   exists e, snd r = Raises e /\
     (evalsleft_py b p = Raise e \/
      (fmin cfg = scipy_fmin_slsqp /\
       exists left, evalsleft_py b p = Ok left /\
                    slsqp_iter_py left (dimension p) = Raise e))) \/
  exists left a rest,
    evalsleft_py b p = Ok left /\
    fst r = ev_solver i p a :: rest /\
    Forall (fun e => is_evaluation e = true) rest /\
    (forall v, maxevals_of a = Some v -> v = left) /\
    (forall iter, a = args_slsqp iter ->
                  fmin cfg = scipy_fmin_slsqp /\
                  slsqp_iter_py left (dimension p) = Ok iter) /\
    match snd r with
    | Returns (p', stop, s') => index p' = index p /\ dimension p' = dimension p
    | Raises e => exists w, fst (run_solver (fmin cfg) a p w) = Raise e
    | OutOfFuel => False
    end.

(** What holds of a restart attempt: [evalsleft()], computed on the
    problem as the call finds it, returned the budget [left]; the loop
    condition found it positive and the target not hit; the call sites that
    pass a budget pass this number, and line 149 computes its iteration
    limit from it. *)
Definition attempt_ok (b : number) (e : event) : Prop :=
  match e with
  | ev_solver _ q a =>
      exists left,
        evalsleft_py b q = Ok left /\
        0 < left /\
        final_target_hit q = false /\
        (forall v, maxevals_of a = Some v -> v = left) /\
        (forall iter, a = args_slsqp iter ->
                      slsqp_iter_py left (dimension q) = Ok iter)
  | _ => True
  end.

(** The iteration limit handed to [fmin_slsqp], line 149: it is computed
    from the budget [evalsleft()] returned, and lies between 1 and that
    budget plus one on a problem of dimension 1 or more, as long as the
    budget plus one is below [2^53], where every integer is a float. *)
Definition slsqp_iter_ok (b : number) (e : event) : Prop :=
  match e with
  | ev_solver _ q (args_slsqp iter) =>
      exists left,
        evalsleft_py b q = Ok left /\ 0 < left /\
        slsqp_iter_py left (dimension q) = Ok iter /\
        (1 <= dimension q -> left + 1 < 2 ^ 53 -> 1 <= iter <= left + 1)
  | _ => True
  end.

(** Where an exception raised while the problem [p] is processed comes
    from.  Either a call of the solver on the problem raised it.  Or
    [evalsleft()] raised it: that takes a [float] multiplier, and the
    exception is that of [int()] on an infinity or a NaN, or of an [int]
    too large for a float.  Or line 149 raised it, under [fmin_slsqp],
    dividing by a dimension of 0 or overflowing.  Or the division of line
    201 raised it, on an evaluation count too large for a float. *)
Definition problem_error (b : number) (cfg : config) (p : problem) (e : exn) : Prop :=
  (exists a q w,
     index q = index p /\ dimension q = dimension p /\
     fst (run_solver (fmin cfg) a q w) = Raise e) \/
  (exists x q,
     b = float_number x /\
     index q = index p /\ dimension q = dimension p /\
     evalsleft_py b q = Raise e /\
     (e = OverflowError \/ e = ValueError "cannot convert float NaN to integer")) \/
  (exists left q,
     fmin cfg = scipy_fmin_slsqp /\
     index q = index p /\ dimension q = dimension p /\
     evalsleft_py b q = Ok left /\ 0 < left /\
     slsqp_iter_py left (dimension q) = Raise e /\
     ((e = ZeroDivisionError /\ dimension p = 0) \/ e = OverflowError)) \/
  (exists q,
     index q = index p /\ dimension q = dimension p /\
     evaluations q <> 0 /\
     float_of_int (evaluations q) = Raise e /\ e = OverflowError).

(** Where an exception of the experiment comes from, once the suite is
    built: the batch filter with [batches = 0]; a selected problem; the
    last dimension of a run that processed no problem; post-processing with
    [cocopp] bound to something that is not the module. *)
Definition experiment_error (b : number) (cfg : config) (suite : list problem) (e : exn)
  : Prop :=
  (e = ZeroDivisionError /\ batches cfg = 0 /\ suite <> []) \/
  (exists j p,
     (j, p) ∈ batch_of (batches cfg) (current_batch cfg) suite /\
     problem_error b cfg p e) \/
  (e = IndexError /\ batch_of (batches cfg) (current_batch cfg) suite = []) \/
  (e = AttributeError "main" /\ batches cfg = 1 /\
   cocopp_wanted (cocopp cfg) = true /\ cocopp cfg <> BoundModule).

(** ** Problems taken up and reported *)

(** The problems a trace takes up ([problem.observe_with(observer)], line
    133, is the first thing done to a problem that passes the filter) and
    those it reports done ([minimal_print], line 203), by [problem.index]
    and in order. *)
Definition taken_up (t : list event) : list Z :=
  omap (fun e => match e with ev_observe_with idx => Some idx | _ => None end) t.

Definition reported_done (t : list event) : list Z :=
  omap (fun e => match e with ev_minimal_print idx _ _ => Some idx | _ => None end) t.

(** The indices of the selected problems, in the order of the suite. *)
Definition indices_of (sel : list (Z * problem)) : list Z :=
  map (fun kp => index (snd kp)) sel.

(** * Properties *)

(** For facts that are pure arithmetic or about dictionaries: nothing of
    the outside world is needed to prove them. *)
Ltac forget_world :=
  try clear args_to_dict; try clear interpreter_globals; try clear cocoex_suite; try clear cma_popsize;
  try clear run_solver; try clear random_row; try clear evaluate;
  try clear time_time; try clear stop_info; try clear world.

(** ** Truncation and the remaining budget *)

Lemma py_int_nonneg (q : Q) : (0 <= q)%Q -> py_int q = Qfloor q.
Proof.
  destruct q as [n d]. unfold Qle, py_int, Qfloor. cbn. intros H.
  apply Z.quot_div_nonneg; lia.
Qed.

Lemma py_int_neg (q : Q) : (q < 0)%Q -> py_int q = Qceiling q.
Proof.
  destruct q as [n d]. unfold Qlt, py_int, Qceiling, Qfloor. cbn. intros H.
  replace n with (- - n) at 1 by lia.
  rewrite Z.quot_opp_l by lia.
  rewrite Z.quot_div_nonneg by lia. reflexivity.
Qed.

Lemma py_int_Qeq (q1 q2 : Q) : (q1 == q2)%Q -> py_int q1 = py_int q2.
Proof.
  intros E. destruct (Qlt_le_dec q1 0) as [H | H].
  - rewrite !py_int_neg; [ now apply Qceiling_comp | now rewrite <- E | exact H ].
  - rewrite !py_int_nonneg; [ now apply Qfloor_comp | now rewrite <- E | exact H ].
Qed.

Lemma py_int_inject_Z (z : Z) : py_int (inject_Z z) = z.
Proof. unfold py_int. cbn. apply Z.quot_1_r. Qed.

Lemma py_int_le (q1 q2 : Q) : (q1 <= q2)%Q -> py_int q1 <= py_int q2.
Proof.
  intros L. destruct (Qlt_le_dec q1 0) as [H1 | H1], (Qlt_le_dec q2 0) as [H2 | H2].
  - rewrite !py_int_neg by assumption. now apply Qceiling_resp_le.
  - rewrite (py_int_neg q1), (py_int_nonneg q2) by assumption.
    transitivity 0.
    + change 0 with (Qceiling 0). apply Qceiling_resp_le. now apply Qlt_le_weak.
    + change 0 with (Qfloor 0). now apply Qfloor_resp_le.
  - exfalso. apply (Qlt_irrefl 0).
    eapply Qle_lt_trans; [ exact H1 |]. eapply Qle_lt_trans; eassumption.
  - rewrite !py_int_nonneg by assumption. now apply Qfloor_resp_le.
Qed.

(** Truncating a positive budget loses less than one evaluation. *)
Lemma py_int_pos_bounds (q : Q) :
  0 < py_int q -> (inject_Z (py_int q) <= q < inject_Z (py_int q) + 1)%Q.
Proof.
  intros P. destruct (Qlt_le_dec q 0) as [H | H].
  - exfalso. pose proof (py_int_le q 0 (Qlt_le_weak _ _ H)) as L.
    change (py_int 0) with 0 in L. lia.
  - rewrite py_int_nonneg by assumption. split.
    + apply Qfloor_le.
    + replace (inject_Z (Qfloor q) + 1)%Q with (inject_Z (Qfloor q + 1)).
      * apply Qlt_floor.
      * rewrite inject_Z_plus. reflexivity.
Qed.

(** With an integer multiplier the truncation is the identity. *)
Lemma budget_expr_integer (k : Z) (p : problem) :
  (budget_expr (inject_Z k) p ==
   inject_Z (dimension p * k + 1 - Z.max (evaluations p) (evaluations_constraints p)))%Q.
Proof.
  unfold budget_expr.
  rewrite <- inject_Z_mult.
  change 1%Q with (inject_Z 1).
  rewrite <- inject_Z_plus.
  unfold Qminus. rewrite <- inject_Z_opp, <- inject_Z_plus. reflexivity.
Qed.

(** The shipped multiplier on a 2-dimensional problem evaluated once. *)
Example evalsleft_default :
  evalsleft (2 * 1e5 + 0)
    {| index := 0; dimension := 2; evaluations := 1;
       evaluations_constraints := 0; final_target_hit := false |} = 400000.
Proof. reflexivity. Qed.

Lemma evalsleft_integer (k : Z) (p : problem) :
  evalsleft (inject_Z k) p =
  dimension p * k + 1 - Z.max (evaluations p) (evaluations_constraints p).
Proof.
  unfold evalsleft. rewrite (py_int_Qeq _ _ (budget_expr_integer k p)).
  apply py_int_inject_Z.
Qed.

(** ** Running the monad *)

Ltac run :=
  unfold mbind, driver_bind, mret, driver_ret, bind, ret, emit, get, put, lift,
    raise, out_of_fuel, external, set_stoppings, set_timings; cbn.

Lemma random_rand_run (rows cols : nat) (s : state) :
  exists m w, random_rand rows cols s = ([], Returns (m, with_world s w)).
Proof.
  revert s. induction rows as [| rows IH]; intros s.
  - exists [], (the_world s). destruct s; reflexivity.
  - cbn. run. destruct (random_row cols (the_world s)) as [r w].
    destruct (IH (with_world s w)) as (m & w' & E). rewrite E.
    exists (r :: m), w'. reflexivity.
Qed.

Lemma problem_call_run (p : problem) (x : list Q) (s : state) :
  exists hit w,
    problem_call p x s =
    ([ev_evaluate (index p) x], Returns (evaluated p hit, with_world s w)).
Proof.
  unfold problem_call. run. destruct (evaluate p x (the_world s)) as [hit w].
  exists hit, w. reflexivity.
Qed.

Lemma evaluate_all_run (xs : list (list Q)) (p : problem) (s : state) :
  exists t p' w,
    evaluate_all p xs s = (t, Returns (p', with_world s w)) /\
    Forall (fun e => is_evaluation e = true) t /\
    index p' = index p /\ dimension p' = dimension p.
Proof.
  revert p s. induction xs as [| x xs IH]; intros p s.
  - exists [], p, (the_world s). destruct s; cbn; auto.
  - cbn. unfold mbind, driver_bind, bind.
    destruct (problem_call_run p x s) as (hit & w & E). rewrite E.
    match goal with |- context [evaluate_all ?q xs ?s'] =>
      destruct (IH q s') as (t & p' & w' & E' & Ft & Ei & Ed) end.
    rewrite E'. exists (ev_evaluate (index p) x :: t), p', w'. cbn in *. auto.
Qed.

Lemma random_search_run_spec (p : problem) (lb ub : list Z) (evals : Z) (s : state) :
  exists t p' w,
    random_search_run p lb ub evals s = (t, Returns (p', with_world s w)) /\
    Forall (fun e => is_evaluation e = true) t /\
    index p' = index p /\ dimension p' = dimension p.
Proof.
  unfold random_search_run, mbind, driver_bind, bind.
  destruct (random_rand_run (Z.to_nat evals) (length ub) s) as (m & w & E). rewrite E.
  destruct (evaluate_all_run (map (scale_row lb ub) m) p (with_world s w))
    as (t & p' & w' & E' & F & Ei & Ed).
  rewrite E'. exists t, p', w'. auto.
Qed.

Ltac body_done :=
  cbn; repeat split; eauto; try (intros ? X; cbn in X; congruence).

Lemma restart_body_spec (cfg : config) (i : Z) (p : problem) (s : state) :
  body_spec cfg i p s (restart_body cfg i p s).
Proof.
  unfold body_spec, restart_body.
  destruct (fmin cfg) eqn:Hf; cbn.
  - (* scipy.optimize.fmin *)
    right. unfold call_solver, stoppings_append. run. rewrite Hf.
    destruct (run_solver _ _ _ _) as [[[u out] | e] w]; cbn;
      eexists _, []; body_done.
  - (* fmin_slsqp *)
    unfold py_truediv. destruct (Qeq_bool _ 0).
    + left. run. eauto.
    + right. unfold call_solver, stoppings_append. run. rewrite Hf.
      destruct (run_solver _ _ _ _) as [[[u out] | e] w]; cbn;
        eexists _, []; body_done.
  - (* fmin_cobyla *)
    right. unfold call_solver. run. rewrite Hf.
    destruct (run_solver _ _ _ _) as [[[u out] | e] w]; cbn;
      eexists _, []; body_done.
  - (* cocoex.solvers.random_search *)
    right. unfold call_solver. run. rewrite Hf.
    destruct (run_solver _ _ _ _) as [[[u out] | e] w]; cbn;
      eexists _, []; body_done.
  - (* the script's own random_search *)
    right. unfold mbind, driver_bind, bind, emit.
    match goal with |- context [random_search_run ?q ?l ?u ?e ?s'] =>
      destruct (random_search_run_spec q l u e s') as (t & p' & w & E & F & Ei & Ed) end.
    rewrite E. cbn. rewrite app_nil_r. eexists _, t. body_done.
  - (* cma.fmin2 *)
    right. unfold call_solver, stoppings_append. run. rewrite Hf.
    destruct (run_solver _ _ _ _) as [[[u out] | e] w]; cbn;
      eexists _, []; body_done.
  - (* any other solver *)
    right. unfold call_solver, stoppings_append. run. rewrite Hf.
    destruct (run_solver _ _ _ _) as [[[u out] | e] w]; cbn;
      eexists _, []; body_done.
Qed.

(** ** The restart loop *)

Lemma restart_loop_unfold (cfg : config) (fuel : nat) (i : Z) (p : problem) (s : state) :
  restart_loop cfg fuel i p s =
  if restart_guard (budget_multiplier cfg) p then
    match fuel with
    | O => ([], OutOfFuel)
    | S fuel' =>
        match restart_body cfg (i + 1) p s with
        | (t, Returns (p', stop, s')) =>
            if stop : bool then (t ++ [], Returns (i + 1, p', s'))
            else let '(t', r) := restart_loop cfg fuel' (i + 1) p' s' in (t ++ t', r)
        | (t, Raises e) => (t, Raises e)
        | (t, OutOfFuel) => (t, OutOfFuel)
        end
    end
  else ([], Returns (i, p, s)).
Proof.
  destruct fuel; cbn; destruct (restart_guard _ p); try reflexivity.
  unfold mbind, driver_bind, bind.
  destruct (restart_body cfg (i + 1) p s) as [t [[[p' stop] s'] | e |]]; try reflexivity.
  destruct stop; reflexivity.
Qed.

Lemma solver_calls_app (t1 t2 : list event) :
  solver_calls (t1 ++ t2) = solver_calls t1 ++ solver_calls t2.
Proof. apply omap_app. Qed.

Lemma solver_calls_evaluations (t : list event) :
  Forall (fun e => is_evaluation e = true) t -> solver_calls t = [].
Proof.
  induction 1 as [| e t He _ IH]; [reflexivity |].
  destruct e; try discriminate. exact IH.
Qed.

Lemma evalsleft_Qeq (bm : Q) (k : Z) (p : problem) :
  (bm == inject_Z k)%Q ->
  evalsleft bm p =
  dimension p * k + 1 - Z.max (evaluations p) (evaluations_constraints p).
Proof.
  intros E. rewrite <- evalsleft_integer. unfold evalsleft, budget_expr.
  apply py_int_Qeq. rewrite E. reflexivity.
Qed.

Lemma restart_loop_bounded_from (cfg : config) :
  takes_default_branch (fmin cfg) = true ->
  forall (fuel : nat) (i : Z) (p : problem) (s : state),
    -1 <= i <= 8 -> 9 - i <= Z.of_nat fuel ->
    snd (restart_loop cfg fuel i p s) <> OutOfFuel /\
    Z.of_nat (length (solver_calls (fst (restart_loop cfg fuel i p s)))) <= 9 - i.
Proof.
  intros D. induction fuel as [| fuel IH]; intros i p s Hi Hf; [lia |].
  rewrite restart_loop_unfold.
  destruct (restart_guard (budget_multiplier cfg) p); cbn; [| split; [discriminate | lia]].
  pose proof (restart_body_spec cfg (i + 1) p s) as B.
  destruct (restart_body cfg (i + 1) p s) as [t o].
  destruct B as [(Hs & _) | (a & rest & Ht & Fr & _ & _ & Hpost)].
  { rewrite Hs in D. discriminate. }
  cbn in Ht, Hpost. subst t.
  assert (solver_calls (ev_solver (i + 1) p a :: rest) = [(i + 1, p, a)]) as Hc.
  { cbn. now rewrite solver_calls_evaluations. }
  destruct o as [[[p' stop] s'] | e |].
  - destruct Hpost as (_ & _ & Hstop & _). rewrite D in Hstop. cbn in Hstop. subst stop.
    destruct (9 <=? i + 1) eqn:L.
    + cbn [fst snd]. rewrite solver_calls_app, Hc. cbn. split; [discriminate | lia].
    + apply Z.leb_gt in L.
      destruct (IH (i + 1) p' s') as [N C]; [lia | lia |].
      destruct (restart_loop cfg fuel (i + 1) p' s') as [t' r]. cbn [fst snd] in *.
      split; [exact N |].
      rewrite solver_calls_app, Hc. cbn [length app]. cbn [length app] in C. lia.
  - cbn [fst snd]. rewrite Hc. cbn. split; [discriminate | lia].
  - contradiction.
Qed.

(** C2 (as amended): with the solver of the script, [cma.fmin2], or any
    solver that reaches the final [else] of the dispatch, the restart loop
    calls the solver at most 10 times and then ends, whatever the solver
    leaves on the problem; ten passes of fuel are enough for the model not
    to be cut off. *)
Theorem restart_loop_at_most_ten
  (cfg : config) (fuel : nat) (p : problem) (s : state) :
  takes_default_branch (fmin cfg) = true ->
  (10 <= fuel)%nat ->
  snd (restart_loop cfg fuel (-1) p s) <> OutOfFuel /\
  (length (solver_calls (fst (restart_loop cfg fuel (-1) p s))) <= 10)%nat.
Proof.
  intros D F.
  destruct (restart_loop_bounded_from cfg D fuel (-1) p s) as [N C]; [lia | lia |].
  split; [exact N | lia].
Qed.

(** In the other branches the loop has no [break]: it ends only when the
    budget is used up or the target is hit. *)
Lemma uncapped_loop_ends_on_guard (cfg : config) :
  takes_default_branch (fmin cfg) = false ->
  forall (fuel : nat) (i : Z) (p : problem) (s : state),
    match snd (restart_loop cfg fuel i p s) with
    | Returns (_, p', _) => restart_guard (budget_multiplier cfg) p' = false
    | _ => True
    end.
Proof.
  intros D. induction fuel as [| fuel IH]; intros i p s;
    rewrite restart_loop_unfold;
    destruct (restart_guard (budget_multiplier cfg) p) eqn:G; cbn [snd]; auto.
  pose proof (restart_body_spec cfg (i + 1) p s) as B.
  destruct (restart_body cfg (i + 1) p s) as [t o].
  destruct B as [(_ & _ & e & Ho) | (a & rest & _ & _ & _ & _ & Hpost)];
    cbn [fst snd] in *; subst; [exact I |].
  destruct o as [[[p' stop] s'] | e |]; cbn [snd]; auto.
  destruct Hpost as (_ & _ & Hstop & _). rewrite D in Hstop. cbn in Hstop. subst stop.
  specialize (IH (i + 1) p' s').
  destruct (restart_loop cfg fuel (i + 1) p' s') as [t' r]. exact IH.
Qed.

(** ** Population size *)

Lemma hinted_app (t1 t2 : list event) : hinted (t1 ++ t2) = hinted t1 ++ hinted t2.
Proof. unfold hinted. now rewrite solver_calls_app, omap_app. Qed.

Lemma hinted_call (i : Z) (p : problem) (a : fmin_args) (rest : list event) :
  Forall (fun e => is_evaluation e = true) rest ->
  hinted (ev_solver i p a :: rest) =
  match popsize_hint a with Some h => [(i, h)] | None => [] end.
Proof.
  intros F. unfold hinted.
  change (solver_calls (ev_solver i p a :: rest)) with ((i, p, a) :: solver_calls rest).
  rewrite (solver_calls_evaluations rest F). cbn.
  destruct (popsize_hint a); reflexivity.
Qed.

(** Without the final [else] no call carries a hint. *)
Lemma hinted_other_branches (cfg : config) :
  takes_default_branch (fmin cfg) = false ->
  forall (fuel : nat) (i : Z) (p : problem) (s : state),
    hinted (fst (restart_loop cfg fuel i p s)) = [].
Proof.
  intros D. induction fuel as [| fuel IH]; intros i p s;
    rewrite restart_loop_unfold;
    destruct (restart_guard (budget_multiplier cfg) p); try reflexivity.
  pose proof (restart_body_spec cfg (i + 1) p s) as B.
  destruct (restart_body cfg (i + 1) p s) as [t o].
  destruct B as [(_ & Ht & e & Ho) | (a & rest & Ht & Fr & _ & Hh & _)];
    cbn [fst snd] in *; subst.
  - reflexivity.
  - rewrite D in Hh.
    assert (hinted (ev_solver (i + 1) p a :: rest) = []) as Hc.
    { rewrite hinted_call by assumption. now rewrite Hh. }
    destruct o as [[[p' stop] s'] | e |]; cbn [fst snd]; try exact Hc.
    destruct stop; cbn [fst snd].
    + now rewrite hinted_app, Hc.
    + specialize (IH (i + 1) p' s').
      destruct (restart_loop cfg fuel (i + 1) p' s') as [t' r]. cbn [fst snd] in *.
      now rewrite hinted_app, Hc, IH.
Qed.

Lemma doubling_S (dp i : Z) (n : nat) :
  doubling dp i (S n) = (i + 1, 2 ^ (i + 1) * dp) :: doubling dp (i + 1) n.
Proof.
  unfold doubling. cbn [seq map]. rewrite Z.add_0_r. f_equal.
  rewrite <- seq_shift, map_map. apply map_ext. intros k.
  replace (i + 1 + Z.of_nat (S k)) with (i + 1 + 1 + Z.of_nat k) by lia. reflexivity.
Qed.

Lemma hinted_default_branch (cfg : config) :
  takes_default_branch (fmin cfg) = true ->
  forall (fuel : nat) (i : Z) (p : problem) (s : state),
    hinted (fst (restart_loop cfg fuel i p s)) =
    doubling (default_popsize (dimension p)) i
      (length (hinted (fst (restart_loop cfg fuel i p s)))).
Proof.
  intros D. induction fuel as [| fuel IH]; intros i p s;
    rewrite restart_loop_unfold;
    destruct (restart_guard (budget_multiplier cfg) p); try reflexivity.
  pose proof (restart_body_spec cfg (i + 1) p s) as B.
  destruct (restart_body cfg (i + 1) p s) as [t o].
  destruct B as [(Hs & _) | (a & rest & Ht & Fr & _ & Hh & Hpost)].
  { rewrite Hs in D. discriminate. }
  cbn [fst snd] in *. subst t. rewrite D in Hh.
  assert (hinted (ev_solver (i + 1) p a :: rest)
          = [(i + 1, 2 ^ (i + 1) * default_popsize (dimension p))]) as Hc.
  { rewrite hinted_call by assumption. now rewrite Hh. }
  destruct o as [[[p' stop] s'] | e |]; cbn [fst snd];
    [| rewrite Hc; cbn [length]; rewrite doubling_S; reflexivity | contradiction].
  destruct Hpost as (_ & Hd & _).
  destruct stop; cbn [fst snd].
  - rewrite hinted_app, Hc. change (hinted []) with (@nil (Z * Z)).
    cbn [app length]. rewrite doubling_S. reflexivity.
  - specialize (IH (i + 1) p' s').
    destruct (restart_loop cfg fuel (i + 1) p' s') as [t' r]. cbn [fst snd] in *.
    rewrite hinted_app, Hc. cbn [app length]. rewrite doubling_S. f_equal.
    rewrite Hd in IH. exact IH.
Qed.

(** In the final [else] every attempt carries a hint. *)
Lemma all_attempts_hinted (cfg : config) :
  takes_default_branch (fmin cfg) = true ->
  forall (fuel : nat) (i : Z) (p : problem) (s : state),
    length (hinted (fst (restart_loop cfg fuel i p s)))
    = length (solver_calls (fst (restart_loop cfg fuel i p s))).
Proof.
  intros D. induction fuel as [| fuel IH]; intros i p s;
    rewrite restart_loop_unfold;
    destruct (restart_guard (budget_multiplier cfg) p); try reflexivity.
  pose proof (restart_body_spec cfg (i + 1) p s) as B.
  destruct (restart_body cfg (i + 1) p s) as [t o].
  destruct B as [(Hs & _) | (a & rest & Ht & Fr & _ & Hh & Hpost)].
  { rewrite Hs in D. discriminate. }
  cbn [fst snd] in *. subst t. rewrite D in Hh.
  assert (length (hinted (ev_solver (i + 1) p a :: rest)) = 1%nat /\
          length (solver_calls (ev_solver (i + 1) p a :: rest)) = 1%nat) as [Hh1 Hc1].
  { rewrite hinted_call by assumption. rewrite Hh. cbn.
    now rewrite solver_calls_evaluations. }
  destruct o as [[[p' stop] s'] | e |]; cbn [fst snd]; [| congruence | contradiction].
  destruct stop; cbn [fst snd].
  - rewrite app_nil_r. congruence.
  - specialize (IH (i + 1) p' s').
    destruct (restart_loop cfg fuel (i + 1) p' s') as [t' r]. cbn [fst snd] in *.
    rewrite hinted_app, solver_calls_app, !length_app. congruence.
Qed.

(** C7: on restart attempt k, counted from 0, the population-size hint is
    [2^k] times the default population size of the problem's dimension: the
    hinted calls of the loop are numbered 0, 1, 2, ... and carry
    [2^0 * d, 2^1 * d, 2^2 * d, ...], each twice the one before. Hints are
    passed in the final [else] of the dispatch, the branch of [cma.fmin2],
    and there with every attempt; the other branches pass none. *)
Theorem popsize_doubles (cfg : config) (fuel : nat) (p : problem) (s : state) :
  hinted (fst (restart_loop cfg fuel (-1) p s)) =
    map (fun k => (Z.of_nat k, 2 ^ Z.of_nat k * default_popsize (dimension p)))
        (seq 0 (length (hinted (fst (restart_loop cfg fuel (-1) p s))))) /\
  length (hinted (fst (restart_loop cfg fuel (-1) p s))) =
    (if takes_default_branch (fmin cfg)
     then length (solver_calls (fst (restart_loop cfg fuel (-1) p s)))
     else 0%nat).
Proof.
  destruct (takes_default_branch (fmin cfg)) eqn:D.
  - split; [| now apply all_attempts_hinted].
    rewrite (hinted_default_branch cfg D fuel (-1) p s) at 1.
    unfold doubling. apply map_ext. intros k.
    replace (-1 + 1 + Z.of_nat k) with (Z.of_nat k) by lia. reflexivity.
  - rewrite (hinted_other_branches cfg D). split; reflexivity.
Qed.

(** ** Batches *)


Lemma batch_skips_mod (n i k : Z) :
  n <> 0 -> batch_skips n i k = Ok (negb (k mod n =? i mod n)).
Proof.
  intros H. unfold batch_skips, py_mod.
  destruct (n =? 0) eqn:E; [apply Z.eqb_eq in E; contradiction | reflexivity].
Qed.

Lemma batch_skips_index_mod (n i k : Z) :
  batch_skips n (i mod n) k = batch_skips n i k.
Proof.
  unfold batch_skips, py_mod.
  destruct (n =? 0) eqn:E; [reflexivity |].
  apply Z.eqb_neq in E. now rewrite Z.mod_mod.
Qed.

Lemma elem_of_batch_from (n cur : Z) (suite : list problem) (k0 c : Z) (p : problem) :
  (c, p) ∈ batch_from n cur k0 suite <->
  exists m : nat,
    suite !! m = Some p /\ c = k0 + Z.of_nat m /\ batch_skips n cur c = Ok false.
Proof.
  forget_world.
  revert k0. induction suite as [| q rest IH]; intros k0; cbn [batch_from].
  - split; [intros H; inversion H | intros (m & H & _); discriminate].
  - assert ((c, p) ∈ batch_from n cur (k0 + 1) rest <->
            exists m : nat, (q :: rest) !! S m = Some p /\ c = k0 + Z.of_nat (S m)
                            /\ batch_skips n cur c = Ok false) as Tail.
    { rewrite IH. split; intros (m & H1 & H2 & H3); exists m; cbn in *;
        repeat split; auto; lia. }
    assert (forall skipped : Prop,
              (skipped <-> (q = p /\ c = k0 /\ batch_skips n cur c = Ok false)) ->
              (skipped \/ (c, p) ∈ batch_from n cur (k0 + 1) rest) <->
              exists m : nat, (q :: rest) !! m = Some p /\ c = k0 + Z.of_nat m
                              /\ batch_skips n cur c = Ok false) as Split.
    { intros skipped Hs. rewrite Tail, Hs. split.
      - intros [(-> & -> & H) | (m & H)]; [exists 0%nat | exists (S m)]; auto.
        cbn. repeat split; auto. lia.
      - intros ([| m] & H1 & H2 & H3); [left | right; eauto].
        cbn in H1. inversion H1. repeat split; auto. lia. }
    destruct (batch_skips n cur k0) as [[|] | e] eqn:E.
    + rewrite <- (Split False); [tauto |].
      split; [tauto | intros (_ & -> & H); congruence].
    + rewrite elem_of_cons. rewrite <- (Split ((c, p) = (k0, q))); [tauto |].
      split; [intros [= -> ->]; auto | intros (-> & -> & _); reflexivity].
    + rewrite <- (Split False); [tauto |].
      split; [tauto | intros (_ & -> & H); congruence].
Qed.

Lemma mod_of_batch_index (n j : Z) :
  1 <= j <= n -> j mod n = if j =? n then 0 else j.
Proof.
  intros H. destruct (j =? n) eqn:E.
  - apply Z.eqb_eq in E. subst. apply Z_mod_same_full.
  - apply Z.eqb_neq in E. apply Z.mod_small. lia.
Qed.

(** For a batch count n >= 1, each position of the suite passes the filter
    of exactly one of the batch indices 1..n. *)
Lemma batch_selection_partition
  (n : Z) (suite : list problem) (k : nat) (p : problem) :
  1 <= n ->
  suite !! k = Some p ->
  exists i,
    1 <= i <= n /\
    Z.of_nat k mod n = i mod n /\
    (Z.of_nat k, p) ∈ batch_of n i suite /\
    forall j, 1 <= j <= n -> (Z.of_nat k, p) ∈ batch_of n j suite -> j = i.
Proof.
  intros Hn Hk.
  pose proof (Z.mod_pos_bound (Z.of_nat k) n ltac:(lia)) as Hm.
  set (r := Z.of_nat k mod n) in *.
  exists (if r =? 0 then n else r).
  assert (1 <= (if r =? 0 then n else r) <= n) as Hi.
  { destruct (r =? 0) eqn:E; [lia |]. apply Z.eqb_neq in E. lia. }
  assert (r = (if r =? 0 then n else r) mod n) as Hr.
  { rewrite mod_of_batch_index by exact Hi.
    destruct (r =? 0) eqn:E.
    - rewrite Z.eqb_refl. now apply Z.eqb_eq in E.
    - apply Z.eqb_neq in E. destruct (r =? n) eqn:E'; [apply Z.eqb_eq in E'; lia | reflexivity]. }
  split; [exact Hi |]. split; [exact Hr |]. split.
  - unfold batch_of. apply elem_of_batch_from. exists k.
    split; [exact Hk |]. split; [lia |].
    rewrite batch_skips_mod by lia. fold r. rewrite <- Hr, Z.eqb_refl. reflexivity.
  - intros j Hj Hin. unfold batch_of in Hin.
    apply elem_of_batch_from in Hin as (m & _ & _ & Hs).
    rewrite batch_skips_mod in Hs by lia. fold r in Hs.
    injection Hs as Hs. apply negb_false_iff, Z.eqb_eq in Hs.
    rewrite mod_of_batch_index in Hs by exact Hj.
    rewrite Hs in *.
    destruct (j =? n) eqn:E.
    + apply Z.eqb_eq in E. cbn. lia.
    + apply Z.eqb_neq in E. destruct (j =? 0) eqn:E0; [apply Z.eqb_eq in E0; lia | reflexivity].
Qed.

Lemma bind_ext {A B} (m : driver A) (f g : A -> driver B) (s : state) :
  (forall a s', f a s' = g a s') -> bind m f s = bind m g s.
Proof.
  intros H. unfold bind. destruct (m s) as [t [[a s'] | e |]]; try reflexivity.
  now rewrite H.
Qed.

Lemma bind_ret_l {A B} (a : A) (f : A -> driver B) (s : state) :
  bind (ret a) f s = f a s.
Proof. unfold bind, ret. destruct (f a s). reflexivity. Qed.

Lemma bind_lift_ok {A B} (a : A) (f : A -> driver B) (s : state) :
  bind (lift (Ok a)) f s = f a s.
Proof. unfold bind, lift. destruct (f a s). reflexivity. Qed.

(** The loop reads the configuration only through [fmin],
    [budget_multiplier] and the batch test. *)
Lemma restart_body_ext (c1 c2 : config) (i : Z) (p : problem) (s : state) :
  fmin c1 = fmin c2 -> budget_multiplier c1 = budget_multiplier c2 ->
  restart_body c1 i p s = restart_body c2 i p s.
Proof. intros H1 H2. unfold restart_body, call_solver. now rewrite H1, H2. Qed.

Lemma restart_loop_ext (c1 c2 : config) (fuel : nat) (i : Z) (p : problem) (s : state) :
  fmin c1 = fmin c2 -> budget_multiplier c1 = budget_multiplier c2 ->
  restart_loop c1 fuel i p s = restart_loop c2 fuel i p s.
Proof.
  intros H1 H2. revert i p s. induction fuel as [| fuel IH]; intros i p s;
    rewrite !restart_loop_unfold, H2; [reflexivity |].
  rewrite (restart_body_ext c1 c2) by assumption.
  destruct (restart_guard _ p); [| reflexivity].
  destruct (restart_body c2 (i + 1) p s) as [t [[[p' stop] s'] | e |]]; try reflexivity.
  now rewrite IH.
Qed.

Lemma process_problem_ext (c1 c2 : config) (fuel : nat) (len : Z) (p : problem) (s : state) :
  fmin c1 = fmin c2 -> budget_multiplier c1 = budget_multiplier c2 ->
  process_problem c1 fuel len p s = process_problem c2 fuel len p s.
Proof.
  intros H1 H2. unfold process_problem, mbind, driver_bind.
  repeat (apply bind_ext; intros).
  unfold bind. now rewrite (restart_loop_ext c1 c2).
Qed.

Lemma suite_loop_ext (c1 c2 : config) (fuel : nat) (len : Z) :
  fmin c1 = fmin c2 -> budget_multiplier c1 = budget_multiplier c2 ->
  (forall k, batch_skips (batches c1) (current_batch c1) k
             = batch_skips (batches c2) (current_batch c2) k) ->
  forall (suite : list problem) (k : Z) (s : state),
    suite_loop c1 fuel len k suite s = suite_loop c2 fuel len k suite s.
Proof.
  intros H1 H2 H3. induction suite as [| p rest IH]; intros k s; [reflexivity |].
  cbn [suite_loop]. unfold mbind, driver_bind. rewrite H3.
  apply bind_ext. intros skip s1.
  destruct skip.
  - apply bind_ext. intros. apply IH.
  - unfold bind. rewrite (process_problem_ext c1 c2) by assumption.
    destruct (process_problem c2 fuel len p s1) as [t [[a s'] | e |]]; try reflexivity.
    now rewrite IH.
Qed.

(** X24: the loop over the suite processes the problems its batch selects,
    in order: it runs as the plain sequence of [process_problem] over the
    selected problems does, skipped problems leaving no trace. *)
Lemma suite_loop_processes_batch (cfg : config) (fuel : nat) (len : Z) :
  batches cfg <> 0 ->
  forall (suite : list problem) (k : Z) (s : state),
    suite_loop cfg fuel len k suite s =
    process_all cfg fuel len (batch_from (batches cfg) (current_batch cfg) k suite) s.
Proof.
  intros Hn. induction suite as [| p rest IH]; intros k s; [reflexivity |].
  cbn [suite_loop batch_from]. unfold mbind, driver_bind.
  rewrite batch_skips_mod by exact Hn.
  rewrite bind_lift_ok.
  destruct (negb _).
  - rewrite bind_ret_l. apply IH.
  - cbn [process_all]. unfold mbind, driver_bind. apply bind_ext. intros. apply IH.
Qed.

Lemma batch_from_ext (n i j : Z) :
  (forall k, batch_skips n i k = batch_skips n j k) ->
  forall (suite : list problem) (k : Z), batch_from n i k suite = batch_from n j k suite.
Proof.
  intros H. induction suite as [| p rest IH]; intros k; [reflexivity |].
  cbn [batch_from]. rewrite H, !IH. reflexivity.
Qed.

(** C8: [batch=9/8] and [batch=1/8] select the same problems, and the loop
    over the suite runs alike under both; in general the batch index
    counts only modulo the number of batches. *)
Theorem batch_index_counts_modulo
  (cfg : config) (fuel : nat) (len k : Z) (suite : list problem) (s : state) :
  batch_of 8 9 suite = batch_of 8 1 suite /\
  suite_loop (with_batch cfg 9 8) fuel len k suite s
    = suite_loop (with_batch cfg 1 8) fuel len k suite s /\
  (forall n i, batch_of n i suite = batch_of n (i mod n) suite) /\
  (forall n i,
     suite_loop (with_batch cfg i n) fuel len k suite s
       = suite_loop (with_batch cfg (i mod n) n) fuel len k suite s).
Proof.
  assert (forall n i, batch_of n i suite = batch_of n (i mod n) suite) as Hb.
  { intros n i. unfold batch_of. apply batch_from_ext.
    intros c. now rewrite batch_skips_index_mod. }
  assert (forall n i,
     suite_loop (with_batch cfg i n) fuel len k suite s
       = suite_loop (with_batch cfg (i mod n) n) fuel len k suite s) as Hl.
  { intros n i. apply suite_loop_ext; try reflexivity.
    intros c. cbn. now rewrite batch_skips_index_mod. }
  split; [rewrite (Hb 8 9); reflexivity |].
  split; [rewrite (Hl 8 9); reflexivity |].
  split; assumption.
Qed.

(** ** Timings *)

Lemma py_truediv_nonzero (a : Q) (n : Z) :
  n <> 0 -> py_truediv a (inject_Z n) = Ok (a / inject_Z n)%Q.
Proof.
  intros H. unfold py_truediv.
  destruct (Qeq_bool (inject_Z n) 0) eqn:E; [| reflexivity].
  apply Qeq_bool_iff in E. unfold Qeq in E. cbn in E. lia.
Qed.

Lemma defaultdict_append_lookup {V} (d : gmap Z (list V)) (key : Z) (x : V) :
  defaultdict_append d key x !! key = Some (default [] (d !! key) ++ [x]).
Proof.
  unfold defaultdict_append, defaultdict_get.
  destruct (d !! key) as [l |]; cbn; now rewrite lookup_insert_eq.
Qed.

Lemma defaultdict_append_dom {V} (d : gmap Z (list V)) (key : Z) (x : V) :
  dom (defaultdict_append d key x) = dom d ∪ {[key]}.
Proof.
  forget_world. unfold defaultdict_append, defaultdict_get.
  destruct (d !! key) as [l |]; rewrite !dom_insert_L;
    apply set_eq; intros k; rewrite !elem_of_union, !elem_of_singleton; tauto.
Qed.

(** The statement of lines 201-202 on its own: it appends the elapsed time
    divided by [problem.evaluations] when that count is not zero and 0 when
    it is; it always completes. *)
Lemma record_timing_sample (time1 : Q) (p : problem) (s : state) :
  let now := fst (time_time (the_world s)) in
  let sample :=
    if evaluations p =? 0 then 0%Q
    else ((now - time1) / inject_Z (evaluations p))%Q in
  exists s',
    record_timing time1 p s = ([], Returns (tt, s')) /\
    timings s' !! dimension p = Some (default [] (timings s !! dimension p) ++ [sample]) /\
    fst (timing_sample time1 p s) = [] /\
    exists s1, snd (timing_sample time1 p s) = Returns (sample, s1).
Proof.
  cbn zeta. unfold record_timing, timing_sample, timings_append.
  destruct (evaluations p =? 0) eqn:E; cbn [negb].
  - run. eexists. split; [reflexivity |]. cbn.
    split; [apply defaultdict_append_lookup |]. eauto.
  - apply Z.eqb_neq in E. run.
    destruct (time_time (the_world s)) as [now w]. cbn.
    rewrite (py_truediv_nonzero _ _ E). cbn.
    eexists. split; [reflexivity |]. cbn.
    split; [apply defaultdict_append_lookup |]. eauto.
Qed.

(** ** One problem *)

Lemma bind_returns {A B} (m : driver A) (f : A -> driver B) (s : state) t a s' :
  m s = (t, Returns (a, s')) ->
  bind m f s = (t ++ fst (f a s'), snd (f a s')).
Proof. intros H. unfold bind. rewrite H. destruct (f a s'); reflexivity. Qed.

Lemma bind_raises {A B} (m : driver A) (f : A -> driver B) (s : state) t e :
  m s = (t, Raises e) -> bind m f s = (t, Raises e).
Proof. intros H. unfold bind. now rewrite H. Qed.

Lemma bind_out_of_fuel {A B} (m : driver A) (f : A -> driver B) (s : state) t :
  m s = (t, OutOfFuel) -> bind m f s = (t, OutOfFuel).
Proof. intros H. unfold bind. now rewrite H. Qed.

Lemma note_dimension_run (p : problem) (s : state) :
  exists tn s1,
    note_dimension p s = (tn, Returns (tt, s1)) /\
    Forall (fun e => is_quiet e = true) tn /\
    stoppings s1 = stoppings s /\ results_file s1 = results_file s.
Proof.
  unfold note_dimension. run.
  destruct (defaultdict_get (timings s) (dimension p)) as [l d].
  destruct (negb _ && _); cbn; eexists _, _; (split; [reflexivity |]); cbn; auto.
Qed.

Lemma write_results_file_run (s : state) :
  exists s', write_results_file s = ([ev_write_file (stoppings s)], Returns (tt, s')) /\
             stoppings s' = stoppings s /\ results_file s' = Some (stoppings s).
Proof. unfold write_results_file. run. eexists. split; [reflexivity |]. cbn. auto. Qed.

Lemma record_timing_run (time1 : Q) (p : problem) (s : state) :
  exists s', record_timing time1 p s = ([], Returns (tt, s')) /\
             stoppings s' = stoppings s /\ results_file s' = results_file s.
Proof.
  unfold record_timing, timing_sample, timings_append.
  destruct (evaluations p =? 0) eqn:E; cbn [negb].
  - run. eexists. split; [reflexivity |]. cbn. auto.
  - apply Z.eqb_neq in E. run.
    destruct (time_time (the_world s)) as [now w]. cbn.
    rewrite (py_truediv_nonzero _ _ E). cbn.
    eexists. split; [reflexivity |]. cbn. auto.
Qed.

Lemma process_problem_run (cfg : config) (fuel : nat) (len : Z) (p : problem) (s : state) :
  exists tn hit s2,
    Forall (fun e => is_quiet e = true) tn /\
    stoppings s2 = stoppings s /\ results_file s2 = results_file s /\
    forall tl o,
      restart_loop cfg fuel (-1) (evaluated p hit) s2 = (tl, o) ->
      let head :=
        tn ++ ev_observe_with (index p)
           :: ev_evaluate (index p) (zeros (dimension p)) :: tl in
      match o with
      | Returns (ir, p2, s3) =>
          exists s5,
            process_problem cfg fuel len p s =
              (head ++ [ev_minimal_print (index p2) ir (index p2 =? len - 1);
                        ev_write_file (stoppings s3)], Returns (tt, s5)) /\
            stoppings s5 = stoppings s3 /\ results_file s5 = Some (stoppings s3)
      | Raises e => process_problem cfg fuel len p s = (head, Raises e)
      | OutOfFuel => process_problem cfg fuel len p s = (head, OutOfFuel)
      end.
Proof.
  destruct (note_dimension_run p s) as (tn & s1 & En & Qn & Hs1 & Hf1).
  destruct (problem_call_run p (zeros (dimension p)) s1) as (hit & w1 & Ec).
  destruct (time_time w1) as [time1 w2] eqn:Et.
  exists tn, hit, (with_world s1 w2).
  split; [exact Qn |]. split; [exact Hs1 |]. split; [exact Hf1 |].
  intros tl o El.
  assert (process_problem cfg fuel len p s =
          (tn ++ ev_observe_with (index p) :: ev_evaluate (index p) (zeros (dimension p))
              :: fst (bind (restart_loop cfg fuel (-1) (evaluated p hit))
                        (fun '(irestart, p2) =>
                           bind (record_timing time1 p2)
                             (fun _ => bind (emit (ev_minimal_print (index p2) irestart
                                                     (index p2 =? len - 1)))
                                         (fun _ => write_results_file)))
                        (with_world s1 w2)),
           snd (bind (restart_loop cfg fuel (-1) (evaluated p hit))
                        (fun '(irestart, p2) =>
                           bind (record_timing time1 p2)
                             (fun _ => bind (emit (ev_minimal_print (index p2) irestart
                                                     (index p2 =? len - 1)))
                                         (fun _ => write_results_file)))
                        (with_world s1 w2)))) as E.
  { unfold process_problem, mbind, driver_bind.
    rewrite (bind_returns _ _ _ _ _ _ En). f_equal; [f_equal |].
    - unfold bind at 1. unfold emit at 1. cbn [app fst].
      rewrite (bind_returns _ _ _ _ _ _ Ec). cbn [app fst]. f_equal. f_equal.
      unfold bind at 1, external at 1. cbn [the_world with_world]. rewrite Et.
      cbn. destruct (bind _ _ _). reflexivity.
    - unfold bind at 1. unfold emit at 1. cbn [app snd].
      rewrite (bind_returns _ _ _ _ _ _ Ec). cbn [snd].
      unfold bind at 1, external at 1. cbn [the_world with_world]. rewrite Et.
      cbn. destruct (bind _ _ _). reflexivity. }
  rewrite E. clear E.
  destruct o as [[[ir p2] s3] | e |]; cbn zeta;
    [| rewrite (bind_raises _ _ _ _ _ El); reflexivity
     | rewrite (bind_out_of_fuel _ _ _ _ El); reflexivity].
  rewrite (bind_returns _ _ _ _ _ _ El).
  destruct (record_timing_run time1 p2 s3) as (s4 & Er & Hs4 & Hf4).
  destruct (write_results_file_run s4) as (s5 & Ew & Hs5 & Hf5).
  exists s5. rewrite (bind_returns _ _ _ _ _ _ Er).
  unfold bind, emit. rewrite Ew. cbn. rewrite Hs4 in *.
  split; [| split; assumption].
  f_equal. rewrite <- !app_assoc. reflexivity.
Qed.

(** The trace of the loop is made of solver calls and evaluations, starts
    with a solver call if it is not empty, and the loop leaves the
    dictionaries alone but for the key of the problem in [stoppings]. *)
Lemma restart_loop_shape (cfg : config) (fuel : nat) (i : Z) (p : problem) (s : state) :
  Forall (fun e => is_solver_call e || is_evaluation e = true)
         (fst (restart_loop cfg fuel i p s)) /\
  (fst (restart_loop cfg fuel i p s) = [] \/
   exists a rest,
     fst (restart_loop cfg fuel i p s) = ev_solver (i + 1) p a :: rest /\
     restart_guard (budget_multiplier cfg) p = true) /\
  match snd (restart_loop cfg fuel i p s) with
  | Returns (i', p', s') =>
      i <= i' /\ index p' = index p /\ dimension p' = dimension p /\
      results_file s' = results_file s /\
      dom (stoppings s') =
        dom (stoppings s) ∪
        (if records_stoppings (fmin cfg) && (i <? i') then {[index p]} else ∅)
  | _ => True
  end.
Proof.
  forget_world.
  revert i p s. induction fuel as [| fuel IH]; intros i p s;
    rewrite restart_loop_unfold;
    destruct (restart_guard (budget_multiplier cfg) p) eqn:G; cbn [fst snd];
    try (split; [constructor | split; [now left |]]; try exact I;
         rewrite Z.ltb_irrefl, andb_false_r, union_empty_r_L;
         repeat split; auto; lia).
  pose proof (restart_body_spec cfg (i + 1) p s) as B.
  destruct (restart_body cfg (i + 1) p s) as [t o].
  destruct B as [(_ & Ht & e & Ho) | (a & rest & Ht & Fr & _ & _ & Hpost)];
    cbn [fst snd] in *; subst.
  { split; [constructor | split; [now left | exact I]]. }
  assert (Forall (fun e => is_solver_call e || is_evaluation e = true)
                 (ev_solver (i + 1) p a :: rest)) as Hb.
  { constructor; [reflexivity |]. eapply Forall_impl; [exact Fr |].
    intros e He. cbn beta in He. rewrite He. apply orb_true_r. }
  destruct o as [[[p' stop] s'] | e |]; cbn [fst snd];
    [| split; [exact Hb | split; [right; eauto | exact I]] | contradiction].
  destruct Hpost as (Hi & Hd & _ & _ & Hf & Hst).
  assert (dom (stoppings s') =
          dom (stoppings s) ∪ (if records_stoppings (fmin cfg) then {[index p]} else ∅)) as Hdom.
  { destruct (records_stoppings (fmin cfg)).
    - destruct Hst as [out ->]. apply defaultdict_append_dom.
    - rewrite Hst. now rewrite union_empty_r_L. }
  destruct stop; cbn [fst snd].
  - rewrite app_nil_r. split; [exact Hb |]. split; [right; eauto |].
    replace (i <? i + 1) with true by (symmetry; apply Z.ltb_lt; lia).
    rewrite andb_true_r. repeat split; auto; lia.
  - specialize (IH (i + 1) p' s').
    destruct (restart_loop cfg fuel (i + 1) p' s') as [t' r]. cbn [fst snd] in *.
    destruct IH as (F' & _ & Hr).
    split; [| split; [right; eauto |]].
    + change (Forall (fun e => is_solver_call e || is_evaluation e = true)
                     ((ev_solver (i + 1) p a :: rest) ++ t')).
      apply Forall_app. split; assumption.
    + destruct r as [[[i' p''] s''] | |]; try exact I.
      destruct Hr as (Hle & Hi' & Hd' & Hf' & Hdom').
      replace (i <? i') with true by (symmetry; apply Z.ltb_lt; lia).
      rewrite andb_true_r.
      repeat split; try congruence; try lia.
      rewrite Hdom', Hdom, Hi.
      destruct (records_stoppings (fmin cfg)); cbn [andb].
      * destruct (i + 1 <? i'); apply set_eq; intros k;
          rewrite ?elem_of_union, ?elem_of_singleton, ?elem_of_empty; tauto.
      * apply set_eq; intros k; rewrite ?elem_of_union, ?elem_of_empty; tauto.
Qed.

(** ** The evaluation at the origin *)

Lemma before_first_solver_app (t1 t2 : list event) :
  Forall (fun e => is_solver_call e = false) t1 ->
  before_first_solver (t1 ++ t2) = t1 ++ before_first_solver t2.
Proof.
  induction 1 as [| e t1 He _ IH]; [reflexivity |].
  cbn. rewrite He. now rewrite IH.
Qed.

Lemma quiet_not_solver (t : list event) :
  Forall (fun e => is_quiet e = true) t -> Forall (fun e => is_solver_call e = false) t.
Proof.
  intros H. eapply Forall_impl; [exact H |]. intros e. now destruct e.
Qed.

Lemma quiet_no_evaluation (t : list event) :
  Forall (fun e => is_quiet e = true) t -> List.filter is_evaluation t = [].
Proof.
  induction 1 as [| e t He _ IH]; [reflexivity |].
  cbn. destruct e; try discriminate; exact IH.
Qed.

Lemma quiet_no_solver_calls (t : list event) :
  Forall (fun e => is_quiet e = true) t -> solver_calls t = [].
Proof.
  induction 1 as [| e t He _ IH]; [reflexivity |].
  destruct e; try discriminate; exact IH.
Qed.

Lemma solver_calls_cons_other (e : event) (t : list event) :
  is_solver_call e = false -> solver_calls (e :: t) = solver_calls t.
Proof. destruct e; try discriminate; reflexivity. Qed.

(** One more evaluation never raises the remaining budget. *)
Lemma evalsleft_evaluated_le (bm : Q) (p : problem) (hit : bool) :
  evalsleft bm (evaluated p hit) <= evalsleft bm p.
Proof.
  unfold evalsleft. apply py_int_le. unfold budget_expr. cbn [evaluated dimension
    evaluations evaluations_constraints].
  apply Qplus_le_compat; [apply Qle_refl |].
  apply Qopp_le_compat. rewrite <- Zle_Qle. lia.
Qed.


(** ** The results file *)

Lemma keys_ok_app (recording : bool) (t1 t2 : list event) (seen : gset Z) :
  keys_ok recording seen (t1 ++ t2) <->
  keys_ok recording seen t1 /\ keys_ok recording (seen_after recording seen t1) t2.
Proof.
  forget_world.
  revert seen. induction t1 as [| e t1 IH]; intros seen; cbn; [tauto |].
  destruct e; cbn; rewrite ?IH; tauto.
Qed.

Lemma seen_after_app (recording : bool) (t1 t2 : list event) (seen : gset Z) :
  seen_after recording seen (t1 ++ t2)
  = seen_after recording (seen_after recording seen t1) t2.
Proof.
  revert seen. induction t1 as [| e t1 IH]; intros seen; cbn; [reflexivity |].
  destruct e; cbn; now rewrite ?IH.
Qed.

Lemma no_report_keys (recording : bool) (t : list event) (seen : gset Z) :
  Forall (fun e => is_report e = false) t ->
  keys_ok recording seen t /\ seen_after recording seen t = seen.
Proof.
  induction 1 as [| e t He _ IH]; [cbn; auto |].
  destruct e; try discriminate; exact IH.
Qed.

Lemma seen_after_restarted (recording : bool) (t : list event) (seen : gset Z) :
  seen_after recording seen t
  = seen ∪ (if recording then restarted_indices t else ∅).
Proof.
  forget_world.
  revert seen. induction t as [| e t IH]; intros seen.
  - cbn. destruct recording; unfold restarted_indices; cbn;
      apply set_eq; intros k; rewrite ?elem_of_union, ?elem_of_empty; tauto.
  - assert (forall f : event -> option Z, f e = None ->
              list_to_set (C := gset Z) (omap f (e :: t)) = list_to_set (omap f t)) as Skip.
    { intros f Hf. cbn. now rewrite Hf. }
    destruct e; cbn [seen_after]; rewrite IH; unfold restarted_indices;
      try (rewrite Skip by reflexivity; reflexivity).
    destruct recording; cbn [andb]; [| reflexivity].
    cbn. destruct (0 <=? restarted); cbn; [| reflexivity].
    apply set_eq; intros k.
    rewrite !elem_of_union, elem_of_singleton. tauto.
Qed.

Lemma keys_ok_lookup (recording : bool) (t : list event) (seen : gset Z) (n : nat) d :
  keys_ok recording seen t ->
  t !! n = Some (ev_write_file d) ->
  dom d = seen_after recording seen (take n t).
Proof.
  forget_world.
  revert seen n. induction t as [| e t IH]; intros seen n K L; [discriminate |].
  destruct n as [| n]; cbn in L.
  - injection L as ->. cbn in *. tauto.
  - cbn [take]. destruct e; cbn in *; try (now apply IH).
Qed.

Lemma process_problem_keys (cfg : config) (fuel : nat) (len : Z) (p : problem) (s : state) :
  keys_ok (records_stoppings (fmin cfg)) (dom (stoppings s))
          (fst (process_problem cfg fuel len p s)) /\
  match snd (process_problem cfg fuel len p s) with
  | Returns (_, s') =>
      dom (stoppings s') =
      seen_after (records_stoppings (fmin cfg)) (dom (stoppings s))
                 (fst (process_problem cfg fuel len p s))
  | _ => True
  end.
Proof.
  destruct (process_problem_run cfg fuel len p s) as (tn & hit & s2 & Qn & Hs2 & _ & Hrun).
  pose proof (restart_loop_shape cfg fuel (-1) (evaluated p hit) s2) as (Fl & _ & Hpost).
  destruct (restart_loop cfg fuel (-1) (evaluated p hit) s2) as [tl o] eqn:El.
  specialize (Hrun tl o eq_refl). cbn [fst snd] in *. cbn zeta in Hrun.
  set (head := tn ++ ev_observe_with (index p)
                  :: ev_evaluate (index p) (zeros (dimension p)) :: tl) in *.
  assert (Forall (fun e => is_report e = false) head) as Hhead.
  { apply Forall_app. split.
    - eapply Forall_impl; [exact Qn |]. intros e. now destruct e.
    - repeat constructor. eapply Forall_impl; [exact Fl |]. intros e. now destruct e. }
  destruct (no_report_keys (records_stoppings (fmin cfg)) _ (dom (stoppings s)) Hhead)
    as [Hk Hseen].
  destruct o as [[[ir p2] s3] | e |].
  - destruct Hrun as (s5 & -> & Hs5 & _). cbn [fst snd].
    destruct Hpost as (_ & Hi & _ & _ & Hdom).
    rewrite keys_ok_app, seen_after_app, Hseen.
    cbn [keys_ok seen_after]. rewrite Hs5, Hdom, Hs2, Hi. cbn [evaluated index].
    replace (-1 <? ir) with (0 <=? ir)
      by (destruct (Z.leb_spec 0 ir), (Z.ltb_spec (-1) ir); auto; lia).
    destruct (records_stoppings (fmin cfg) && (0 <=? ir));
      rewrite ?union_empty_r_L; auto.
  - rewrite Hrun. cbn [fst snd]. auto.
  - rewrite Hrun. cbn [fst snd]. auto.
Qed.

Lemma suite_loop_keys (cfg : config) (fuel : nat) (len : Z) :
  forall (suite : list problem) (k : Z) (s : state),
    keys_ok (records_stoppings (fmin cfg)) (dom (stoppings s))
            (fst (suite_loop cfg fuel len k suite s)).
Proof.
  induction suite as [| p rest IH]; intros k s; [exact I |].
  cbn [suite_loop]. unfold mbind, driver_bind.
  destruct (batch_skips (batches cfg) (current_batch cfg) k) as [skip | e];
    [rewrite bind_lift_ok | exact I].
  destruct skip.
  - rewrite bind_ret_l. apply IH.
  - pose proof (process_problem_keys cfg fuel len p s) as [Hk Hs].
    unfold bind at 1.
    destruct (process_problem cfg fuel len p s) as [t [[[] s'] | e |]];
      cbn [fst snd] in *; try exact Hk.
    specialize (IH (k + 1) s').
    destruct (suite_loop cfg fuel len (k + 1) rest s') as [t' r]. cbn [fst snd] in *.
    apply keys_ok_app. split; [exact Hk |]. rewrite <- Hs. exact IH.
Qed.

Lemma restarted_subset_processed (t : list event) :
  restarted_indices t ⊆ processed_indices t.
Proof.
  unfold restarted_indices, processed_indices.
  induction t as [| e t IH]; [reflexivity |].
  destruct e; cbn; try exact IH.
  destruct (0 <=? restarted); cbn.
  - apply union_mono_l. exact IH.
  - etransitivity; [exact IH |]. apply union_subseteq_r.
Qed.


Lemma file_writes_app (t1 t2 : list event) :
  file_writes (t1 ++ t2) = file_writes t1 ++ file_writes t2.
Proof. apply omap_app. Qed.

(** The file holds what was written last. *)
Lemma results_file_is_last_write (cfg : config) (fuel : nat) (len : Z) :
  forall (suite : list problem) (k : Z) (s : state),
    match snd (suite_loop cfg fuel len k suite s) with
    | Returns (_, s') =>
        results_file s' =
        match last (file_writes (fst (suite_loop cfg fuel len k suite s))) with
        | Some d => Some d
        | None => results_file s
        end
    | _ => True
    end.
Proof.
  induction suite as [| p rest IH]; intros k s; [reflexivity |].
  cbn [suite_loop]. unfold mbind, driver_bind.
  destruct (batch_skips (batches cfg) (current_batch cfg) k) as [skip | e];
    [rewrite bind_lift_ok | exact I].
  destruct skip.
  - rewrite bind_ret_l. apply IH.
  - destruct (process_problem_run cfg fuel len p s) as (tn & hit & s2 & _ & _ & _ & Hrun).
    destruct (restart_loop cfg fuel (-1) (evaluated p hit) s2) as [tl o].
    specialize (Hrun tl o eq_refl). cbn zeta in Hrun.
    destruct o as [[[ir p2] s3] | e |];
      [| rewrite (bind_raises _ _ _ _ _ Hrun); exact I
       | rewrite (bind_out_of_fuel _ _ _ _ Hrun); exact I].
    destruct Hrun as (s5 & Hrun & _ & Hf5).
    rewrite (bind_returns _ _ _ _ _ _ Hrun).
    specialize (IH (k + 1) s5).
    destruct (suite_loop cfg fuel len (k + 1) rest s5) as [t' [[[] s'] | e |]];
      cbn [fst snd] in *; try exact I.
    rewrite IH, !file_writes_app. cbn [file_writes omap list_omap].
    change (file_writes t') with (omap (fun e : event =>
      match e with ev_write_file d => Some d | _ => None end) t').
    destruct (omap _ t') as [| d ds] eqn:Ew using rev_ind.
    + rewrite app_nil_r, last_snoc. cbn. exact Hf5.
    + rewrite app_assoc, !last_snoc. reflexivity.
Qed.

(** ** Module level *)

Lemma set_num_threads_run (env : environment) (nt : Z) (disp : bool) (s : state) :
  exists t, set_num_threads env nt disp s = (t, Returns (tt, s)) /\
            Forall (fun e => is_thread_setup e = true) t.
Proof.
  unfold set_num_threads. destruct (has_mkl env), disp; run;
    eexists; (split; [reflexivity |]); repeat constructor.
Qed.

Lemma prologue_run (env : environment) (s : state) :
  exists t, prologue env s = (t, prologue_outcome env s) /\
            Forall (fun e => is_thread_setup e = true) t.
Proof.
  unfold prologue, prologue_outcome, import, mbind, driver_bind.
  assert (exists t,
            (if negb (string_in (platform_lower env) ["darwin"; "windows"]%string)
             then set_num_threads env 1 true else ret tt) s = (t, Returns (tt, s)) /\
            Forall (fun e => is_thread_setup e = true) t) as (t & Et & Ft).
  { destruct (negb _); [apply set_num_threads_run |].
    exists []. split; [reflexivity | constructor]. }
  exists t. split; [| exact Ft].
  rewrite (bind_returns _ _ _ _ _ _ Et).
  destruct (has_numpy env), (has_cocoex env), (has_scipy env), (has_cma env);
    run; rewrite ?app_nil_r; reflexivity.
Qed.

Lemma string_in_In (x : string) (l : list string) : In x l -> string_in x l = true.
Proof.
  intros H. unfold string_in. apply existsb_exists. exists x.
  split; [exact H | apply String.eqb_refl].
Qed.

(** Only [sys.argv[1]] is compared with the help tokens: when it is not one
    of them the script prints nothing here and goes on to [args_to_dict],
    wherever else a help token may stand. *)
Lemma help_only_first_argument (env : environment) (c : config) (s : state) :
  string_in (nth 1 (argv env) EmptyString) help_tokens = false ->
  fst (read_arguments env c s) = [].
Proof.
  intros H. unfold read_arguments. destruct (is_main env); [| reflexivity].
  rewrite H, andb_false_r. run.
  destruct (args_to_dict _ _ _) as [[l | e] w]; reflexivity.
Qed.

(** C6 (as amended): when the script is run as the main module with its
    imports and the name [cma] available, and the first command-line
    argument is one of [-h], [help], [-help], [--help], it prints the module
    documentation and raises [ValueError]; before that it has only set the
    number of threads: no suite, no observer, no solver call. *)
Theorem help_as_first_argument
  (fuel : nat) (env : environment) (s : state) (tok : string) :
  is_main env = true ->
  has_numpy env = true -> has_cocoex env = true ->
  has_scipy env = true -> has_cma env = true ->
  argv env !! 1%nat = Some tok ->
  In tok help_tokens ->
  snd (script fuel env s) = Raises (ValueError "printed help and aborted") /\
  exists setup,
    fst (script fuel env s) = setup ++ [ev_print msg_doc] /\
    Forall (fun e => is_thread_setup e = true) setup.
Proof.
  intros Hmain Hnp Hco Hsc Hcma Harg Htok.
  destruct (prologue_run env s) as (t & Ep & Ft).
  unfold prologue_outcome in Ep. rewrite Hnp, Hco, Hsc, Hcma in Ep. cbn [negb] in Ep.
  unfold script, mbind, driver_bind.
  rewrite (bind_returns _ _ _ _ _ _ Ep).
  assert (forall c, read_arguments env c s =
                    ([ev_print msg_doc], Raises (ValueError "printed help and aborted")))
    as Er.
  { intros c. unfold read_arguments. rewrite Hmain.
    assert ((1 <? Z.of_nat (length (argv env))) = true) as ->.
    { apply Z.ltb_lt. apply lookup_lt_Some in Harg. lia. }
    assert (nth 1 (argv env) EmptyString = tok) as ->.
    { destruct (argv env) as [| a0 [| a1 rest]]; try discriminate.
      cbn in Harg. now injection Harg. }
    rewrite (string_in_In _ _ Htok). reflexivity. }
  rewrite (bind_raises _ _ _ _ _ (Er _)). cbn [fst snd].
  split; [reflexivity |]. exists t. split; [reflexivity | exact Ft].
Qed.

(** *** The optional libraries *)

Lemma snd_bind_ext {A1 A2 B}
  (m1 : driver A1) (m2 : driver A2) (f1 : A1 -> driver B) (f2 : A2 -> driver B)
  (R : A1 -> A2 -> Prop) (s1 s2 : state) :
  match snd (m1 s1), snd (m2 s2) with
  | Returns (a1, s1'), Returns (a2, s2') =>
      R a1 a2 /\ snd (f1 a1 s1') = snd (f2 a2 s2')
  | Raises e1, Raises e2 => e1 = e2
  | OutOfFuel, OutOfFuel => True
  | _, _ => False
  end ->
  snd (bind m1 f1 s1) = snd (bind m2 f2 s2).
Proof.
  unfold bind.
  destruct (m1 s1) as [t1 [[a1 s1'] | e1 |]], (m2 s2) as [t2 [[a2 s2'] | e2 |]];
    cbn [snd]; try contradiction; try congruence.
  intros [_ H]. destruct (f1 a1 s1'), (f2 a2 s2'). exact H.
Qed.

Lemma snd_bind_same {A B} (m : driver A) (f1 f2 : A -> driver B) (s : state) :
  (forall a s', snd (f1 a s') = snd (f2 a s')) ->
  snd (bind m f1 s) = snd (bind m f2 s).
Proof.
  intros H. apply (snd_bind_ext m m f1 f2 (fun _ _ => True)).
  destruct (snd (m s)) as [[a s'] | e |]; auto.
Qed.

Lemma apply_assignment_same_but_cocopp (c1 c2 : config) (a : assignment) :
  same_but_cocopp c1 c2 -> same_but_cocopp (apply_assignment c1 a) (apply_assignment c2 a).
Proof.
  unfold same_but_cocopp. intros (H1 & H2 & H3 & H4 & H5 & H6 & H7).
  destruct a; cbn; repeat split; auto.
Qed.

Lemma foldl_same_but_cocopp (l : list assignment) (c1 c2 : config) :
  same_but_cocopp c1 c2 ->
  same_but_cocopp (foldl apply_assignment c1 l) (foldl apply_assignment c2 l).
Proof.
  revert c1 c2. induction l as [| a l IH]; intros c1 c2 H; [exact H |].
  cbn. apply IH. now apply apply_assignment_same_but_cocopp.
Qed.

Lemma postprocess_same_but_cocopp (c1 c2 : config) (s : state) :
  same_but_cocopp c1 c2 -> snd (postprocess c1 s) = snd (postprocess c2 s).
Proof.
  intros (_ & _ & _ & _ & Hb & _ & Hc). unfold postprocess. rewrite Hb.
  destruct Hc as [-> | [-> ->]]; [reflexivity |].
  destruct (batches c2 =? 1); reflexivity.
Qed.

Lemma epilogue_same_but_cocopp (c1 c2 : config) (time0 : Q) (s : state) :
  same_but_cocopp c1 c2 -> snd (epilogue c1 time0 s) = snd (epilogue c2 time0 s).
Proof.
  intros H. pose proof H as (_ & _ & _ & _ & Hb & Hc & _).
  unfold epilogue, mbind, driver_bind. rewrite Hb, Hc.
  repeat (apply snd_bind_same; intros).
  now apply postprocess_same_but_cocopp.
Qed.

Lemma experiment_same_but_cocopp (c1 c2 : config) (fuel : nat) (s : state) :
  same_but_cocopp c1 c2 -> snd (experiment c1 fuel s) = snd (experiment c2 fuel s).
Proof.
  intros H. pose proof H as (Hf & Hn & Hm & Ho & Hb & Hc & _).
  unfold experiment, mbind, driver_bind. rewrite Hf, Hn, Ho.
  repeat (apply snd_bind_same; intros).
  apply (snd_bind_ext _ _ _ _ (fun _ _ => True)).
  rewrite (suite_loop_ext c1 c2) by (try assumption; intros; now rewrite Hb, Hc).
  destruct (snd (suite_loop c2 fuel _ 0 _ _)) as [[[] s1] | e |]; auto.
  split; [exact I |]. now apply epilogue_same_but_cocopp.
Qed.

Lemma read_arguments_same_but_cocopp (env1 env2 : environment) (c1 c2 : config) (s : state) :
  is_main env1 = is_main env2 -> argv env1 = argv env2 ->
  same_but_cocopp c1 c2 ->
  (is_main env2 = true ->
   forall w, args_to_dict (drop 1 (argv env2)) (script_globals c1) w
             = args_to_dict (drop 1 (argv env2)) (script_globals c2) w) ->
  match snd (read_arguments env1 c1 s), snd (read_arguments env2 c2 s) with
  | Returns (a1, s1), Returns (a2, s2) => same_but_cocopp a1 a2 /\ s1 = s2
  | Raises e1, Raises e2 => e1 = e2
  | OutOfFuel, OutOfFuel => True
  | _, _ => False
  end.
Proof.
  intros Hm Ha H Hread. unfold read_arguments. rewrite Hm, Ha.
  destruct (is_main env2); [| cbn; auto].
  destruct ((1 <? Z.of_nat (length (argv env2))) && _); [reflexivity |].
  run. rewrite (Hread eq_refl).
  destruct (args_to_dict _ _ _) as [[l | e] w]; cbn; [| reflexivity].
  split; [| reflexivity]. now apply foldl_same_but_cocopp.
Qed.

(** C5 (as amended): a missing mkl or cocopp is caught where it is imported
    (with a message for mkl, silently for cocopp): the imports end the same
    way whatever [has_mkl] and [has_cocopp].  Without mkl the whole script
    returns, or raises the same exception, as with it.  Without cocopp it
    does so as long as the command line is read alike with and without the
    name [cocopp] among the globals handed to [args_to_dict]; an argument
    that addresses [cocopp] is the exception.  The name [cma] is different:
    without the library the import is skipped and [fmin = cma.fmin2] raises
    [NameError]. *)
Theorem missing_mkl_cocopp_never_fatal (fuel : nat) (env : environment) (s : state) :
  snd (prologue env s) =
    (if negb (has_numpy env) then Raises (ImportError "numpy")
     else if negb (has_cocoex env) then Raises (ImportError "cocoex")
     else if negb (has_scipy env) then Raises (ImportError "scipy")
     else if negb (has_cma env) then Raises (NameError "cma")
     else Returns (input_variables cma_fmin2
                     (if has_cocopp env then BoundModule else Unbound), s)) /\
  snd (script fuel (without_mkl env) s) = snd (script fuel env s) /\
  ((is_main env = true -> cocopp_not_addressed env) ->
   snd (script fuel (without_mkl_cocopp env) s) = snd (script fuel env s)).
Proof.
  split.
  { destruct (prologue_run env s) as (t & -> & _). reflexivity. }
  destruct (prologue_run env s) as (t & Ep & _).
  split.
  { destruct (prologue_run (without_mkl env) s) as (t' & Ep' & _).
    unfold script, mbind, driver_bind.
    apply (snd_bind_ext _ _ _ _ eq).
    rewrite Ep, Ep'. cbn [snd].
    change (prologue_outcome (without_mkl env) s) with (prologue_outcome env s).
    destruct (prologue_outcome env s) as [[c s1] | e |]; auto. }
  intros Hread.
  destruct (prologue_run (without_mkl_cocopp env) s) as (t' & Ep' & _).
  unfold script, mbind, driver_bind.
  apply (snd_bind_ext _ _ _ _ same_but_cocopp).
  rewrite Ep, Ep'. unfold prologue_outcome. cbn [snd without_mkl_cocopp has_numpy
    has_cocoex has_scipy has_cma has_cocopp].
  destruct (has_numpy env), (has_cocoex env), (has_scipy env), (has_cma env);
    cbn [negb]; try reflexivity.
  assert (same_but_cocopp (input_variables cma_fmin2 Unbound)
            (input_variables cma_fmin2 (if has_cocopp env then BoundModule else Unbound)))
    as Hc.
  { unfold same_but_cocopp. cbn. destruct (has_cocopp env); repeat split; auto. }
  split; [exact Hc |].
  apply (snd_bind_ext _ _ _ _ same_but_cocopp).
  assert (is_main env = true ->
          forall w,
            args_to_dict (drop 1 (argv env))
              (script_globals (input_variables cma_fmin2 Unbound)) w
            = args_to_dict (drop 1 (argv env))
                (script_globals (input_variables cma_fmin2
                   (if has_cocopp env then BoundModule else Unbound))) w) as Hr'.
  { intros Hm w. destruct (has_cocopp env); [exact (Hread Hm w) | reflexivity]. }
  pose proof (read_arguments_same_but_cocopp (without_mkl_cocopp env) env _ _ s
                eq_refl eq_refl Hc Hr') as Hr.
  destruct (snd (read_arguments (without_mkl_cocopp env) _ s)) as [[a1 s1] | e1 |],
           (snd (read_arguments env _ s)) as [[a2 s2] | e2 |]; try exact Hr.
  destruct Hr as [Ha ->]. split; [exact Ha |].
  now apply experiment_same_but_cocopp.
Qed.

(** ** Python's floats *)

(** The rounding reads its argument as a rational number, not as a
    fraction. *)
Lemma fl_compat (x y : Q) : (x == y)%Q -> fl x = fl y.
Proof. forget_world. intros E. unfold fl. now rewrite (Qred_complete x y E). Qed.

Lemma round_half_even_between (y : Q) (lo hi : Z) :
  (inject_Z lo <= y)%Q -> (y <= inject_Z hi)%Q ->
  lo <= round_half_even y <= hi.
Proof.
  forget_world. intros Hlo Hhi.
  assert (lo <= Qfloor y) as Hf.
  { rewrite <- (Qfloor_Z lo). now apply Qfloor_resp_le. }
  assert (Qfloor y <= hi) as Hf'.
  { rewrite <- (Qfloor_Z hi). now apply Qfloor_resp_le. }
  unfold round_half_even.
  assert ((0 < y - inject_Z (Qfloor y))%Q -> Qfloor y + 1 <= hi) as Hup.
  { intros Hpos.
    assert (inject_Z (Qfloor y) < inject_Z hi)%Q as Hlt by lra.
    rewrite <- Zlt_Qlt in Hlt. lia. }
  destruct (Qcompare_spec (y - inject_Z (Qfloor y)) (1 # 2)) as [E | L | G].
  - assert (0 < y - inject_Z (Qfloor y))%Q as P by (rewrite E; reflexivity).
    destruct (Z.even (Qfloor y)); [lia | specialize (Hup P); lia].
  - lia.
  - assert (0 < y - inject_Z (Qfloor y))%Q as P.
    { eapply Qlt_trans; [| exact G]. reflexivity. }
    specialize (Hup P). lia.
Qed.

Lemma ilog2_upper (a : Q) :
  (0 < a)%Q -> (a < inject_Z (2 ^ 53))%Q -> ilog2 a <= 52.
Proof.
  forget_world. intros Hpos Hlt. unfold ilog2.
  set (k := Z.log2 (Qnum a) - Z.log2 (Z.pos (Qden a))).
  assert (k <= 53) as Hk.
  { unfold Qlt in Hlt, Hpos. cbn in Hlt, Hpos.
    assert (Z.log2 (Qnum a) <= Z.log2 (Z.pos (Qden a) * 2 ^ 53)) as H.
    { apply Z.log2_le_mono. lia. }
    rewrite Z.log2_mul_pow2 in H by lia. unfold k. lia. }
  destruct (Qle_bool (scale2 1 k) a) eqn:T; [| lia].
  apply Qle_bool_iff in T.
  destruct (Z.le_gt_cases k 52) as [| Hbig]; [assumption | exfalso].
  assert (k = 53) as -> by lia.
  unfold scale2 in T. cbn [Z.leb] in T.
  change (0 <=? 53) with true in T. cbv iota in T.
  rewrite Qmult_1_l in T.
  exact (Qlt_irrefl _ (Qle_lt_trans _ _ _ T Hlt)).
Qed.

(** Rounding does not step over an integer below [2^53]. *)
Lemma fl_between (x : Q) (lo hi : Z) :
  - 2 ^ 53 < lo -> hi < 2 ^ 53 ->
  (inject_Z lo <= x)%Q -> (x <= inject_Z hi)%Q ->
  exists r, fl x = Finite r /\ (inject_Z lo <= r)%Q /\ (r <= inject_Z hi)%Q.
Proof.
  forget_world. intros Blo Bhi Hlo Hhi. unfold fl.
  pose proof (Qred_correct x) as Eq. set (q := Qred x) in *.
  assert (inject_Z lo <= q)%Q as Hlo' by (now rewrite Eq).
  assert (q <= inject_Z hi)%Q as Hhi' by (now rewrite Eq).
  clearbody q. clear Eq Hlo Hhi x.
  assert (inject_Z (2 ^ 53) == 9007199254740992)%Q as E53 by reflexivity.
  assert (inject_Z lo > - inject_Z (2 ^ 53))%Q as Blo'.
  { rewrite <- inject_Z_opp. rewrite <- Zlt_Qlt. exact Blo. }
  assert (inject_Z hi < inject_Z (2 ^ 53))%Q as Bhi'.
  { rewrite <- Zlt_Qlt. exact Bhi. }
  destruct (Qeq_bool (Qabs q) 0) eqn:Z0.
  { apply Qeq_bool_iff in Z0.
    assert (q == 0)%Q as Q0.
    { revert Z0. apply Qabs_case; intros; lra. }
    exists 0%Q. split; [reflexivity |]. lra. }
  apply Qeq_bool_neq in Z0.
  assert (0 < Qabs q)%Q as Apos.
  { pose proof (Qabs_nonneg q). destruct (Qlt_le_dec 0 (Qabs q)); [assumption |].
    exfalso. apply Z0. lra. }
  assert (Qabs q < inject_Z (2 ^ 53))%Q as Alt.
  { apply Qabs_case; intros; lra. }
  pose proof (ilog2_upper _ Apos Alt) as Hl.
  set (e := Z.max (ilog2 (Qabs q) - 52) (-1074)).
  assert (e <= 0) as He by (unfold e; lia).
  set (s := 2 ^ (- e)).
  assert (0 < s) as Hs by (apply Z.pow_pos_nonneg; lia).
  assert (0 < inject_Z s)%Q as Hs'.
  { change 0%Q with (inject_Z 0). now rewrite <- Zlt_Qlt. }
  assert (scale2 (Qabs q) (- e) = (Qabs q * inject_Z s)%Q) as E1.
  { unfold scale2. replace (0 <=? - e) with true by (symmetry; apply Z.leb_le; lia).
    reflexivity. }
  rewrite E1.
  set (m := round_half_even (Qabs q * inject_Z s)).
  assert (scale2 (inject_Z m) e == inject_Z m / inject_Z s)%Q as E2.
  { unfold scale2. destruct (0 <=? e) eqn:T.
    - apply Z.leb_le in T. assert (e = 0) as E0 by lia.
      unfold s. rewrite E0.
      change (inject_Z (2 ^ 0)) with 1%Q. change (inject_Z (2 ^ (- 0))) with 1%Q. field.
    - unfold s. reflexivity. }
  (* the bracket around |q| *)
  assert (forall (L H : Z), 0 <= L -> (inject_Z L <= Qabs q)%Q -> (Qabs q <= inject_Z H)%Q ->
            (inject_Z L <= scale2 (inject_Z m) e)%Q /\ (scale2 (inject_Z m) e <= inject_Z H)%Q)
    as Bracket.
  { intros L H HL0 HL HH.
    assert (L * s <= m <= H * s) as Hm.
    { apply round_half_even_between; rewrite inject_Z_mult.
      - apply Qmult_le_r; assumption.
      - apply Qmult_le_r; assumption. }
    destruct Hm as [Hm1 Hm2].
    rewrite Zle_Qle, inject_Z_mult in Hm1. rewrite Zle_Qle, inject_Z_mult in Hm2.
    rewrite E2. split.
    - apply Qle_shift_div_l; assumption.
    - apply Qle_shift_div_r; assumption. }
  assert (inject_Z (2 ^ 53) <= inject_Z (2 ^ 1024))%Q as Big.
  { rewrite <- Zle_Qle. apply Z.pow_le_mono_r; lia. }
  destruct (Qle_bool 0 q) eqn:Sg.
  - apply Qle_bool_iff in Sg.
    assert (Qabs q == q)%Q as Ea by (now apply Qabs_pos).
    destruct (Bracket (Z.max lo 0) hi) as [B1 B2]; [lia | | |].
    { rewrite Ea. destruct (Z.max_spec lo 0) as [[_ ->] | [_ ->]]; [exact Sg | exact Hlo']. }
    { now rewrite Ea. }
    replace (Qle_bool (inject_Z (2 ^ 1024)) (scale2 (inject_Z m) e)) with false.
    2:{ symmetry. apply not_true_is_false. intros T. apply Qle_bool_iff in T. lra. }
    eexists. split; [reflexivity |]. rewrite Qred_correct.
    split; [| exact B2].
    eapply Qle_trans; [| exact B1]. rewrite <- Zle_Qle. lia.
  - assert (q < 0)%Q as Sg'.
    { destruct (Qlt_le_dec q 0); [assumption |].
      apply Qle_bool_iff in q0. congruence. }
    assert (Qabs q == - q)%Q as Ea by (apply Qabs_neg; lra).
    destruct (Bracket (Z.max (- hi) 0) (- lo)) as [B1 B2]; [lia | | |].
    { rewrite Ea. destruct (Z.max_spec (- hi) 0) as [[_ ->] | [_ ->]].
      - change (inject_Z 0) with 0%Q. lra.
      - rewrite inject_Z_opp. lra. }
    { rewrite Ea, inject_Z_opp. lra. }
    replace (Qle_bool (inject_Z (2 ^ 1024)) (scale2 (inject_Z m) e)) with false.
    2:{ symmetry. apply not_true_is_false. intros T. apply Qle_bool_iff in T.
        rewrite inject_Z_opp in B2. lra. }
    eexists. split; [reflexivity |]. rewrite Qred_correct.
    rewrite inject_Z_opp in B2.
    split; [lra |].
    assert (inject_Z (- hi) <= inject_Z (Z.max (- hi) 0))%Q as M.
    { rewrite <- Zle_Qle. lia. }
    rewrite inject_Z_opp in M. lra.
Qed.

(** An integer below [2^53] is a float. *)
Lemma fl_integer (z : Z) :
  - 2 ^ 53 < z < 2 ^ 53 -> exists r, fl (inject_Z z) = Finite r /\ (r == inject_Z z)%Q.
Proof.
  forget_world. intros [H1 H2].
  destruct (fl_between (inject_Z z) z z H1 H2) as (r & E & L1 & L2);
    [apply Qle_refl | apply Qle_refl |].
  exists r. split; [exact E |]. now apply Qle_antisym.
Qed.

Lemma float_of_int_small (z : Z) :
  - 2 ^ 53 < z < 2 ^ 53 ->
  exists r, float_of_int z = Ok (Finite r) /\ (r == inject_Z z)%Q.
Proof.
  forget_world. intros H. destruct (fl_integer z H) as (r & E & Hr).
  exists r. unfold float_of_int. rewrite E. auto.
Qed.

Lemma float_of_int_representable (z : Z) :
  representable (inject_Z z) ->
  exists r, float_of_int z = Ok (Finite r) /\ (r == inject_Z z)%Q.
Proof.
  forget_world. intros (r & E & Hr). exists r. unfold float_of_int. rewrite E. auto.
Qed.

Lemma float_of_int_one : float_of_int 1 = Ok (Finite 1).
Proof. forget_world. vm_compute. reflexivity. Qed.

(** Where nothing rounds, Python's [evalsleft()] is the truncation of the
    expression over the rationals. *)
Lemma evalsleft_py_no_rounding (x : Q) (p : problem) :
  no_rounding x p ->
  evalsleft_py (float_number x) p = Ok (evalsleft x p).
Proof.
  forget_world.
  intros ((r0 & E0 & H0) & Hd & (r2 & E2 & H2) & (r3 & E3 & H3) & Hm & (r5 & E5 & H5)).
  destruct (float_of_int_representable _ Hd) as (r1 & E1 & H1).
  destruct (float_of_int_representable _ Hm) as (r4 & E4 & H4).
  unfold evalsleft_py. rewrite E1, float_of_int_one, E4, E0. cbn [and_then].
  unfold fmul. rewrite (fl_compat (r1 * r0) (inject_Z (dimension p) * x)), E2
    by (now rewrite H1, H0).
  cbn [fadd]. rewrite (fl_compat (r2 + 1) (inject_Z (dimension p) * x + 1)), E3
    by (now rewrite H2).
  cbn [fsub fneg fadd].
  rewrite (fl_compat (r3 + - r4)
             (inject_Z (dimension p) * x + 1
              - inject_Z (Z.max (evaluations p) (evaluations_constraints p)))), E5
    by (rewrite H3, H4; reflexivity).
  cbn [int_of_float]. f_equal. unfold evalsleft, budget_expr.
  now apply py_int_Qeq.
Qed.

(** An integer-valued multiplier, with every quantity below [2^53] in
    size: nothing rounds. *)
Lemma integer_no_rounding (x : Q) (k : Z) (p : problem) :
  (x == inject_Z k)%Q ->
  - 2 ^ 53 < k < 2 ^ 53 ->
  - 2 ^ 53 < dimension p < 2 ^ 53 ->
  - 2 ^ 53 < dimension p * k < 2 ^ 53 ->
  - 2 ^ 53 < dimension p * k + 1 < 2 ^ 53 ->
  - 2 ^ 53 < Z.max (evaluations p) (evaluations_constraints p) < 2 ^ 53 ->
  - 2 ^ 53 < dimension p * k + 1 - Z.max (evaluations p) (evaluations_constraints p)
    < 2 ^ 53 ->
  no_rounding x p.
Proof.
  forget_world. intros Ex Hk Hd Hdk Hdk1 Hm Hall.
  assert (forall (y : Q) (z : Z), (y == inject_Z z)%Q -> - 2 ^ 53 < z < 2 ^ 53 ->
            representable y) as Rep.
  { intros y z Ey Hz. destruct (fl_integer z Hz) as (r & E & Hr).
    exists r. rewrite (fl_compat y (inject_Z z) Ey). split; [exact E |].
    now rewrite Ey. }
  unfold no_rounding. cbv zeta.
  split; [exact (Rep _ _ Ex Hk) |].
  split; [exact (Rep _ _ (Qeq_refl _) Hd) |].
  split; [apply (Rep _ (dimension p * k)); [| exact Hdk];
          rewrite Ex, inject_Z_mult; reflexivity |].
  split; [apply (Rep _ (dimension p * k + 1)); [| exact Hdk1];
          rewrite Ex, inject_Z_plus, inject_Z_mult; reflexivity |].
  split; [exact (Rep _ _ (Qeq_refl _) Hm) |].
  apply (Rep _ (dimension p * k + 1
                - Z.max (evaluations p) (evaluations_constraints p))); [| exact Hall].
  rewrite Ex. unfold Z.sub. rewrite !inject_Z_plus, inject_Z_mult, inject_Z_opp.
  reflexivity.
Qed.

(** The iteration limit of line 149 stays between 1 and the remaining
    budget plus one, while that is below [2^53]. *)
Lemma slsqp_iter_py_bounds (left dim : Z) :
  1 <= left -> left + 1 < 2 ^ 53 -> 1 <= dim ->
  exists iter, slsqp_iter_py left dim = Ok iter /\ 1 <= iter <= left + 1.
Proof.
  forget_world. intros Hl Hb Hd.
  unfold slsqp_iter_py, int_truediv.
  replace (dim =? 0) with false by (symmetry; apply Z.eqb_neq; lia).
  assert (0 <= inject_Z left / inject_Z dim)%Q as Q0.
  { apply Qle_shift_div_l.
    - change 0%Q with (inject_Z 0). rewrite <- Zlt_Qlt. lia.
    - rewrite Qmult_0_l. change 0%Q with (inject_Z 0). rewrite <- Zle_Qle. lia. }
  assert (inject_Z left / inject_Z dim <= inject_Z left)%Q as Q1.
  { apply Qle_shift_div_r.
    - change 0%Q with (inject_Z 0). rewrite <- Zlt_Qlt. lia.
    - rewrite <- inject_Z_mult, <- Zle_Qle. nia. }
  destruct (fl_between (inject_Z left / inject_Z dim) 0 left) as (r & E & L1 & L2);
    [lia | lia | exact Q0 | exact Q1 |].
  rewrite E. cbn [and_then]. rewrite float_of_int_one. cbn [and_then fadd].
  destruct (fl_between (r + 1) 1 (left + 1)) as (r' & E' & M1 & M2); [lia | lia | | |].
  { change (inject_Z 1) with 1%Q. change (inject_Z 0) with 0%Q in L1. lra. }
  { rewrite inject_Z_plus. change (inject_Z 1) with 1%Q. lra. }
  rewrite E'. cbn [int_of_float]. eexists. split; [reflexivity |].
  split.
  - rewrite <- (py_int_inject_Z 1). now apply py_int_le.
  - rewrite <- (py_int_inject_Z (left + 1)). now apply py_int_le.
Qed.

(** *** Where the arithmetic raises *)

Lemma fl_not_nan (x : Q) : fl x <> NaN.
Proof.
  forget_world. unfold fl. cbv zeta.
  destruct (Qeq_bool _ _); [discriminate |].
  destruct (Qle_bool _ _); discriminate.
Qed.

Lemma float_of_int_raise (z : Z) (e : exn) :
  float_of_int z = Raise e -> e = OverflowError.
Proof.
  forget_world. unfold float_of_int. destruct (fl (inject_Z z)); congruence.
Qed.

Lemma int_of_float_raise (d : double) (e : exn) :
  int_of_float d = Raise e ->
  e = OverflowError \/ e = ValueError "cannot convert float NaN to integer".
Proof. forget_world. destruct d; cbn; intros [=]; auto. Qed.

Lemma and_then_raise {A B} (r : result A) (f : A -> result B) (e : exn) :
  and_then r f = Raise e -> r = Raise e \/ exists a, r = Ok a /\ f a = Raise e.
Proof.
  forget_world. destruct r as [a | e0]; cbn; intros H;
    [right; exists a; auto | left; congruence].
Qed.

Lemma evalsleft_py_raise (b : number) (p : problem) (e : exn) :
  evalsleft_py b p = Raise e ->
  (exists x, b = float_number x) /\
  (e = OverflowError \/ e = ValueError "cannot convert float NaN to integer").
Proof.
  forget_world. destruct b as [k | x]; [discriminate |]. intros H.
  split; [eauto |]. unfold evalsleft_py in H.
  apply and_then_raise in H as [H | (d & _ & H)];
    [left; eapply float_of_int_raise; eassumption |].
  apply and_then_raise in H as [H | (one & _ & H)];
    [left; eapply float_of_int_raise; eassumption |].
  apply and_then_raise in H as [H | (m & _ & H)];
    [left; eapply float_of_int_raise; eassumption |].
  eapply int_of_float_raise; eassumption.
Qed.

Lemma slsqp_iter_py_raise (left dim : Z) (e : exn) :
  slsqp_iter_py left dim = Raise e ->
  (e = ZeroDivisionError /\ dim = 0) \/ e = OverflowError.
Proof.
  forget_world. unfold slsqp_iter_py, int_truediv.
  destruct (dim =? 0) eqn:Ed.
  { apply Z.eqb_eq in Ed. cbn. intros [= <-]. auto. }
  pose proof (fl_not_nan (inject_Z left / inject_Z dim)) as Hq.
  destruct (fl (inject_Z left / inject_Z dim)) as [q | sg |]; cbn [and_then];
    [| intros [= <-]; auto | contradiction].
  rewrite float_of_int_one. cbn [and_then fadd].
  pose proof (fl_not_nan (q + 1)) as Hs.
  destruct (fl (q + 1)) as [r | sg |]; cbn [int_of_float];
    [discriminate | intros [= <-]; auto | contradiction].
Qed.


(** ** The restart loop with Python's arithmetic *)

Lemma restart_body_py_spec (b : number) (cfg : config) (i : Z) (p : problem) (s : state) :
  body_py_spec b cfg i p (restart_body_py b cfg i p s).
Proof.
  unfold body_py_spec, restart_body_py.
  destruct (evalsleft_py b p) as [left | e] eqn:El.
  2:{ left. destruct (fmin cfg) eqn:Hf; cbn; run; rewrite ?El; cbn;
        (split; [reflexivity |]; eexists; split; [reflexivity | left; reflexivity]). }
  destruct (fmin cfg) eqn:Hf; cbn.
  - (* scipy.optimize.fmin *)
    right. unfold call_solver, stoppings_append. run. rewrite Hf.
    destruct (run_solver _ _ _ _) as [[[u out] | e] w] eqn:Er; cbn;
      eexists _, _, []; body_done; try discriminate.
    eexists. rewrite Er. reflexivity.
  - unfold call_solver, stoppings_append. run.
    destruct (slsqp_iter_py left (dimension p)) as [iter | e] eqn:Ei; cbn.
    2:{ left. split; [reflexivity |]. eexists. split; [reflexivity |].
        right. split; [reflexivity |]. eauto. }
    right. rewrite Hf.
    destruct (run_solver _ _ _ _) as [[[u out] | e] w] eqn:Er; cbn;
      eexists _, _, []; cbn;
      (split; [reflexivity |]); (split; [reflexivity |]); (split; [constructor |]);
      (split; [intros ? [=] |]); (split; [intros ? [= <-]; auto |]); auto.
    eexists. rewrite Er. reflexivity.
  - (* fmin_cobyla *)
    right. unfold call_solver. run. rewrite Hf.
    destruct (run_solver _ _ _ _) as [[[u out] | e] w] eqn:Er; cbn;
      eexists _, _, []; body_done; try discriminate.
    eexists. rewrite Er. reflexivity.
  - (* cocoex.solvers.random_search *)
    right. unfold call_solver. run. rewrite Hf.
    destruct (run_solver _ _ _ _) as [[[u out] | e] w] eqn:Er; cbn;
      eexists _, _, []; body_done; try discriminate.
    eexists. rewrite Er. reflexivity.
  - (* the script's own random_search *)
    right. unfold mbind, driver_bind, bind, lift, emit.
    match goal with |- context [random_search_run ?q ?l ?u ?e ?s'] =>
      destruct (random_search_run_spec q l u e s') as (t & p' & w & E & F & Ei & Ed) end.
    rewrite E. cbn. rewrite app_nil_r. eexists _, _, t. body_done; try discriminate.
  - (* cma.fmin2 *)
    right. unfold call_solver, stoppings_append. run. rewrite ?El, Hf. cbn.
    destruct (run_solver _ _ _ _) as [[[u out] | e] w] eqn:Er; cbn;
      eexists _, _, []; body_done; try discriminate.
    eexists. rewrite Er. reflexivity.
  - (* any other solver *)
    right. unfold call_solver, stoppings_append. run. rewrite ?El, Hf. cbn.
    destruct (run_solver _ _ _ _) as [[[u out] | e] w] eqn:Er; cbn;
      eexists _, _, []; body_done; try discriminate.
    eexists. rewrite Er. reflexivity.
Qed.

Lemma restart_body_py_timings (b : number) (cfg : config) (i : Z) (p : problem) (s : state) :
  match snd (restart_body_py b cfg i p s) with
  | Returns (_, _, s') => timings s' = timings s
  | _ => True
  end.
Proof.
  unfold restart_body_py.
  destruct (evalsleft_py b p) as [left | e] eqn:El.
  2:{ destruct (fmin cfg) eqn:Hf; cbn; run; rewrite ?El; cbn; exact I. }
  destruct (fmin cfg) eqn:Hf; cbn.
  - unfold call_solver, stoppings_append. run. rewrite Hf.
    destruct (run_solver _ _ _ _) as [[[u out] | e] w]; cbn; auto.
  - unfold call_solver, stoppings_append. run.
    destruct (slsqp_iter_py left (dimension p)) as [iter | e]; cbn; [| exact I].
    rewrite Hf. destruct (run_solver _ _ _ _) as [[[u out] | e] w]; cbn; auto.
  - unfold call_solver. run. rewrite Hf.
    destruct (run_solver _ _ _ _) as [[[u out] | e] w]; cbn; auto.
  - unfold call_solver. run. rewrite Hf.
    destruct (run_solver _ _ _ _) as [[[u out] | e] w]; cbn; auto.
  - unfold mbind, driver_bind, bind, lift, emit.
    match goal with |- context [random_search_run ?q ?l ?u ?e ?s'] =>
      destruct (random_search_run_spec q l u e s') as (t & p' & w & E & _) end.
    rewrite E. cbn. reflexivity.
  - unfold call_solver, stoppings_append. run. rewrite ?El, Hf. cbn.
    destruct (run_solver _ _ _ _) as [[[u out] | e] w]; cbn; auto.
  - unfold call_solver, stoppings_append. run. rewrite ?El, Hf. cbn.
    destruct (run_solver _ _ _ _) as [[[u out] | e] w]; cbn; auto.
Qed.

Lemma restart_loop_py_unfold
  (b : number) (cfg : config) (fuel : nat) (i : Z) (p : problem) (s : state) :
  restart_loop_py b cfg fuel i p s =
  match restart_guard_py b p with
  | Raise e => ([], Raises e)
  | Ok false => ([], Returns (i, p, s))
  | Ok true =>
      match fuel with
      | O => ([], OutOfFuel)
      | S fuel' =>
          match restart_body_py b cfg (i + 1) p s with
          | (t, Returns (p', stop, s')) =>
              if stop : bool then (t ++ [], Returns (i + 1, p', s'))
              else let '(t', r) := restart_loop_py b cfg fuel' (i + 1) p' s' in (t ++ t', r)
          | (t, Raises e) => (t, Raises e)
          | (t, OutOfFuel) => (t, OutOfFuel)
          end
      end
  end.
Proof.
  destruct fuel; cbn [restart_loop_py]; unfold mbind, driver_bind, bind at 1, lift at 1;
    destruct (restart_guard_py b p) as [[|] | e]; try reflexivity.
  unfold bind.
  destruct (restart_body_py b cfg (i + 1) p s) as [t [[[p' stop] s'] | e |]]; try reflexivity.
  destruct stop; [reflexivity |].
  destruct (restart_loop_py b cfg fuel (i + 1) p' s') as [t' r]. reflexivity.
Qed.

Lemma restart_guard_py_true (b : number) (p : problem) :
  restart_guard_py b p = Ok true ->
  exists left, evalsleft_py b p = Ok left /\ 0 < left /\ final_target_hit p = false.
Proof.
  forget_world. unfold restart_guard_py.
  destruct (evalsleft_py b p) as [left | e]; cbn [and_then]; [| discriminate].
  intros [= G]. apply andb_true_iff in G as [G1 G2].
  apply Z.ltb_lt in G1. apply negb_true_iff in G2. eauto.
Qed.

Lemma evaluations_attempt_ok (b : number) (t : list event) :
  Forall (fun e => is_evaluation e = true) t -> Forall (attempt_ok b) t.
Proof.
  intros H. eapply Forall_impl; [exact H |].
  intros e He. destruct e; try discriminate. exact I.
Qed.

Lemma restart_loop_py_attempts
  (b : number) (cfg : config) (fuel : nat) (i : Z) (p : problem) (s : state) :
  Forall (attempt_ok b) (fst (restart_loop_py b cfg fuel i p s)).
Proof.
  revert i p s. induction fuel as [| fuel IH]; intros i p s;
    rewrite restart_loop_py_unfold;
    destruct (restart_guard_py b p) as [[|] | e] eqn:G; cbn [fst]; try constructor.
  apply restart_guard_py_true in G as (left & El & Hpos & Hhit).
  pose proof (restart_body_py_spec b cfg (i + 1) p s) as B.
  destruct (restart_body_py b cfg (i + 1) p s) as [t o].
  destruct B as [(Ht & _) | (left' & a & rest & El' & Ht & Fr & Hm & Hi & _)];
    cbn [fst snd] in *; subst t.
  - destruct o as [[[p' stop] s'] | e |]; try constructor.
    destruct stop; [constructor |].
    specialize (IH (i + 1) p' s').
    destruct (restart_loop_py b cfg fuel (i + 1) p' s') as [t' r]. exact IH.
  - rewrite El in El'. injection El' as <-.
    assert (Forall (attempt_ok b) (ev_solver (i + 1) p a :: rest)) as Hb.
    { constructor; [| now apply evaluations_attempt_ok].
      cbn. exists left. repeat split; auto. intros iter Ha. now apply Hi. }
    destruct o as [[[p' stop] s'] | e |]; cbn [fst]; try exact Hb.
    destruct stop; cbn [fst].
    + rewrite app_nil_r. exact Hb.
    + specialize (IH (i + 1) p' s').
      destruct (restart_loop_py b cfg fuel (i + 1) p' s') as [t' r]. cbn [fst] in *.
      inversion Hb; subst. constructor; [assumption |].
      apply Forall_app. split; assumption.
Qed.

(** C1 (as amended): before every restart attempt the remaining budget is
    what [evalsleft()] returns on the counters of the problem as the
    attempt finds them; the loop condition found it positive, and the call
    sites that pass a budget on pass this very number.  With an [int]
    multiplier this is [dimension * budget_multiplier + 1 -
    max(evaluations, evaluations_constraints)]; with a [float] multiplier it
    is that expression as Python evaluates it, each operation rounded to a
    double, and truncated toward zero: where nothing rounds, the truncation
    of the expression itself, at most the expression and less than one
    below it when positive, and the expression itself for an integer-valued
    multiplier with all quantities below [2^53] in size. *)
Theorem evalsleft_recomputed_each_attempt
  (b : number) (cfg : config) (fuel : nat) (i : Z) (p : problem) (s : state) :
  Forall (attempt_ok b) (fst (restart_loop_py b cfg fuel i p s)) /\
  (forall k q,
     evalsleft_py (int_number k) q
     = Ok (dimension q * k + 1 - Z.max (evaluations q) (evaluations_constraints q))) /\
  (forall x q,
     no_rounding x q ->
     evalsleft_py (float_number x) q = Ok (py_int (budget_expr x q)) /\
     (0 < py_int (budget_expr x q) ->
      (inject_Z (py_int (budget_expr x q)) <= budget_expr x q
       < inject_Z (py_int (budget_expr x q)) + 1)%Q)) /\
  (forall x k q,
     (x == inject_Z k)%Q ->
     - 2 ^ 53 < k < 2 ^ 53 ->
     - 2 ^ 53 < dimension q < 2 ^ 53 ->
     - 2 ^ 53 < dimension q * k < 2 ^ 53 ->
     - 2 ^ 53 < dimension q * k + 1 < 2 ^ 53 ->
     - 2 ^ 53 < Z.max (evaluations q) (evaluations_constraints q) < 2 ^ 53 ->
     - 2 ^ 53 < dimension q * k + 1 - Z.max (evaluations q) (evaluations_constraints q)
       < 2 ^ 53 ->
     evalsleft_py (float_number x) q
     = Ok (dimension q * k + 1 - Z.max (evaluations q) (evaluations_constraints q))).
Proof.
  split; [apply restart_loop_py_attempts |].
  split; [reflexivity |].
  split.
  - intros x q H. split; [now apply evalsleft_py_no_rounding |].
    apply py_int_pos_bounds.
  - intros x k q Ex Hk Hd Hdk Hdk1 Hm Hall.
    rewrite (evalsleft_py_no_rounding x q)
      by (now apply (integer_no_rounding x k q)).
    f_equal. now apply evalsleft_Qeq.
Qed.

Lemma restart_loop_py_timings
  (b : number) (cfg : config) (fuel : nat) (i : Z) (p : problem) (s : state) :
  match snd (restart_loop_py b cfg fuel i p s) with
  | Returns (_, p', s') =>
      timings s' = timings s /\ index p' = index p /\ dimension p' = dimension p
  | _ => True
  end.
Proof.
  revert i p s. induction fuel as [| fuel IH]; intros i p s;
    rewrite restart_loop_py_unfold;
    destruct (restart_guard_py b p) as [[|] | e0]; cbn [snd]; auto.
  pose proof (restart_body_py_spec b cfg (i + 1) p s) as B.
  pose proof (restart_body_py_timings b cfg (i + 1) p s) as T.
  destruct (restart_body_py b cfg (i + 1) p s) as [t o].
  destruct B as [(_ & e1 & Ho & _) | (left' & a & rest & _ & _ & _ & _ & _ & Ho)];
    cbn [fst snd] in *.
  - subst o. exact I.
  - destruct o as [[[p' stop] s'] | e1 |]; cbn [snd]; auto.
    destruct Ho as [Hi Hd]. destruct stop; cbn [snd]; [auto |].
    specialize (IH (i + 1) p' s').
    destruct (restart_loop_py b cfg fuel (i + 1) p' s') as [t' [[[i2 p2] s2] | e2 |]];
      cbn [snd] in *; auto.
    destruct IH as (H1 & H2 & H3). repeat split; congruence.
Qed.

(** *** The two loops side by side *)

Lemma evalsleft_py_int (k : Z) (p : problem) :
  evalsleft_py (int_number k) p = Ok (evalsleft (inject_Z k) p).
Proof. forget_world. cbn. now rewrite evalsleft_integer. Qed.

(** Where Python's [evalsleft()] returns what the rational one does, the
    loop with Python's arithmetic is the loop over the rationals (line 149
    apart, which divides). *)
Lemma restart_body_py_agrees
  (b : number) (cfg : config) (i : Z) (p : problem) (s : state) :
  (forall q, evalsleft_py b q = Ok (evalsleft (budget_multiplier cfg) q)) ->
  fmin cfg <> scipy_fmin_slsqp ->
  restart_body_py b cfg i p s = restart_body cfg i p s.
Proof.
  intros H Hf. unfold restart_body_py, restart_body.
  destruct (fmin cfg) eqn:E; try contradiction; cbn;
    unfold mbind, driver_bind; rewrite ?bind_ret_l, ?H, ?bind_lift_ok; reflexivity.
Qed.

Lemma restart_loop_py_agrees
  (b : number) (cfg : config) (fuel : nat) (i : Z) (p : problem) (s : state) :
  (forall q, evalsleft_py b q = Ok (evalsleft (budget_multiplier cfg) q)) ->
  fmin cfg <> scipy_fmin_slsqp ->
  restart_loop_py b cfg fuel i p s = restart_loop cfg fuel i p s.
Proof.
  intros H Hf. revert i p s. induction fuel as [| fuel IH]; intros i p s;
    rewrite restart_loop_py_unfold, restart_loop_unfold;
    unfold restart_guard_py, restart_guard; rewrite H; cbn [and_then];
    destruct ((0 <? evalsleft (budget_multiplier cfg) p) && negb (final_target_hit p));
    try reflexivity.
  rewrite restart_body_py_agrees by assumption.
  destruct (restart_body cfg (i + 1) p s) as [t [[[p' stop] s'] | e |]]; try reflexivity.
  destruct stop; [reflexivity |]. now rewrite IH.
Qed.

(** With an [int] multiplier nothing rounds. *)
Lemma restart_loop_py_int
  (k : Z) (cfg : config) (fuel : nat) (i : Z) (p : problem) (s : state) :
  budget_multiplier cfg = inject_Z k ->
  fmin cfg <> scipy_fmin_slsqp ->
  restart_loop_py (int_number k) cfg fuel i p s = restart_loop cfg fuel i p s.
Proof.
  intros Hk Hf. apply restart_loop_py_agrees; [| exact Hf].
  intros q. rewrite Hk. apply evalsleft_py_int.
Qed.

(** * Further properties of the script *)

(** ** The remaining budget *)


Lemma py_int_fraction (q : Q) : (0 <= q)%Q -> (q < 1)%Q -> py_int q = 0.
Proof.
  intros H0 H1. rewrite py_int_nonneg by exact H0.
  pose proof (Qfloor_le q) as Hl. pose proof (Qlt_floor q) as Hu.
  assert (Qfloor q < 1) as A.
  { rewrite Zlt_Qlt. eapply Qle_lt_trans; [exact Hl | exact H1]. }
  assert (0 < Qfloor q + 1) as B.
  { rewrite Zlt_Qlt. eapply Qle_lt_trans; [exact H0 | exact Hu]. }
  lia.
Qed.

(** ** [random_search] *)

Lemma random_rand_rows (rows cols : nat) (s : state) :
  exists m w, random_rand rows cols s = ([], Returns (m, with_world s w)) /\
              length m = rows.
Proof.
  revert s. induction rows as [| rows IH]; intros s.
  - exists [], (the_world s). destruct s; split; reflexivity.
  - cbn. run. destruct (random_row cols (the_world s)) as [r w].
    destruct (IH (with_world s w)) as (m & w' & E & L). rewrite E.
    exists (r :: m), w'. split; [reflexivity | cbn; now rewrite L].
Qed.

Lemma evaluate_all_counts (xs : list (list Q)) (p : problem) (s : state) :
  exists p' w,
    evaluate_all p xs s = (map (ev_evaluate (index p)) xs, Returns (p', with_world s w)) /\
    evaluations p' = evaluations p + Z.of_nat (length xs) /\
    evaluations_constraints p' = evaluations_constraints p /\
    index p' = index p /\ dimension p' = dimension p.
Proof.
  revert p s. induction xs as [| x xs IH]; intros p s.
  - exists p, (the_world s). destruct s; cbn. repeat split; auto; lia.
  - cbn [evaluate_all]. unfold mbind, driver_bind, bind.
    destruct (problem_call_run p x s) as (hit & w & E). rewrite E.
    destruct (IH (evaluated p hit) (with_world s w)) as (p' & w' & E' & He & Hc & Hi & Hd).
    rewrite E'. exists p', w'. cbn in *. repeat split; auto; lia.
Qed.

Lemma random_rand_row_lengths (rows cols : nat) (s : state) :
  (forall n w, length (fst (random_row n w)) = n) ->
  match snd (random_rand rows cols s) with
  | Returns (m, _) => Forall (fun r => length r = cols) m
  | _ => True
  end.
Proof.
  intros Hrow. revert s. induction rows as [| rows IH]; intros s.
  - cbn. constructor.
  - cbn [random_rand]. unfold mbind, driver_bind, bind, external, ret.
    pose proof (Hrow cols (the_world s)) as Hl.
    destruct (random_row cols (the_world s)) as [r w]. cbn [fst] in Hl.
    specialize (IH (with_world s w)).
    destruct (random_rand rows cols (with_world s w)) as [t [[m s'] | e |]];
      cbn [snd] in *; auto.
Qed.

Lemma scale_row_length (lbounds ubounds : list Z) (row : list Q) :
  length lbounds = length ubounds -> length row = length ubounds ->
  length (scale_row lbounds ubounds row) = length ubounds.
Proof.
  forget_world. revert ubounds row.
  induction lbounds as [| l ls IH]; intros [| u us] [| r rs] H1 H2;
    cbn in *; try congruence; try lia.
  f_equal. apply IH; lia.
Qed.

(** X2: [random_search], called with [evals >= 0], bounds of one length
    and a sample whose rows have that length, evaluates the problem exactly
    [evals] times, at points of that length taken from the rows of the
    sample in their order, and does nothing else: the plain evaluation
    counter grows by [evals], the constraint counter and the dictionaries
    are untouched, and it does not raise. *)
Theorem random_search_spends_evals
  (p : problem) (lbounds ubounds : list Z) (evals : Z) (s : state) :
  0 <= evals ->
  length lbounds = length ubounds ->
  (forall n w, length (fst (random_row n w)) = n) ->
  exists xs p' w,
    random_search_run p lbounds ubounds evals s =
      (map (ev_evaluate (index p)) xs, Returns (p', with_world s w)) /\
    length xs = Z.to_nat evals /\
    Forall (fun x => length x = length ubounds) xs /\
    evaluations p' = evaluations p + evals /\
    evaluations_constraints p' = evaluations_constraints p /\
    index p' = index p /\ dimension p' = dimension p.
Proof.
  intros H Hlen Hrow. unfold random_search_run, mbind, driver_bind, bind.
  pose proof (random_rand_row_lengths (Z.to_nat evals) (length ubounds) s Hrow) as Hm.
  destruct (random_rand_rows (Z.to_nat evals) (length ubounds) s) as (m & w & E & L).
  rewrite E in Hm |- *. cbn [snd] in Hm.
  destruct (evaluate_all_counts (map (scale_row lbounds ubounds) m) p (with_world s w))
    as (p' & w' & E' & He & Hc & Hi & Hd).
  rewrite E'. rewrite length_map, L in He.
  exists (map (scale_row lbounds ubounds) m), p', w'.
  rewrite length_map. repeat split; auto; try lia.
  apply Forall_map. eapply Forall_impl; [exact Hm |].
  intros r Hr. cbn. now apply scale_row_length.
Qed.


Lemma budget_after_spending (bm : Q) (p p' : problem) :
  dimension p' = dimension p ->
  evaluations_constraints p' = evaluations_constraints p ->
  evaluations_constraints p <= evaluations p ->
  0 < evalsleft bm p ->
  evaluations p' = evaluations p + evalsleft bm p ->
  evalsleft bm p' = 0.
Proof.
  intros Hd Hc Hle Hpos He.
  pose proof (py_int_pos_bounds (budget_expr bm p) Hpos) as [Hl Hu].
  fold (evalsleft bm p) in Hl, Hu.
  unfold evalsleft at 1.
  assert (budget_expr bm p' == budget_expr bm p - inject_Z (evalsleft bm p))%Q as E.
  { unfold budget_expr. rewrite Hd, Hc, He.
    rewrite !Z.max_l by lia. rewrite inject_Z_plus. ring. }
  rewrite (py_int_Qeq _ _ E). apply py_int_fraction.
  - rewrite <- (Qplus_opp_r (inject_Z (evalsleft bm p))).
    apply Qplus_le_compat; [exact Hl | apply Qle_refl].
  - apply (Qplus_lt_l _ _ (inject_Z (evalsleft bm p))).
    eapply Qle_lt_trans; [| rewrite Qplus_comm; exact Hu].
    apply Qle_lteq. right. ring.
Qed.


(** ** What the restart loop returns *)

(** X5: when the restart loop ends normally, either the budget is used up
    or the target is hit, or the solver is one of the final [else] and the
    tenth attempt ([irestart >= 9]) has been made. *)
Theorem loop_exit_condition
  (cfg : config) (fuel : nat) (i : Z) (p : problem) (s : state) :
  post (restart_loop cfg fuel i p) s
    (fun '(i', p') _ =>
       restart_guard (budget_multiplier cfg) p' = false \/
       (takes_default_branch (fmin cfg) = true /\ 9 <= i')).
Proof.
  unfold post. revert i p s. induction fuel as [| fuel IH]; intros i p s;
    rewrite restart_loop_unfold;
    destruct (restart_guard (budget_multiplier cfg) p) eqn:G; cbn [snd]; auto.
  pose proof (restart_body_spec cfg (i + 1) p s) as B.
  destruct (restart_body cfg (i + 1) p s) as [t o].
  destruct B as [(_ & _ & e & Ho) | (a & rest & _ & _ & _ & _ & Hpost)];
    cbn [fst snd] in *; subst; [exact I |].
  destruct o as [[[p' stop] s'] | e |]; cbn [snd]; auto.
  destruct Hpost as (_ & _ & Hstop & _).
  destruct stop; cbn [snd].
  - right. symmetry in Hstop. apply andb_true_iff in Hstop as [D L].
    split; [exact D | now apply Z.leb_le].
  - specialize (IH (i + 1) p' s').
    destruct (restart_loop cfg fuel (i + 1) p' s') as [t' r]. exact IH.
Qed.

Lemma defaultdict_append_delete {V} (d : gmap Z (list V)) (key : Z) (x : V) :
  delete key (defaultdict_append d key x) = delete key d.
Proof.
  unfold defaultdict_append, defaultdict_get.
  destruct (d !! key) as [l |]; now rewrite !delete_insert_eq.
Qed.

(** What the loop does to [stoppings] and to [irestart], by the solver
    calls it makes. *)
Lemma restart_loop_records (cfg : config) (fuel : nat) (i : Z) (p : problem) (s : state) :
  post (restart_loop cfg fuel i p) s
    (fun '(i', p') s' =>
       i' = i + Z.of_nat (length (solver_calls (fst (restart_loop cfg fuel i p s)))) /\
       index p' = index p /\
       delete (index p) (stoppings s') = delete (index p) (stoppings s) /\
       exists recs,
         default [] (stoppings s' !! index p)
           = default [] (stoppings s !! index p) ++ recs /\
         length recs =
           if records_stoppings (fmin cfg)
           then length (solver_calls (fst (restart_loop cfg fuel i p s)))
           else 0%nat).
Proof.
  unfold post. revert i p s. induction fuel as [| fuel IH]; intros i p s;
    rewrite restart_loop_unfold;
    destruct (restart_guard (budget_multiplier cfg) p) eqn:G; cbn [fst snd]; auto;
    try (split; [cbn; lia |]; split; [reflexivity |]; split; [reflexivity |];
         exists []; rewrite app_nil_r; split; [reflexivity |];
         now destruct (records_stoppings (fmin cfg))).
  pose proof (restart_body_spec cfg (i + 1) p s) as B.
  destruct (restart_body cfg (i + 1) p s) as [t o].
  destruct B as [(_ & _ & e & Ho) | (a & rest & Ht & Fr & _ & _ & Hpost)];
    cbn [fst snd] in *; subst; [exact I |].
  assert (solver_calls (ev_solver (i + 1) p a :: rest) = [(i + 1, p, a)]) as Hc.
  { change (solver_calls (ev_solver (i + 1) p a :: rest))
      with ((i + 1, p, a) :: solver_calls rest).
    now rewrite solver_calls_evaluations. }
  destruct o as [[[p' stop] s'] | e |]; cbn [fst snd]; auto.
  destruct Hpost as (Hi & _ & _ & _ & _ & Hst).
  assert (delete (index p) (stoppings s') = delete (index p) (stoppings s) /\
          exists recs,
            default [] (stoppings s' !! index p)
              = default [] (stoppings s !! index p) ++ recs /\
            length recs = if records_stoppings (fmin cfg) then 1%nat else 0%nat)
    as (Hdel & recs1 & Hrec1 & Hlen1).
  { destruct (records_stoppings (fmin cfg)).
    - destruct Hst as [out ->]. split; [apply defaultdict_append_delete |].
      exists [out]. now rewrite defaultdict_append_lookup.
    - rewrite Hst. split; [reflexivity |]. exists []. now rewrite app_nil_r. }
  destruct stop; cbn [fst snd].
  - rewrite app_nil_r, Hc. cbn [length]. split; [lia |]. split; [exact Hi |].
    split; [exact Hdel |]. exists recs1. auto.
  - specialize (IH (i + 1) p' s').
    destruct (restart_loop cfg fuel (i + 1) p' s') as [t' [[[i' p''] s''] | e |]];
      cbn [fst snd] in *; auto.
    destruct IH as (Hi' & Hidx & Hdel' & recs2 & Hrec2 & Hlen2).
    rewrite Hi in *.
    change (ev_solver (i + 1) p a :: rest ++ t')
      with ((ev_solver (i + 1) p a :: rest) ++ t').
    rewrite solver_calls_app, Hc. cbn [app length].
    split; [lia |]. split; [exact Hidx |]. split; [congruence |].
    exists (recs1 ++ recs2). rewrite Hrec2, Hrec1, app_assoc. split; [reflexivity |].
    rewrite length_app, Hlen1, Hlen2. now destruct (records_stoppings (fmin cfg)).
Qed.

(** X6: the restart loop only appends to [stoppings]: the list of the
    problem grows by one record for each solver call under a solver whose
    branch records stoppings (by none under the others), what it held
    before is kept, and no other key is touched. *)
Theorem stoppings_append_only
  (cfg : config) (fuel : nat) (i : Z) (p : problem) (s : state) :
  post (restart_loop cfg fuel i p) s
    (fun _ s' =>
       delete (index p) (stoppings s') = delete (index p) (stoppings s) /\
       exists recs,
         default [] (stoppings s' !! index p)
           = default [] (stoppings s !! index p) ++ recs /\
         length recs =
           if records_stoppings (fmin cfg)
           then length (solver_calls (fst (restart_loop cfg fuel i p s)))
           else 0%nat).
Proof.
  pose proof (restart_loop_records cfg fuel i p s) as H. unfold post in *.
  destruct (snd (restart_loop cfg fuel i p s)) as [[[i' p'] s'] | e |]; auto.
  try clear args_to_dict; try clear interpreter_globals; tauto.
Qed.

(** ** Reasoning along the binds *)

Lemma post_bind {A B} (m : driver A) (f : A -> driver B) (s : state)
  (Q : B -> state -> Prop) :
  post m s (fun a s' => post (f a) s' Q) -> post (bind m f) s Q.
Proof.
  unfold post, bind. destruct (m s) as [t [[a s'] | e |]]; cbn [snd]; auto.
  destruct (f a s') as [t' r]. auto.
Qed.

Lemma post_mono {A} (m : driver A) (s : state) (Q Q' : A -> state -> Prop) :
  post m s Q -> (forall a s', Q a s' -> Q' a s') -> post m s Q'.
Proof.
  unfold post. destruct (snd (m s)) as [[a s'] | e |]; auto.
Qed.

Lemma trace_bind {A B} (P : event -> Prop) (m : driver A) (f : A -> driver B)
  (s : state) :
  Forall P (fst (m s)) -> (forall a s', Forall P (fst (f a s'))) ->
  Forall P (fst (bind m f s)).
Proof.
  intros Hm Hf. unfold bind. destruct (m s) as [t [[a s'] | e |]]; cbn [fst] in *; auto.
  specialize (Hf a s'). destruct (f a s') as [t' r]. cbn [fst] in *.
  apply Forall_app. split; assumption.
Qed.

(** ** The timings dictionary *)

Lemma same_lists_refl {V} (key : Z) (d : gmap Z (list V)) : same_lists key d d.
Proof. split; reflexivity. Qed.

Lemma defaultdict_get_same_lists {V} (key : Z) (d : gmap Z (list V)) :
  same_lists key d (snd (defaultdict_get d key)).
Proof.
  unfold same_lists, defaultdict_get. destruct (d !! key) as [l |] eqn:E; cbn.
  - now rewrite E.
  - now rewrite delete_insert_eq, lookup_insert_eq.
Qed.

Lemma note_dimension_timings (p : problem) (s : state) :
  post (note_dimension p) s
    (fun _ s1 => same_lists (dimension p) (timings s) (timings s1)).
Proof.
  unfold post, note_dimension.
  pose proof (defaultdict_get_same_lists (dimension p) (timings s)) as H.
  run. destruct (defaultdict_get (timings s) (dimension p)) as [l d].
  destruct (negb _ && _); exact H.
Qed.

Lemma restart_loop_timings (cfg : config) (fuel : nat) (i : Z) (p : problem) (s : state) :
  post (restart_loop cfg fuel i p) s
    (fun '(_, p') s' => timings s' = timings s /\ dimension p' = dimension p).
Proof.
  unfold post. revert i p s. induction fuel as [| fuel IH]; intros i p s;
    rewrite restart_loop_unfold;
    destruct (restart_guard (budget_multiplier cfg) p); cbn [snd]; auto.
  pose proof (restart_body_spec cfg (i + 1) p s) as B.
  destruct (restart_body cfg (i + 1) p s) as [t o].
  destruct B as [(_ & _ & e & Ho) | (a & rest & _ & _ & _ & _ & Hpost)];
    cbn [fst snd] in *; subst; [exact I |].
  destruct o as [[[p' stop] s'] | e |]; cbn [snd]; auto.
  destruct Hpost as (_ & Hd & _ & Ht & _).
  destruct stop; cbn [snd]; [auto |].
  specialize (IH (i + 1) p' s').
  destruct (restart_loop cfg fuel (i + 1) p' s') as [t' [[[i' p''] s''] | e |]];
    cbn [snd] in *; auto.
  destruct IH. split; congruence.
Qed.

Lemma record_timing_appends (time1 : Q) (p : problem) (s : state) :
  post (record_timing time1 p) s
    (fun _ s' =>
       exists sample, timings s' = defaultdict_append (timings s) (dimension p) sample).
Proof.
  unfold post, record_timing, timing_sample, timings_append.
  destruct (evaluations p =? 0) eqn:E; cbn [negb].
  - run. eauto.
  - apply Z.eqb_neq in E. run.
    destruct (time_time (the_world s)) as [now w]. cbn.
    rewrite (py_truediv_nonzero _ _ E). cbn. eauto.
Qed.

Lemma defaultdict_append_alt {V} (d : gmap Z (list V)) (key : Z) (x : V) :
  defaultdict_append d key x
  = <[key := default [] (d !! key) ++ [x]]> (delete key d).
Proof.
  unfold defaultdict_append, defaultdict_get.
  destruct (d !! key) as [l |] eqn:E; cbn.
  - now rewrite insert_delete_eq.
  - now rewrite insert_insert_eq, insert_delete_eq.
Qed.

(** Looking the dimension up first (line 129) and appending later (line
    201) leaves what appending alone would. *)
Lemma process_problem_timings
  (cfg : config) (fuel : nat) (len : Z) (p : problem) (s : state) :
  post (process_problem cfg fuel len p) s
    (fun _ s' =>
       exists sample,
         timings s' = defaultdict_append (timings s) (dimension p) sample).
Proof.
  unfold process_problem, mbind, driver_bind.
  eapply post_bind, post_mono; [apply note_dimension_timings |].
  cbn beta. intros _ s1 [Hdel Hdef].
  apply post_bind. unfold post at 1, emit at 1. cbn [snd].
  apply post_bind.
  destruct (problem_call_run p (zeros (dimension p)) s1) as (hit & w1 & Ec).
  unfold post at 1. rewrite Ec. cbn [snd].
  apply post_bind. unfold post at 1, external at 1. cbn [the_world with_world].
  destruct (time_time w1) as [time1 w2]. cbn [snd].
  eapply post_bind, post_mono; [apply restart_loop_timings |].
  cbn beta. intros [ir p2] s3 [Ht3 Hd3]. cbn [timings] in Ht3. cbn [evaluated dimension] in Hd3.
  eapply post_bind, post_mono; [apply record_timing_appends |].
  cbn beta. intros _ s4 [sample Ht4].
  apply post_bind. unfold post at 1, emit at 1. cbn [snd].
  unfold post, write_results_file. run.
  cbn [timings with_world] in Ht3. rewrite Ht4, Ht3, Hd3.
  exists sample. rewrite !defaultdict_append_alt. now rewrite Hdel, Hdef.
Qed.

(** X7: processing a problem adds exactly one sample to [timings], at the
    end of the list of the problem's dimension; the samples already there
    and the lists of the other dimensions are kept. *)
Theorem one_timing_sample_per_problem
  (cfg : config) (fuel : nat) (len : Z) (p : problem) (s : state) :
  post (process_problem cfg fuel len p) s
    (fun _ s' =>
       delete (dimension p) (timings s') = delete (dimension p) (timings s) /\
       exists sample,
         timings s' !! dimension p
           = Some (default [] (timings s !! dimension p) ++ [sample])).
Proof.
  eapply post_mono; [apply process_problem_timings |].
  cbn beta. intros _ s' [sample ->]. split.
  - apply defaultdict_append_delete.
  - exists sample. apply defaultdict_append_lookup.
Qed.

(** ** Reports *)

Lemma filter_report_none (t : list event) :
  Forall (fun e => is_report e = false) t -> List.filter is_report t = [].
Proof.
  induction 1 as [| e t He _ IH]; [reflexivity |]. cbn. now rewrite He.
Qed.

Lemma solver_calls_none (t : list event) :
  Forall (fun e => is_solver_call e = false) t -> solver_calls t = [].
Proof.
  induction 1 as [| e t He _ IH]; [reflexivity |].
  destruct e; try discriminate; exact IH.
Qed.

Lemma process_problem_reports
  (cfg : config) (fuel : nat) (len : Z) (p : problem) (s : state) :
  List.filter is_report (fst (process_problem cfg fuel len p s)) =
  match snd (process_problem cfg fuel len p s) with
  | Returns (_, s') =>
      [ev_minimal_print (index p)
         (Z.of_nat (length (solver_calls (fst (process_problem cfg fuel len p s)))) - 1)
         (index p =? len - 1);
       ev_write_file (stoppings s')]
  | _ => []
  end.
Proof.
  destruct (process_problem_run cfg fuel len p s) as (tn & hit & s2 & Qn & _ & _ & Hrun).
  pose proof (restart_loop_shape cfg fuel (-1) (evaluated p hit) s2) as (Fl & _ & _).
  pose proof (restart_loop_records cfg fuel (-1) (evaluated p hit) s2) as Hrec.
  unfold post in Hrec.
  destruct (restart_loop cfg fuel (-1) (evaluated p hit) s2) as [tl o] eqn:El.
  specialize (Hrun tl o eq_refl). cbn [fst snd] in *. cbn zeta in Hrun.
  set (head := tn ++ ev_observe_with (index p)
                  :: ev_evaluate (index p) (zeros (dimension p)) :: tl) in *.
  assert (Forall (fun e => is_report e = false) head) as Hhead.
  { apply Forall_app. split.
    - eapply Forall_impl; [exact Qn |]. intros e. now destruct e.
    - repeat constructor. eapply Forall_impl; [exact Fl |]. intros e. now destruct e. }
  assert (solver_calls head = solver_calls tl) as Hcalls.
  { unfold head. rewrite solver_calls_app, (quiet_no_solver_calls tn Qn).
    rewrite !solver_calls_cons_other by reflexivity. reflexivity. }
  destruct o as [[[ir p2] s3] | e |].
  - destruct Hrun as (s5 & -> & Hs5 & _). cbn [fst snd].
    destruct Hrec as (Hir & Hidx & _).
    rewrite List.filter_app, (filter_report_none head Hhead).
    rewrite solver_calls_app, Hcalls. cbn [List.filter is_report app].
    rewrite (solver_calls_none [_; _]) by (repeat constructor).
    rewrite app_nil_r, Hs5, Hidx. cbn [evaluated index].
    repeat f_equal. lia.
  - rewrite Hrun. cbn [fst snd]. now apply filter_report_none.
  - rewrite Hrun. cbn [fst snd]. now apply filter_report_none.
Qed.

(** X8: a problem is reported when, and only when, its processing
    completes: then there is one [minimal_print], with the problem's index
    and [restarted] one less than the number of solver calls made for it,
    followed by one write of the results file holding [stoppings] as they
    are at the end; a problem whose processing raises leaves no report and
    no write. *)
Theorem report_counts_restarts
  (cfg : config) (fuel : nat) (len : Z) (p : problem) (s : state) :
  List.filter is_report (fst (process_problem cfg fuel len p s)) =
  match snd (process_problem cfg fuel len p s) with
  | Returns (_, s') =>
      [ev_minimal_print (index p)
         (Z.of_nat (length (solver_calls (fst (process_problem cfg fuel len p s)))) - 1)
         (index p =? len - 1);
       ev_write_file (stoppings s')]
  | _ => []
  end.
Proof. apply process_problem_reports. Qed.

(** X9: over the whole suite, the results file is written once for each
    reported problem, right after its report, and never in between: the
    reports and the writes alternate. *)
Theorem one_write_per_report
  (cfg : config) (fuel : nat) (len k : Z) (suite : list problem) (s : state) :
  paired_reports (List.filter is_report (fst (suite_loop cfg fuel len k suite s))).
Proof.
  revert k s. induction suite as [| p rest IH]; intros k s; [exact I |].
  cbn [suite_loop]. unfold mbind, driver_bind.
  destruct (batch_skips (batches cfg) (current_batch cfg) k) as [skip | e];
    [rewrite bind_lift_ok | exact I].
  destruct skip.
  - rewrite bind_ret_l. apply IH.
  - pose proof (process_problem_reports cfg fuel len p s) as Hp.
    unfold bind at 1.
    destruct (process_problem cfg fuel len p s) as [t [[[] s'] | e |]];
      cbn [fst snd] in *; try (rewrite Hp; exact I).
    specialize (IH (k + 1) s').
    destruct (suite_loop cfg fuel len (k + 1) rest s') as [t' r]. cbn [fst] in *.
    rewrite List.filter_app, Hp. exact IH.
Qed.

(** ** Module level and the end of the run *)

Lemma prologue_trace (env : environment) (s : state) :
  fst (prologue env s) =
  if string_in (platform_lower env) ["darwin"; "windows"]%string
  then []
  else thread_setup (has_mkl env).
Proof.
  unfold prologue, set_num_threads, import, thread_setup.
  destruct (string_in _ _), (has_mkl env), (has_numpy env), (has_cocoex env),
    (has_scipy env), (has_cma env); reflexivity.
Qed.

Lemma process_problem_loop_events
  (cfg : config) (fuel : nat) (len : Z) (p : problem) (s : state) :
  Forall (fun e => is_loop_event e = true) (fst (process_problem cfg fuel len p s)).
Proof.
  unfold process_problem, mbind, driver_bind.
  apply trace_bind.
  { unfold note_dimension. run.
    destruct (defaultdict_get (timings s) (dimension p)) as [l d].
    destruct (negb _ && _); repeat constructor. }
  intros _ s1. apply trace_bind; [repeat constructor |].
  intros _ s2. apply trace_bind.
  { destruct (problem_call_run p (zeros (dimension p)) s2) as (hit & w & ->).
    repeat constructor. }
  intros p1 s3. apply trace_bind.
  { unfold external. destruct (time_time (the_world s3)). constructor. }
  intros time1 s4. apply trace_bind.
  { pose proof (restart_loop_shape cfg fuel (-1) p1 s4) as (Fl & _).
    eapply Forall_impl; [exact Fl |]. intros e. destruct e; cbn; auto; discriminate. }
  intros [ir p2] s5. apply trace_bind.
  { destruct (record_timing_run time1 p2 s5) as (s' & -> & _). constructor. }
  intros _ s6. apply trace_bind; [repeat constructor |].
  intros _ s7. destruct (write_results_file_run s7) as (s' & -> & _).
  repeat constructor.
Qed.

Lemma suite_loop_loop_events
  (cfg : config) (fuel : nat) (len : Z) (suite : list problem) (k : Z) (s : state) :
  Forall (fun e => is_loop_event e = true) (fst (suite_loop cfg fuel len k suite s)).
Proof.
  revert k s. induction suite as [| p rest IH]; intros k s; [constructor |].
  cbn [suite_loop]. unfold mbind, driver_bind.
  apply trace_bind.
  { unfold lift. destruct (batch_skips _ _ _); constructor. }
  intros skip s1. apply trace_bind; [| intros; apply IH].
  destruct skip; [constructor | apply process_problem_loop_events].
Qed.

Lemma experiment_no_thread_setup (cfg : config) (fuel : nat) (s : state) :
  Forall (fun e => is_thread_setup e = false) (fst (experiment cfg fuel s)).
Proof.
  assert (forall s0, external time_time s0 =
                     ([], Returns (fst (time_time (the_world s0)),
                                   with_world s0 (snd (time_time (the_world s0))))))
    as Htime.
  { intros s0. unfold external. now destruct (time_time (the_world s0)). }
  unfold experiment, mbind, driver_bind.
  apply trace_bind; [repeat constructor |]. intros _ s1.
  apply trace_bind.
  { unfold external. destruct (cocoex_suite _ _ _). constructor. }
  intros r s2. apply trace_bind.
  { unfold lift. destruct r; constructor. }
  intros suite s3.
  apply trace_bind; [repeat constructor |]. intros _ s4.
  apply trace_bind; [constructor |]. intros _ s5.
  apply trace_bind; [constructor |]. intros _ s6.
  apply trace_bind; [repeat constructor |]. intros _ s7.
  apply trace_bind; [rewrite Htime; constructor |]. intros time0 s8.
  apply trace_bind.
  { eapply Forall_impl; [apply suite_loop_loop_events |].
    intros e. destruct e as [m | | | | | | | | | | |]; try discriminate; try reflexivity.
    destruct m; try discriminate; reflexivity. }
  intros _ s9.
  unfold epilogue, mbind, driver_bind.
  apply trace_bind; [constructor |]. intros s10 s11.
  apply trace_bind.
  { destruct (Z.of_nat (size (timings s10)) =? 0); repeat constructor. }
  intros _ s12. apply trace_bind; [rewrite Htime; constructor |]. intros t s13.
  apply trace_bind; [destruct (1 <? batches cfg); repeat constructor |].
  intros _ s14. apply trace_bind; [repeat constructor |]. intros _ s15.
  unfold postprocess.
  destruct ((batches cfg =? 1) && cocopp_wanted (cocopp cfg)); [| constructor].
  destruct (cocopp cfg); repeat constructor.
Qed.

(** X10: [set_num_threads(1)] is the first thing the script does, before
    any import can fail, unless [sys.platform.lower()] is ['darwin'] or
    ['windows']: then the trace of the run begins with
    [mkl.set_num_threads(1)] (or the message that mkl is not installed),
    the four environment variables set to 1 and the message.  Nothing the
    script does afterwards, up to the end of the experiment, touches the
    thread settings again.  The test compares whole strings: a platform
    named [win32] is not among the two. *)
Theorem threads_set_first (fuel : nat) (env : environment) (s : state) :
  exists rest,
    fst (script fuel env s)
    = (if string_in (platform_lower env) ["darwin"; "windows"]%string
       then [] else thread_setup (has_mkl env)) ++ rest /\
    Forall (fun e => is_thread_setup e = false) rest /\
    (platform_lower env = "win32"%string ->
     fst (script fuel env s) = thread_setup (has_mkl env) ++ rest).
Proof.
  pose proof (prologue_trace env s) as Ht.
  assert (exists rest,
            fst (script fuel env s) = fst (prologue env s) ++ rest /\
            Forall (fun e => is_thread_setup e = false) rest) as (rest & E & F).
  { unfold script, mbind, driver_bind, bind at 1.
    destruct (prologue env s) as [t [[c s1] | e |]]; cbn [fst];
      try (exists []; rewrite app_nil_r; split; [reflexivity | constructor]).
    pose proof (trace_bind (fun e => is_thread_setup e = false)
                  (read_arguments env c) (fun c' => experiment c' fuel) s1) as Hb.
    destruct (bind (read_arguments env c) (fun c' => experiment c' fuel) s1) as [t' r].
    exists t'. split; [reflexivity |]. apply Hb.
    - unfold read_arguments. destruct (is_main env); [| constructor].
      destruct ((1 <? Z.of_nat (length (argv env))) && _); run;
        [repeat constructor |].
      destruct (args_to_dict _ _ _) as [[l | e] w]; constructor.
    - intros c' s'. apply experiment_no_thread_setup. }
  exists rest. rewrite E, Ht. split; [reflexivity |]. split; [exact F |].
  intros ->. reflexivity.
Qed.

Lemma ends_with_bind {A B} (suffix : list event) (m : driver A) (f : A -> driver B)
  (s : state) :
  (forall a s', ends_with suffix (f a s')) -> ends_with suffix (bind m f s).
Proof.
  intros H. unfold ends_with, bind.
  destruct (m s) as [t [[a s'] | e |]]; cbn [snd]; auto.
  specialize (H a s'). unfold ends_with in H.
  destruct (f a s') as [t' [r | e |]]; cbn [fst snd] in *; auto.
  destruct H as [pre ->]. exists (t ++ pre). now rewrite app_assoc.
Qed.

Lemma process_problem_no_postprocessing
  (cfg : config) (fuel : nat) (len : Z) (p : problem) (s : state) :
  Forall (fun e => is_postprocessing e = false) (fst (process_problem cfg fuel len p s)).
Proof.
  unfold process_problem, mbind, driver_bind.
  apply trace_bind.
  { unfold note_dimension. run.
    destruct (defaultdict_get (timings s) (dimension p)) as [l d].
    destruct (negb _ && _); repeat constructor. }
  intros _ s1. apply trace_bind; [repeat constructor |].
  intros _ s2. apply trace_bind.
  { destruct (problem_call_run p (zeros (dimension p)) s2) as (hit & w & ->).
    repeat constructor. }
  intros p1 s3. apply trace_bind.
  { unfold external. destruct (time_time (the_world s3)). constructor. }
  intros time1 s4. apply trace_bind.
  { pose proof (restart_loop_shape cfg fuel (-1) p1 s4) as (Fl & _).
    eapply Forall_impl; [exact Fl |]. intros e. now destruct e. }
  intros [ir p2] s5. apply trace_bind.
  { destruct (record_timing_run time1 p2 s5) as (s' & -> & _). constructor. }
  intros _ s6. apply trace_bind; [repeat constructor |].
  intros _ s7. destruct (write_results_file_run s7) as (s' & -> & _).
  repeat constructor.
Qed.

Lemma suite_loop_no_postprocessing
  (cfg : config) (fuel : nat) (len : Z) (suite : list problem) (k : Z) (s : state) :
  Forall (fun e => is_postprocessing e = false) (fst (suite_loop cfg fuel len k suite s)).
Proof.
  revert k s. induction suite as [| p rest IH]; intros k s; [constructor |].
  cbn [suite_loop]. unfold mbind, driver_bind.
  apply trace_bind.
  { unfold lift. destruct (batch_skips _ _ _); constructor. }
  intros skip s1. apply trace_bind; [| intros; apply IH].
  destruct skip; [constructor | apply process_problem_no_postprocessing].
Qed.

Lemma postprocessing_last_bind {A B} (m : driver A) (f : A -> driver B) (s : state) :
  Forall (fun e => is_postprocessing e = false) (fst (m s)) ->
  (forall a s', postprocessing_last (f a s')) ->
  postprocessing_last (bind m f s).
Proof.
  intros Hm Hf. unfold postprocessing_last, bind.
  destruct (m s) as [t [[a s'] | e |]]; cbn [fst] in *.
  - destruct (Hf a s') as (pre & tail & E & Hpre & Htail).
    destruct (f a s') as [t' r]. cbn [fst] in *. subst t'.
    exists (t ++ pre), tail. rewrite app_assoc. split; [reflexivity |].
    split; [apply Forall_app; split; assumption | exact Htail].
  - exists t, []. rewrite app_nil_r. auto.
  - exists t, []. rewrite app_nil_r. auto.
Qed.

(** X11: post-processing (the report generator and the browser) is never
    invoked inside the loop over the suite; in the whole experiment it is
    invoked only in the single-batch case with [cocopp] bound to the
    module, and then as the last thing the run does: the trace is events
    that are not post-processing, followed by nothing or by the two steps;
    with [cocopp=None], without the library, or with more than one batch it
    is never invoked. *)
Theorem postprocessing_only_single_batch (cfg : config) (fuel : nat) (s : state) :
  (forall len k suite s0,
     Forall (fun e => is_postprocessing e = false)
            (fst (suite_loop cfg fuel len k suite s0))) /\
  Forall (fun e => if is_postprocessing e
                   then batches cfg = 1 /\ cocopp cfg = BoundModule else True)
         (fst (experiment cfg fuel s)) /\
  postprocessing_last (experiment cfg fuel s) /\
  (if (batches cfg =? 1) && cocopp_wanted (cocopp cfg)
   then ends_with [ev_postprocess; ev_browser] (experiment cfg fuel s)
   else True).
Proof.
  assert (forall t : list event,
            Forall (fun e => is_postprocessing e = false) t ->
            Forall (fun e => if is_postprocessing e
                             then batches cfg = 1 /\ cocopp cfg = BoundModule
                             else True) t) as Weak.
  { intros t H. eapply Forall_impl; [exact H |]. cbn beta. now intros e ->. }
  assert (forall s0, external time_time s0 =
                     ([], Returns (fst (time_time (the_world s0)),
                                   with_world s0 (snd (time_time (the_world s0))))))
    as Htime.
  { intros s0. unfold external. now destruct (time_time (the_world s0)). }
  split; [intros; apply suite_loop_no_postprocessing |].
  split; [| split].
  - unfold experiment, mbind, driver_bind.
    apply trace_bind; [repeat constructor |]. intros _ s1.
    apply trace_bind.
    { unfold external. destruct (cocoex_suite _ _ _). constructor. }
    intros r s2. apply trace_bind.
    { unfold lift. destruct r; constructor. }
    intros suite s3.
    apply trace_bind; [repeat constructor |]. intros _ s4.
    apply trace_bind; [constructor |]. intros _ s5.
    apply trace_bind; [constructor |]. intros _ s6.
    apply trace_bind; [repeat constructor |]. intros _ s7.
    apply trace_bind; [rewrite Htime; constructor |]. intros time0 s8.
    apply trace_bind; [apply Weak, suite_loop_no_postprocessing |]. intros _ s9.
    unfold epilogue, mbind, driver_bind.
    apply trace_bind; [constructor |]. intros s10 s11.
    apply trace_bind.
    { destruct (Z.of_nat (size (timings s10)) =? 0); repeat constructor. }
    intros _ s12. apply trace_bind; [rewrite Htime; constructor |]. intros t s13.
    apply trace_bind; [destruct (1 <? batches cfg); repeat constructor |].
    intros _ s14. apply trace_bind; [repeat constructor |]. intros _ s15.
    unfold postprocess.
    destruct (batches cfg =? 1) eqn:Eb; [| constructor].
    apply Z.eqb_eq in Eb.
    destruct (cocopp cfg) as [| | str |] eqn:Ec; cbn;
      [constructor | constructor | destruct (negb _); constructor
       | repeat constructor; auto].
  - unfold experiment, mbind, driver_bind.
    apply postprocessing_last_bind; [repeat constructor |]. intros _ s1.
    apply postprocessing_last_bind.
    { unfold external. destruct (cocoex_suite _ _ _). constructor. }
    intros r s2. apply postprocessing_last_bind.
    { unfold lift. destruct r; constructor. }
    intros suite s3.
    apply postprocessing_last_bind; [repeat constructor |]. intros _ s4.
    apply postprocessing_last_bind; [constructor |]. intros _ s5.
    apply postprocessing_last_bind; [constructor |]. intros _ s6.
    apply postprocessing_last_bind; [repeat constructor |]. intros _ s7.
    apply postprocessing_last_bind; [rewrite Htime; constructor |]. intros time0 s8.
    apply postprocessing_last_bind; [apply suite_loop_no_postprocessing |]. intros _ s9.
    unfold epilogue, mbind, driver_bind.
    apply postprocessing_last_bind; [constructor |]. intros s10 s11.
    apply postprocessing_last_bind.
    { destruct (Z.of_nat (size (timings s10)) =? 0); repeat constructor. }
    intros _ s12. apply postprocessing_last_bind; [rewrite Htime; constructor |].
    intros t s13.
    apply postprocessing_last_bind; [destruct (1 <? batches cfg); repeat constructor |].
    intros _ s14. apply postprocessing_last_bind; [repeat constructor |]. intros _ s15.
    unfold postprocess, postprocessing_last. exists [].
    destruct ((batches cfg =? 1) && cocopp_wanted (cocopp cfg));
      [| exists []; cbn; auto].
    destruct (cocopp cfg); cbn; eexists; (split; [reflexivity |]); auto.
  - destruct ((batches cfg =? 1) && cocopp_wanted (cocopp cfg)) eqn:Ew; [| exact I].
    unfold experiment, mbind, driver_bind.
    repeat (apply ends_with_bind; intros).
    unfold epilogue, mbind, driver_bind.
    repeat (apply ends_with_bind; intros).
    unfold postprocess. rewrite Ew.
    destruct (cocopp cfg); unfold ends_with; cbn; auto.
    exists []. reflexivity.
Qed.

(** ** Edges of the batch filter *)

(** X12: with [batches = 0] the loop over a suite that is not empty ends
    at once in [ZeroDivisionError], before any problem is looked at. *)
Theorem zero_batches_raise
  (cfg : config) (fuel : nat) (len k : Z) (suite : list problem) (s : state) :
  batches cfg = 0 ->
  suite <> [] ->
  suite_loop cfg fuel len k suite s = ([], Raises ZeroDivisionError).
Proof.
  intros Hb Hs. destruct suite as [| p rest]; [contradiction |].
  cbn [suite_loop]. rewrite Hb. reflexivity.
Qed.

Lemma suite_loop_empty_selection (cfg : config) (fuel : nat) (len : Z) :
  batches cfg <> 0 ->
  forall (suite : list problem) (k : Z) (s : state),
    batch_from (batches cfg) (current_batch cfg) k suite = [] ->
    suite_loop cfg fuel len k suite s = ([], Returns (tt, s)).
Proof.
  intros Hb. induction suite as [| p rest IH]; intros k s Hsel; [reflexivity |].
  cbn [suite_loop batch_from] in *. unfold mbind, driver_bind.
  rewrite batch_skips_mod in * by exact Hb. rewrite bind_lift_ok.
  destruct (negb _); [| discriminate].
  rewrite bind_ret_l. now apply IH.
Qed.

(** X13: when the batch selects no problem of the suite (an empty suite, or
    fewer problems than the batch index needs), nothing is processed and
    the script ends in [IndexError] at the final print of the timings,
    [sorted(timings)[-1]]. *)
Theorem empty_batch_raises_IndexError
  (cfg : config) (fuel : nat) (s : state) (suite : list problem) (w : world) :
  cocoex_suite (suite_name cfg) (suite_filter_options cfg) (the_world s) = (Ok suite, w) ->
  batches cfg <> 0 ->
  batch_of (batches cfg) (current_batch cfg) suite = [] ->
  snd (experiment cfg fuel s) = Raises IndexError /\
  Forall (fun e => is_solver_call e || is_evaluation e || is_report e = false)
         (fst (experiment cfg fuel s)).
Proof.
  intros Hsuite Hb Hsel.
  assert (experiment cfg fuel s =
          ([ev_suite (suite_name cfg) (suite_filter_options cfg);
            ev_observer (suite_name cfg);
            ev_print (msg_benchmarking (solver_name (fmin cfg)) (solver_module (fmin cfg))
                        (suite_name cfg))],
           Raises IndexError)) as ->.
  { unfold experiment, mbind, driver_bind, bind, emit, external, lift,
      set_stoppings, set_timings.
    rewrite Hsuite. cbn [the_world with_world].
    destruct (time_time w) as [time0 w'].
    rewrite (suite_loop_empty_selection cfg fuel _ Hb) by exact Hsel.
    reflexivity. }
  split; [reflexivity | repeat constructor].
Qed.

(** ** The dispatch *)

Lemma restart_body_library (cfg : config) (i : Z) (p : problem) (s : state) :
  fmin cfg <> random_search ->
  (fmin cfg = scipy_fmin_slsqp -> dimension p <> 0) ->
  restart_body cfg i p s = library_pass cfg i p s.
Proof.
  intros Hrs Hdim. unfold restart_body, library_pass, call_args.
  destruct (fmin cfg) eqn:Hf; cbn; try contradiction.
  - unfold call_solver, stoppings_append. run. rewrite Hf.
    destruct (run_solver _ _ _ _) as [[[u out] | e] w]; reflexivity.
  - rewrite (py_truediv_nonzero _ _ (Hdim eq_refl)).
    unfold call_solver, stoppings_append. run. rewrite Hf.
    destruct (run_solver _ _ _ _) as [[[u out] | e] w]; reflexivity.
  - unfold call_solver. run. rewrite Hf.
    destruct (run_solver _ _ _ _) as [[[u out] | e] w]; reflexivity.
  - unfold call_solver. run. rewrite Hf.
    destruct (run_solver _ _ _ _) as [[[u out] | e] w]; reflexivity.
  - unfold call_solver, stoppings_append. run. rewrite Hf.
    destruct (run_solver _ _ _ _) as [[[u out] | e] w]; reflexivity.
  - unfold call_solver, stoppings_append. run. rewrite Hf.
    destruct (run_solver _ _ _ _) as [[[u out] | e] w]; reflexivity.
Qed.

Lemma restart_body_call (cfg : config) (i : Z) (p : problem) (s : state) :
  fst (restart_body cfg i p s) = [] \/
  exists rest,
    fst (restart_body cfg i p s) = ev_solver i p (call_args cfg i p) :: rest /\
    Forall (fun e => is_evaluation e = true) rest.
Proof.
  destruct (solver_is (fmin cfg) random_search) eqn:Hrs.
  - right. assert (fmin cfg = random_search) as Hf by (now destruct (fmin cfg)).
    unfold restart_body, call_args. rewrite Hf. cbn [solver_is].
    unfold mbind, driver_bind, bind at 1, emit at 1.
    match goal with |- context [random_search_run ?q ?l ?u ?e] =>
      destruct (random_search_run_spec q l u e s) as (t & p' & w & E & F & _) end.
    rewrite (bind_returns _ _ _ _ _ _ E). cbn. rewrite app_nil_r. eauto.
  - assert (fmin cfg <> random_search) as Hf by (intros H; now rewrite H in Hrs).
    assert (forall Hd : fmin cfg = scipy_fmin_slsqp -> dimension p <> 0,
              exists rest,
                fst (restart_body cfg i p s) = ev_solver i p (call_args cfg i p) :: rest /\
                Forall (fun e => is_evaluation e = true) rest) as Lib.
    { intros Hd. rewrite restart_body_library by assumption.
      unfold library_pass. destruct (run_solver _ _ _ _) as [[[u out] | e] w];
        exists []; split; (reflexivity || constructor). }
    destruct (solver_is (fmin cfg) scipy_fmin_slsqp) eqn:Hsl.
    + assert (fmin cfg = scipy_fmin_slsqp) as Hs by (now destruct (fmin cfg)).
      destruct (Z.eq_dec (dimension p) 0) as [Hz | Hnz]; [| right; now apply Lib].
      left. unfold restart_body. rewrite Hs. cbn [solver_is]. rewrite Hz.
      reflexivity.
    + right. apply Lib. intros Hs. now rewrite Hs in Hsl.
Qed.

Lemma restart_loop_dispatch (cfg : config) (fuel : nat) (i : Z) (p : problem) (s : state) :
  Forall (dispatched cfg) (fst (restart_loop cfg fuel i p s)).
Proof.
  revert i p s. induction fuel as [| fuel IH]; intros i p s;
    rewrite restart_loop_unfold;
    destruct (restart_guard (budget_multiplier cfg) p) eqn:G; cbn [fst]; try constructor.
  pose proof (restart_body_call cfg (i + 1) p s) as B.
  destruct (restart_body cfg (i + 1) p s) as [t o]. cbn [fst] in B.
  assert (Forall (dispatched cfg) t) as Ht.
  { destruct B as [-> | (rest & -> & F)]; [constructor |].
    constructor; [split; [reflexivity | exact G] |].
    eapply Forall_impl; [exact F |]. intros e. now destruct e. }
  destruct o as [[[p' stop] s'] | e |]; cbn [fst]; auto.
  destruct stop; cbn [fst].
  - now rewrite app_nil_r.
  - specialize (IH (i + 1) p' s').
    destruct (restart_loop cfg fuel (i + 1) p' s') as [t' r]. cbn [fst] in *.
    apply Forall_app. split; assumption.
Qed.

(** ** The size of the population *)

Lemma default_loop_calls_le (cfg : config) :
  takes_default_branch (fmin cfg) = true ->
  forall (fuel : nat) (i : Z) (p : problem) (s : state),
    -1 <= i <= 8 ->
    Z.of_nat (length (solver_calls (fst (restart_loop cfg fuel i p s)))) <= 9 - i.
Proof.
  intros D. induction fuel as [| fuel IH]; intros i p s Hi;
    rewrite restart_loop_unfold;
    destruct (restart_guard (budget_multiplier cfg) p); cbn [fst length solver_calls];
    try (cbn; lia).
  pose proof (restart_body_spec cfg (i + 1) p s) as B.
  destruct (restart_body cfg (i + 1) p s) as [t o].
  destruct B as [(Hs & _) | (a & rest & Ht & Fr & _ & _ & Hpost)].
  { rewrite Hs in D. discriminate. }
  cbn [fst snd] in Ht, Hpost. subst t.
  assert (solver_calls (ev_solver (i + 1) p a :: rest) = [(i + 1, p, a)]) as Hc.
  { change (solver_calls (ev_solver (i + 1) p a :: rest))
      with ((i + 1, p, a) :: solver_calls rest).
    now rewrite solver_calls_evaluations. }
  destruct o as [[[p' stop] s'] | e |]; [| cbn [fst]; rewrite Hc; cbn; lia | contradiction].
  destruct Hpost as (_ & _ & Hstop & _). rewrite D in Hstop. cbn in Hstop. subst stop.
  destruct (9 <=? i + 1) eqn:L; cbn [fst].
  - rewrite app_nil_r, Hc. cbn. lia.
  - apply Z.leb_gt in L. specialize (IH (i + 1) p' s' ltac:(lia)).
    destruct (restart_loop cfg fuel (i + 1) p' s') as [t' r]. cbn [fst] in *.
    change (ev_solver (i + 1) p a :: rest ++ t')
      with ((ev_solver (i + 1) p a :: rest) ++ t').
    rewrite solver_calls_app, Hc. cbn [app length]. lia.
Qed.

(** X17: the population-size hint never exceeds 512 times the default:
    every hinted call has [irestart] between 0 and 9 and hint
    [2^irestart] times the default population size, and there are at most
    ten of them. *)
Theorem popsize_at_most_512_defaults
  (cfg : config) (fuel : nat) (p : problem) (s : state) :
  (length (hinted (fst (restart_loop cfg fuel (-1) p s))) <= 10)%nat /\
  Forall (fun ih =>
            0 <= fst ih <= 9 /\
            snd ih = 2 ^ fst ih * default_popsize (dimension p) /\
            (if 0 <=? default_popsize (dimension p)
             then snd ih <= 512 * default_popsize (dimension p) else True))
         (hinted (fst (restart_loop cfg fuel (-1) p s))).
Proof.
  destruct (takes_default_branch (fmin cfg)) eqn:D;
    [| rewrite (hinted_other_branches cfg D); split; [cbn; lia | constructor]].
  pose proof (default_loop_calls_le cfg D fuel (-1) p s ltac:(lia)) as Hle.
  rewrite <- (all_attempts_hinted cfg D) in Hle.
  split; [lia |].
  rewrite (hinted_default_branch cfg D fuel (-1) p s).
  set (n := length (hinted (fst (restart_loop cfg fuel (-1) p s)))) in *.
  unfold doubling. apply List.Forall_map. apply List.Forall_forall.
  intros k Hk. apply List.in_seq in Hk. cbn [fst snd].
  replace (-1 + 1 + Z.of_nat k) with (Z.of_nat k) by lia.
  split; [lia |]. split; [reflexivity |].
  destruct (0 <=? default_popsize (dimension p)) eqn:Hp; [| exact I].
  apply Z.leb_le in Hp.
  assert (2 ^ Z.of_nat k <= 2 ^ 9) as Hpow by (apply Z.pow_le_mono_r; lia).
  change (2 ^ 9) with 512 in Hpow. nia.
Qed.

(** ** The sizes of the batches *)

Lemma floor_step (m n : Z) :
  1 <= n -> m / n - (m - 1) / n = if m mod n =? 0 then 1 else 0.
Proof.
  forget_world. intros Hn.
  pose proof (Z.div_mod m n ltac:(lia)) as Hm.
  pose proof (Z.mod_pos_bound m n ltac:(lia)) as Hr.
  destruct (m mod n =? 0) eqn:E; [apply Z.eqb_eq in E | apply Z.eqb_neq in E].
  - rewrite <- (Z.div_unique (m - 1) n (m / n - 1) (n - 1)); lia.
  - rewrite <- (Z.div_unique (m - 1) n (m / n) (m mod n - 1)); lia.
Qed.

Lemma mod_eq_shift (k r n : Z) :
  1 <= n -> 0 <= r < n -> ((k - r) mod n =? 0) = (k mod n =? r).
Proof.
  forget_world. intros Hn Hr.
  pose proof (Z.div_mod k n ltac:(lia)) as Hk.
  pose proof (Z.mod_pos_bound k n ltac:(lia)) as Hb.
  destruct (k mod n =? r) eqn:E; [apply Z.eqb_eq in E | apply Z.eqb_neq in E].
  - apply Z.eqb_eq. symmetry.
    apply (Z.mod_unique (k - r) n (k / n) 0); lia.
  - apply Z.eqb_neq.
    destruct (Z_lt_le_dec (k mod n) r) as [Hlt | Hge].
    + rewrite <- (Z.mod_unique (k - r) n (k / n - 1) (k mod n - r + n)); lia.
    + rewrite <- (Z.mod_unique (k - r) n (k / n) (k mod n - r)); lia.
Qed.

Lemma batch_from_length (n i : Z) (suite : list problem) (k0 : Z) :
  1 <= n ->
  Z.of_nat (length (batch_from n i k0 suite)) =
  (k0 + Z.of_nat (length suite) - 1 - i mod n) / n - (k0 - 1 - i mod n) / n.
Proof.
  forget_world. intros Hn.
  pose proof (Z.mod_pos_bound i n ltac:(lia)) as Hr.
  revert k0. induction suite as [| p rest IH]; intros k0.
  - cbn [batch_from length]. change (Z.of_nat 0) with 0.
    now rewrite Z.add_0_r, Z.sub_diag.
  - cbn [batch_from]. rewrite batch_skips_mod by lia.
    pose proof (floor_step (k0 - i mod n) n Hn) as Hstep.
    rewrite (mod_eq_shift k0 (i mod n) n Hn Hr) in Hstep.
    replace (k0 - i mod n - 1) with (k0 - 1 - i mod n) in Hstep by lia.
    specialize (IH (k0 + 1)).
    replace (k0 + 1 + Z.of_nat (length rest) - 1 - i mod n)
      with (k0 + Z.of_nat (length (p :: rest)) - 1 - i mod n) in IH by (cbn [length]; lia).
    replace (k0 + 1 - 1 - i mod n) with (k0 - i mod n) in IH by lia.
    cbn [length] in IH |- *.
    generalize dependent ((k0 + Z.of_nat (S (length rest)) - 1 - i mod n) / n).
    generalize dependent ((k0 - i mod n) / n).
    generalize dependent ((k0 - 1 - i mod n) / n).
    intros C B Hstep A IH.
    destruct (k0 mod n =? i mod n); cbn [negb length] in *; lia.
Qed.

(** X18: batch [i] of [n] holds [(L + n - 1 - i mod n) / n] of the [L]
    problems of the suite: the batches are balanced, each holding
    [L / n] problems rounded down or up. *)
Theorem batches_are_balanced (n i : Z) (suite : list problem) :
  1 <= n ->
  Z.of_nat (length (batch_of n i suite))
    = (Z.of_nat (length suite) + n - 1 - i mod n) / n /\
  Z.of_nat (length suite) / n <= Z.of_nat (length (batch_of n i suite))
    <= (Z.of_nat (length suite) + n - 1) / n.
Proof.
  forget_world. intros Hn.
  pose proof (Z.mod_pos_bound i n ltac:(lia)) as Hr.
  assert (Z.of_nat (length (batch_of n i suite))
          = (Z.of_nat (length suite) + n - 1 - i mod n) / n) as E.
  { unfold batch_of. rewrite batch_from_length by exact Hn.
    rewrite <- (Z.div_unique (0 - 1 - i mod n) n (-1) (n - 1 - i mod n)) by lia.
    replace (Z.of_nat (length suite) + n - 1 - i mod n)
      with (0 + Z.of_nat (length suite) - 1 - i mod n + 1 * n) by lia.
    rewrite Z.div_add by lia. lia. }
  split; [exact E |]. rewrite E.
  split; apply Z.div_le_mono; lia.
Qed.

(** ** The record and the file over the whole suite *)

Lemma only_grown_refl {V} (d : gmap Z (list V)) : only_grown d d.
Proof. intros key. exists []. now rewrite app_nil_r. Qed.

Lemma only_grown_trans {V} (d1 d2 d3 : gmap Z (list V)) :
  only_grown d1 d2 -> only_grown d2 d3 -> only_grown d1 d3.
Proof.
  intros H12 H23 key. destruct (H12 key) as [m1 E1], (H23 key) as [m2 E2].
  exists (m1 ++ m2). now rewrite E2, E1, app_assoc.
Qed.

Lemma process_problem_state
  (cfg : config) (fuel : nat) (len : Z) (p : problem) (s : state) :
  post (process_problem cfg fuel len p) s
    (fun _ s' =>
       only_grown (stoppings s) (stoppings s') /\
       results_file s' = Some (stoppings s')).
Proof.
  unfold post.
  destruct (process_problem_run cfg fuel len p s) as (tn & hit & s2 & _ & Hs2 & _ & Hrun).
  pose proof (restart_loop_records cfg fuel (-1) (evaluated p hit) s2) as Hrec.
  unfold post in Hrec.
  destruct (restart_loop cfg fuel (-1) (evaluated p hit) s2) as [tl o].
  specialize (Hrun tl o eq_refl). cbn zeta in Hrun. cbn [fst snd] in Hrec.
  destruct o as [[[ir p2] s3] | e |]; [| now rewrite Hrun | now rewrite Hrun].
  destruct Hrun as (s5 & -> & Hs5 & Hf5). cbn [snd].
  destruct Hrec as (_ & _ & Hdel & recs & Hrecs & _).
  rewrite Hs5. split; [| exact Hf5].
  rewrite <- Hs2. intros key.
  destruct (decide (key = index (evaluated p hit))) as [-> | Hne].
  - exists recs. exact Hrecs.
  - exists []. rewrite app_nil_r.
    rewrite <- (lookup_delete_ne (stoppings s3) (index (evaluated p hit)) key) by auto.
    rewrite Hdel. now rewrite lookup_delete_ne by auto.
Qed.

(** X19: across the whole suite [stoppings] is append-only: when the loop
    over the suite returns, every list it held at the start is the
    beginning of the list under the same key at the end. *)
Theorem stoppings_only_grow
  (cfg : config) (fuel : nat) (len k : Z) (suite : list problem) (s : state) :
  post (suite_loop cfg fuel len k suite) s
    (fun _ s' => only_grown (stoppings s) (stoppings s')).
Proof.
  revert k s. induction suite as [| p rest IH]; intros k s;
    [apply only_grown_refl |].
  cbn [suite_loop]. unfold mbind, driver_bind.
  apply post_bind. unfold post at 1, lift at 1.
  destruct (batch_skips (batches cfg) (current_batch cfg) k) as [skip | e];
    cbn [snd]; [| exact I].
  apply post_bind. destruct skip.
  - unfold post at 1, ret at 1. cbn [snd]. apply IH.
  - eapply post_mono; [apply process_problem_state |]. cbn beta.
    intros _ s1 [Hg _]. eapply post_mono; [apply IH |]. cbn beta.
    intros _ s2 Hg2. eapply only_grown_trans; eassumption.
Qed.

(** X20: when the loop over the suite returns, either no problem was
    processed and the file is as it was, or the file holds exactly the
    [stoppings] the run ends with: the file is up to date. *)
Theorem results_file_up_to_date
  (cfg : config) (fuel : nat) (len k : Z) (suite : list problem) (s : state) :
  post (suite_loop cfg fuel len k suite) s
    (fun _ s' =>
       (fst (suite_loop cfg fuel len k suite s) = [] /\
        results_file s' = results_file s /\ stoppings s' = stoppings s) \/
       results_file s' = Some (stoppings s')).
Proof.
  assert (forall suite k s,
            post (suite_loop cfg fuel len k suite) s
              (fun _ s' =>
                 (s' = s /\ fst (suite_loop cfg fuel len k suite s) = []) \/
                 results_file s' = Some (stoppings s'))) as Gen.
  { clear. induction suite as [| p rest IH]; intros k s; [left; auto |].
    unfold post. cbn [suite_loop]. unfold mbind, driver_bind.
    destruct (batch_skips (batches cfg) (current_batch cfg) k) as [skip | e];
      [rewrite bind_lift_ok | exact I].
    destruct skip.
    - rewrite bind_ret_l. apply IH.
    - pose proof (process_problem_state cfg fuel len p s) as Hp. unfold post in Hp.
      unfold bind at 1 2.
      destruct (process_problem cfg fuel len p s) as [t [[[] s1] | e |]];
        cbn [fst snd] in *; auto.
      destruct Hp as [_ Hf1].
      specialize (IH (k + 1) s1). unfold post in IH.
      destruct (suite_loop cfg fuel len (k + 1) rest s1) as [t' [[[] s2] | e |]];
        cbn [fst snd] in *; auto.
      destruct IH as [[-> _] | H]; right; assumption. }
  eapply post_mono; [apply Gen |]. cbn beta.
  intros _ s' [[-> E] | H]; [left | right]; auto.
Qed.

(** X25: the two places behind [11 < 3] are never reached: no solver is
    called with [restarts=9] (line 156) and SLSQP is never run ahead of the
    solver (line 164), whatever [fmin] is, also for [cma.fmin2] itself. *)
Theorem switched_off_calls_never_made
  (cfg : config) (fuel : nat) (i : Z) (p : problem) (s : state) :
  Forall (fun e => is_switched_off_call e = false) (fst (restart_loop cfg fuel i p s)).
Proof.
  eapply Forall_impl; [apply restart_loop_dispatch |].
  intros e. destruct e; try reflexivity.
  cbn. intros [-> _]. unfold call_args. now destruct (fmin cfg).
Qed.

(** ** Dimensions and their progress lines *)

Lemma count_bind {A B} (f : event -> bool) (m : driver A) (k : A -> driver B)
  (s : state) :
  length (List.filter f (fst (bind m k s))) =
  (length (List.filter f (fst (m s)))
   + match snd (m s) with
     | Returns (a, s') => length (List.filter f (fst (k a s')))
     | _ => 0
     end)%nat.
Proof.
  unfold bind. destruct (m s) as [t [[a s'] | e |]]; cbn [fst snd]; try lia.
  destruct (k a s') as [t' r]. cbn [fst].
  now rewrite List.filter_app, List.length_app.
Qed.

Lemma filter_none (f : event -> bool) (t : list event) :
  Forall (fun e => f e = false) t -> List.filter f t = [].
Proof.
  induction 1 as [| e t He _ IH]; [reflexivity |]. cbn. now rewrite He.
Qed.

Lemma defaultdict_append_size {V} (d : gmap Z (list V)) (key : Z) (x : V) :
  size (defaultdict_append d key x)
  = match d !! key with Some _ => size d | None => S (size d) end.
Proof.
  unfold defaultdict_append, defaultdict_get.
  destruct (d !! key) as [l |] eqn:E; cbn.
  - apply map_size_insert_Some. now rewrite E.
  - rewrite insert_insert_eq. now apply map_size_insert_None.
Qed.

Lemma defaultdict_append_sampled (d : gmap Z (list Q)) (key : Z) (x : Q) :
  all_sampled d -> all_sampled (defaultdict_append d key x).
Proof.
  intros H k l Hl. destruct (decide (k = key)) as [-> | Hne].
  - rewrite defaultdict_append_lookup in Hl. injection Hl as <-.
    now destruct (default [] (d !! key)).
  - pose proof (f_equal (fun m => m !! k) (defaultdict_append_delete d key x)) as E.
    cbn beta in E. rewrite !lookup_delete_ne in E by congruence.
    rewrite E in Hl. now apply (H k).
Qed.

(** The progress lines one problem brings: one, when its dimension is new
    to [timings] and not the only one there. *)
Lemma process_problem_progress
  (cfg : config) (fuel : nat) (len : Z) (p : problem) (s : state) :
  length (List.filter is_dimension_done (fst (process_problem cfg fuel len p s))) =
  let '(l, d) := defaultdict_get (timings s) (dimension p) in
  if negb (0 <? Z.of_nat (length l)) && (1 <? Z.of_nat (size d)) then 1%nat else 0%nat.
Proof.
  unfold process_problem, mbind, driver_bind.
  match goal with |- context [bind (note_dimension p) ?k s] => set (rest := k) end.
  assert (forall u s1, List.filter is_dimension_done (fst (rest u s1)) = []) as Hrest.
  { intros u s1. subst rest. cbn beta. apply filter_none.
    apply trace_bind; [repeat constructor |].
    intros _ s2. apply trace_bind.
    { destruct (problem_call_run p (zeros (dimension p)) s2) as (hit & w & ->).
      repeat constructor. }
    intros p1 s3. apply trace_bind.
    { unfold external. destruct (time_time (the_world s3)). constructor. }
    intros time1 s4. apply trace_bind.
    { pose proof (restart_loop_shape cfg fuel (-1) p1 s4) as (Fl & _).
      eapply Forall_impl; [exact Fl |]. intros e. now destruct e. }
    intros [ir p2] s5. apply trace_bind.
    { destruct (record_timing_run time1 p2 s5) as (s' & -> & _). constructor. }
    intros _ s6. apply trace_bind; [repeat constructor |].
    intros _ s7. destruct (write_results_file_run s7) as (s' & -> & _).
    repeat constructor. }
  clearbody rest. rewrite count_bind.
  unfold note_dimension. run.
  destruct (defaultdict_get (timings s) (dimension p)) as [l d].
  destruct (negb (0 <? Z.of_nat (length l)) && (1 <? Z.of_nat (size d)));
    cbn [fst snd]; rewrite Hrest; reflexivity.
Qed.

Lemma process_problem_dimension
  (cfg : config) (fuel : nat) (len : Z) (p : problem) (s : state) :
  all_sampled (timings s) ->
  match process_problem cfg fuel len p s with
  | (t, Returns (_, s')) =>
      all_sampled (timings s') /\
      dom (timings s') = dom (timings s) ∪ {[dimension p]} /\
      (length (List.filter is_dimension_done t) + Nat.max 1 (size (timings s))
       = Nat.max 1 (size (timings s')))%nat
  | _ => True
  end.
Proof.
  intros Hs.
  pose proof (process_problem_progress cfg fuel len p s) as Hc.
  pose proof (process_problem_timings cfg fuel len p s) as Ht. unfold post in Ht.
  destruct (process_problem cfg fuel len p s) as [t [[[] s'] | e |]];
    cbn [fst snd] in *; try exact I.
  destruct Ht as [sample Ht]. rewrite Ht.
  split; [now apply defaultdict_append_sampled |].
  split; [apply defaultdict_append_dom |].
  rewrite Hc, defaultdict_append_size. unfold defaultdict_get.
  destruct (timings s !! dimension p) as [l |] eqn:E.
  - assert (l <> []) as Hl by (now apply (Hs (dimension p))).
    destruct l as [| x l]; [contradiction |]. cbn [length].
    replace (0 <? Z.of_nat (S (length l))) with true
      by (symmetry; apply Z.ltb_lt; lia).
    cbn. lia.
  - cbn [length]. rewrite map_size_insert_None by exact E.
    change (0 <? Z.of_nat 0) with false. cbn [negb andb].
    destruct (1 <? Z.of_nat (S (size (timings s)))) eqn:E1.
    + apply Z.ltb_lt in E1. lia.
    + apply Z.ltb_ge in E1. lia.
Qed.

Lemma suite_loop_dimension (cfg : config) (fuel : nat) (len : Z) :
  forall (suite : list problem) (k : Z) (s : state),
    all_sampled (timings s) ->
    match suite_loop cfg fuel len k suite s with
    | (t, Returns (_, s')) =>
        all_sampled (timings s') /\
        dom (timings s') =
          dom (timings s)
          ∪ dimensions_of (batch_from (batches cfg) (current_batch cfg) k suite) /\
        (length (List.filter is_dimension_done t) + Nat.max 1 (size (timings s))
         = Nat.max 1 (size (timings s')))%nat
    | _ => True
    end.
Proof.
  induction suite as [| p rest IH]; intros k s Hs.
  - cbn. split; [exact Hs |]. split; [| reflexivity].
    unfold dimensions_of. cbn. now rewrite union_empty_r_L.
  - cbn [suite_loop batch_from]. unfold mbind, driver_bind.
    destruct (batch_skips (batches cfg) (current_batch cfg) k) as [skip | e];
      [rewrite bind_lift_ok | exact I].
    destruct skip.
    + rewrite bind_ret_l. now apply IH.
    + unfold bind at 1.
      pose proof (process_problem_dimension cfg fuel len p s Hs) as Hp.
      destruct (process_problem cfg fuel len p s) as [t [[[] s1] | e |]];
        cbn [fst snd] in *; try exact I.
      destruct Hp as (Hs1 & Hd1 & Hc1).
      specialize (IH (k + 1) s1 Hs1).
      destruct (suite_loop cfg fuel len (k + 1) rest s1) as [t' [[[] s2] | e |]];
        try exact I.
      destruct IH as (Hs2 & Hd2 & Hc2).
      split; [exact Hs2 |]. split.
      * rewrite Hd2, Hd1. unfold dimensions_of. cbn [map snd].
        rewrite list_to_set_cons. now rewrite (assoc_L (∪)).
      * rewrite List.filter_app, List.length_app. lia.
Qed.

(** X21: in a run that starts with [timings] empty, the loop over the
    suite leaves in [timings] exactly the dimensions of the problems the
    batch selects, and prints the line of a finished dimension once for
    each of these dimensions but the first. *)
Theorem one_progress_line_per_further_dimension
  (cfg : config) (fuel : nat) (len k : Z) (suite : list problem) (s : state) :
  timings s = ∅ ->
  match suite_loop cfg fuel len k suite s with
  | (t, Returns (_, s')) =>
      dom (timings s')
        = dimensions_of (batch_from (batches cfg) (current_batch cfg) k suite) /\
      length (List.filter is_dimension_done t) = (size (timings s') - 1)%nat
  | _ => True
  end.
Proof.
  intros Ht.
  assert (all_sampled (timings s)) as Hs.
  { intros key l H. rewrite Ht, lookup_empty in H. discriminate. }
  pose proof (suite_loop_dimension cfg fuel len suite k s Hs) as H.
  destruct (suite_loop cfg fuel len k suite s) as [t [[[] s'] | e |]]; try exact I.
  destruct H as (_ & Hd & Hc). rewrite Ht in Hd, Hc.
  rewrite dom_empty_L, union_empty_l_L in Hd. rewrite map_size_empty in Hc.
  split; [exact Hd | lia].
Qed.

(** ** No exception of the driver's own, over the whole experiment *)

(** ** The name of the output folder *)

Lemma append_inv_head (s a b : string) :
  String.append s a = String.append s b -> a = b.
Proof.
  forget_world. induction s as [| c s IH]; cbn; intros H; [exact H |].
  injection H as H. now apply IH.
Qed.

Lemma append_length (a b : string) :
  String.length (String.append a b) = (String.length a + String.length b)%nat.
Proof.
  forget_world. induction a as [| c a IH]; simpl; [reflexivity | now rewrite IH].
Qed.

Lemma append_inv_tail (t a b : string) :
  String.append a t = String.append b t -> a = b.
Proof.
  forget_world. revert b. induction a as [| c a IH]; intros [| c' b] H.
  - reflexivity.
  - apply (f_equal String.length) in H. rewrite !append_length in H. simpl in H. lia.
  - apply (f_equal String.length) in H. rewrite !append_length in H. simpl in H. lia.
  - cbn in H. injection H as -> H. f_equal. now apply IH.
Qed.

Lemma no_letter_o_digits (d : Decimal.uint) :
  no_letter_o (DecimalString.NilEmpty.string_of_uint d) = true.
Proof.
  forget_world. induction d; cbn [DecimalString.NilEmpty.string_of_uint no_letter_o];
    try rewrite IHd; reflexivity.
Qed.

Lemma no_letter_o_number (d : Decimal.int) :
  no_letter_o (DecimalString.NilEmpty.string_of_int d) = true.
Proof.
  forget_world. destruct d; cbn [DecimalString.NilEmpty.string_of_int no_letter_o];
    rewrite no_letter_o_digits; reflexivity.
Qed.

(** A number is read back up to its [of]. *)
Lemma split_at_of (x x' r r' : string) :
  no_letter_o x = true -> no_letter_o x' = true ->
  String.append x (String.append "of" r) = String.append x' (String.append "of" r') ->
  x = x' /\ r = r'.
Proof.
  forget_world. revert x'. induction x as [| c x IH]; intros [| c' x'] Hx Hx' H; cbn in H.
  - injection H as H. now split.
  - injection H as Hc _. subst c'. cbn in Hx'. discriminate.
  - injection H as Hc _. subst c. cbn in Hx. discriminate.
  - injection H as -> H. cbn in Hx, Hx'.
    apply andb_true_iff in Hx as [_ Hx]. apply andb_true_iff in Hx' as [_ Hx'].
    destruct (IH x' Hx Hx' H) as [-> ->]. now split.
Qed.

Lemma format_d_inj (a b : Z) : format_d a = format_d b -> a = b.
Proof.
  forget_world. unfold format_d. intros H.
  apply (f_equal DecimalString.NilEmpty.int_of_string) in H.
  rewrite !DecimalString.NilEmpty.isi in H. injection H as H.
  now apply DecimalZ.to_int_inj.
Qed.

Lemma of_int_zero_pad (width : nat) (d : Decimal.int) :
  Z.of_int (zero_pad width d) = Z.of_int d.
Proof.
  forget_world.
  assert (forall n u, Z.of_uint (Nat.iter n Decimal.D0 u) = Z.of_uint u) as H.
  { induction n as [| n IH]; intros u; [reflexivity |]. cbn [Nat.iter]. apply IH. }
  destruct d as [u | u]; cbn [zero_pad Z.of_int]; now rewrite H.
Qed.

Lemma format_0d_inj (width : nat) (a b : Z) :
  format_0d width a = format_0d width b -> a = b.
Proof.
  forget_world. unfold format_0d. intros H.
  apply (f_equal DecimalString.NilEmpty.int_of_string) in H.
  rewrite !DecimalString.NilEmpty.isi in H. injection H as H.
  apply (f_equal Z.of_int) in H.
  now rewrite !of_int_zero_pad, !DecimalZ.of_to in H.
Qed.

(** X23: two runs that differ only in their batch, [batch=i/n] and
    [batch=i'/n'] with more than one batch each, name different output
    folders and different results files: no batch overwrites what another
    one wrote.  This holds too when both select the same problems, as
    [batch=9/8] and [batch=1/8] do. *)
Theorem batches_write_to_different_folders
  (folder : string) (cfg : config) (i n i' n' : Z) :
  1 < n -> 1 < n' ->
  (i, n) <> (i', n') ->
  output_folder folder (with_batch cfg i n)
    <> output_folder folder (with_batch cfg i' n') /\
  results_file_name folder (with_batch cfg i n)
    <> results_file_name folder (with_batch cfg i' n').
Proof.
  forget_world. intros Hn Hn' Hne.
  assert (output_folder folder (with_batch cfg i n)
          <> output_folder folder (with_batch cfg i' n')) as Hfolder.
  { intros H. apply Hne. unfold output_folder in H.
    destruct cfg as [f name bm opts b cur pp].
    change (batches (with_batch _ i n)) with n in H.
    change (batches (with_batch _ i' n')) with n' in H.
    change (folder_stem (with_batch _ i' n'))
      with (folder_stem (with_batch (Build_config f name bm opts b cur pp) i n)) in H.
    replace (1 <? n) with true in H by (symmetry; now apply Z.ltb_lt).
    replace (1 <? n') with true in H by (symmetry; now apply Z.ltb_lt).
    cbv zeta in H. apply append_inv_head in H.
    unfold batch_suffix in H.
    change (current_batch (with_batch _ i n)) with i in H.
    change (current_batch (with_batch _ i' n')) with i' in H.
    change (batches (with_batch _ i n)) with n in H.
    change (batches (with_batch _ i' n')) with n' in H.
    apply append_inv_head in H.
    apply split_at_of in H as [Hi Hb]; try apply no_letter_o_number.
    apply format_0d_inj in Hi. apply format_d_inj in Hb. congruence. }
  split; [exact Hfolder |].
  intros H. apply Hfolder. unfold results_file_name in H.
  now apply append_inv_tail in H.
Qed.

(** ** Batches and the loop over the suite *)

Lemma omap_bind {A B C} (f : event -> option C) (m : driver A) (k : A -> driver B)
  (s : state) :
  omap f (fst (bind m k s)) =
  omap f (fst (m s))
  ++ match snd (m s) with
     | Returns (a, s') => omap f (fst (k a s'))
     | _ => []
     end.
Proof.
  unfold bind. destruct (m s) as [t [[a s'] | e |]]; cbn [fst snd];
    try (now rewrite app_nil_r).
  destruct (k a s') as [t' r]. cbn [fst]. apply omap_app.
Qed.

Lemma omap_none {C} (f : event -> option C) (t : list event) :
  Forall (fun e => f e = None) t -> omap f t = [].
Proof.
  induction 1 as [| e t He _ IH]; [reflexivity |]. cbn. now rewrite He.
Qed.

(** A problem that passes the filter is taken up once, whatever comes
    of it. *)
Lemma process_problem_taken_up
  (cfg : config) (fuel : nat) (len : Z) (p : problem) (s : state) :
  taken_up (fst (process_problem cfg fuel len p s)) = [index p].
Proof.
  unfold taken_up, process_problem, mbind, driver_bind.
  match goal with |- context [bind (emit (ev_observe_with (index p))) ?k] =>
    set (rest := k) end.
  assert (forall u s1,
            omap (fun e => match e with ev_observe_with idx => Some idx | _ => None end)
                 (fst (rest u s1)) = []) as Hrest.
  { intros u s1. subst rest. cbn beta. apply omap_none.
    apply trace_bind.
    { destruct (problem_call_run p (zeros (dimension p)) s1) as (hit & w & ->).
      repeat constructor. }
    intros p1 s3. apply trace_bind.
    { unfold external. destruct (time_time (the_world s3)). constructor. }
    intros time1 s4. apply trace_bind.
    { pose proof (restart_loop_shape cfg fuel (-1) p1 s4) as (Fl & _).
      eapply Forall_impl; [exact Fl |]. intros e. now destruct e. }
    intros [ir p2] s5. apply trace_bind.
    { destruct (record_timing_run time1 p2 s5) as (s' & -> & _). constructor. }
    intros _ s6. apply trace_bind; [repeat constructor |].
    intros _ s7. destruct (write_results_file_run s7) as (s' & -> & _).
    repeat constructor. }
  clearbody rest. rewrite omap_bind.
  destruct (note_dimension_run p s) as (tn & s1 & En & _).
  assert (omap (fun e => match e with ev_observe_with idx => Some idx | _ => None end) tn
          = []) as Hn.
  { revert En. unfold note_dimension. run.
    destruct (defaultdict_get (timings s) (dimension p)) as [l d].
    destruct (negb _ && _); intros [= <- _]; reflexivity. }
  rewrite En. cbn [fst snd]. rewrite Hn, omap_bind. unfold emit at 1 2. cbn [fst snd].
  rewrite Hrest. reflexivity.
Qed.

(** It is reported when, and only when, its processing completes. *)
Lemma process_problem_reported
  (cfg : config) (fuel : nat) (len : Z) (p : problem) (s : state) :
  reported_done (fst (process_problem cfg fuel len p s)) =
  match snd (process_problem cfg fuel len p s) with
  | Returns _ => [index p]
  | _ => []
  end.
Proof.
  assert (forall t, reported_done t = reported_done (List.filter is_report t)) as Hfilter.
  { unfold reported_done. induction t as [| e t IH]; [reflexivity |].
    destruct e; cbn; rewrite ?IH; reflexivity. }
  rewrite Hfilter, process_problem_reports.
  destruct (snd (process_problem cfg fuel len p s)) as [[[] s'] | e |]; reflexivity.
Qed.

Lemma taken_up_app (t1 t2 : list event) :
  taken_up (t1 ++ t2) = taken_up t1 ++ taken_up t2.
Proof. apply omap_app. Qed.

Lemma reported_done_app (t1 t2 : list event) :
  reported_done (t1 ++ t2) = reported_done t1 ++ reported_done t2.
Proof. apply omap_app. Qed.

Lemma suite_loop_takes_up_batch (cfg : config) (fuel : nat) (len : Z) :
  batches cfg <> 0 ->
  forall (suite : list problem) (k : Z) (s : state),
    taken_up (fst (suite_loop cfg fuel len k suite s))
      `prefix_of` indices_of (batch_from (batches cfg) (current_batch cfg) k suite) /\
    reported_done (fst (suite_loop cfg fuel len k suite s))
      `prefix_of` taken_up (fst (suite_loop cfg fuel len k suite s)) /\
    (forall s', snd (suite_loop cfg fuel len k suite s) = Returns (tt, s') ->
       taken_up (fst (suite_loop cfg fuel len k suite s))
         = indices_of (batch_from (batches cfg) (current_batch cfg) k suite) /\
       reported_done (fst (suite_loop cfg fuel len k suite s))
         = indices_of (batch_from (batches cfg) (current_batch cfg) k suite)).
Proof.
  intros Hb. induction suite as [| p rest IH]; intros k s.
  { cbn. split; [reflexivity |]. split; [reflexivity |]. auto. }
  cbn [suite_loop batch_from]. unfold mbind, driver_bind.
  rewrite batch_skips_mod by exact Hb. rewrite bind_lift_ok.
  destruct (negb (k mod batches cfg =? current_batch cfg mod batches cfg)).
  { rewrite bind_ret_l. apply IH. }
  pose proof (process_problem_taken_up cfg fuel len p s) as Ht.
  pose proof (process_problem_reported cfg fuel len p s) as Hr.
  unfold bind at 1 2 3 4 5 6.
  destruct (process_problem cfg fuel len p s) as [t [[[] s1] | e |]];
    cbn [fst snd] in *.
  - specialize (IH (k + 1) s1). destruct IH as (I1 & I2 & I3).
    destruct (suite_loop cfg fuel len (k + 1) rest s1) as [t' r]. cbn [fst snd] in *.
    rewrite taken_up_app, reported_done_app, Ht, Hr. cbn [indices_of map snd app].
    split; [now apply prefix_cons |]. split; [now apply prefix_cons |].
    intros s' E. destruct (I3 s' E) as [-> ->]. auto.
  - rewrite Ht, Hr. cbn [indices_of map snd].
    split; [apply prefix_cons, prefix_nil |]. split; [apply prefix_nil |].
    discriminate.
  - rewrite Ht, Hr. cbn [indices_of map snd].
    split; [apply prefix_cons, prefix_nil |]. split; [apply prefix_nil |].
    discriminate.
Qed.

Lemma snd_bind {A B} (m : driver A) (k : A -> driver B) (s : state) :
  snd (bind m k s) =
  match snd (m s) with
  | Returns (a, s') => snd (k a s')
  | Raises e => Raises e
  | OutOfFuel => OutOfFuel
  end.
Proof.
  unfold bind. destruct (m s) as [t [[a s'] | e |]]; cbn [snd]; try reflexivity.
  destruct (k a s'). reflexivity.
Qed.

Lemma note_dimension_state (p : problem) (s : state) :
  snd (note_dimension p s) =
  Returns (tt, {| the_world := the_world s; stoppings := stoppings s;
                  timings := snd (defaultdict_get (timings s) (dimension p));
                  results_file := results_file s |}).
Proof.
  unfold note_dimension. run.
  destruct (defaultdict_get (timings s) (dimension p)) as [l d].
  destruct (negb _ && _); reflexivity.
Qed.

Lemma process_problem_not_cut_off
  (cfg : config) (fuel : nat) (len : Z) (p : problem) (s : state) :
  takes_default_branch (fmin cfg) = true ->
  (10 <= fuel)%nat ->
  snd (process_problem cfg fuel len p s) <> OutOfFuel.
Proof.
  intros D F.
  destruct (process_problem_run cfg fuel len p s) as (tn & hit & s2 & _ & _ & _ & Hrun).
  destruct (restart_loop_bounded_from cfg D fuel (-1) (evaluated p hit) s2) as [Hfuel _];
    [lia | lia |].
  destruct (restart_loop cfg fuel (-1) (evaluated p hit) s2) as [tl o].
  specialize (Hrun tl o eq_refl). cbn zeta in Hrun. cbn [snd] in Hfuel.
  destruct o as [[[ir p2] s3] | e' |].
  - destruct Hrun as (s5 & -> & _). discriminate.
  - rewrite Hrun. discriminate.
  - contradiction.
Qed.

Lemma suite_loop_not_cut_off (cfg : config) (fuel : nat) (len : Z) :
  takes_default_branch (fmin cfg) = true ->
  (10 <= fuel)%nat ->
  forall (suite : list problem) (k : Z) (s : state),
    snd (suite_loop cfg fuel len k suite s) <> OutOfFuel.
Proof.
  intros D F. induction suite as [| p rest IH]; intros k s; [discriminate |].
  cbn [suite_loop]. unfold mbind, driver_bind.
  rewrite snd_bind.
  destruct (batch_skips (batches cfg) (current_batch cfg) k) as [skip | e];
    unfold lift at 1; cbn [snd]; [| discriminate].
  rewrite snd_bind. destruct skip.
  - unfold ret at 1. cbn [snd]. apply IH.
  - pose proof (process_problem_not_cut_off cfg fuel len p s D F) as H.
    destruct (snd (process_problem cfg fuel len p s)) as [[[] s1] | e |];
      [apply IH | discriminate | contradiction].
Qed.



(** ** The driver with Python's arithmetic: iteration limit and exceptions *)

(** X15: the iteration limit [int(evalsleft() / problem.dimension + 1)]
    given to [fmin_slsqp] is computed from the budget [evalsleft()] has
    just returned; on a problem of dimension 1 or more it is at least 1 and
    at most that budget plus one, as long as the budget plus one is below
    [2^53]. *)
Theorem slsqp_iterations_within_budget
  (b : number) (cfg : config) (fuel : nat) (i : Z) (p : problem) (s : state) :
  Forall (slsqp_iter_ok b) (fst (restart_loop_py b cfg fuel i p s)).
Proof.
  eapply Forall_impl; [apply restart_loop_py_attempts |].
  intros e. destruct e as [| | | | | | | ir q a | | | |]; try exact (fun _ => I).
  destruct a; try exact (fun _ => I).
  cbn. intros (left & El & Hpos & Hhit & _ & Hi).
  specialize (Hi iter eq_refl).
  exists left. repeat split; try assumption.
  - destruct (slsqp_iter_py_bounds left (dimension q)) as (iter' & E & B); try lia.
    rewrite Hi in E. injection E as <-. lia.
  - destruct (slsqp_iter_py_bounds left (dimension q)) as (iter' & E & B); try lia.
    rewrite Hi in E. injection E as <-. lia.
Qed.

Lemma restart_guard_py_raise (b : number) (p : problem) (e : exn) :
  restart_guard_py b p = Raise e -> evalsleft_py b p = Raise e.
Proof.
  forget_world. unfold restart_guard_py.
  destruct (evalsleft_py b p); cbn [and_then]; congruence.
Qed.

Lemma problem_error_same_problem
  (b : number) (cfg : config) (p p' : problem) (e : exn) :
  index p' = index p -> dimension p' = dimension p ->
  problem_error b cfg p' e -> problem_error b cfg p e.
Proof.
  intros Hi Hd [(a & q & w & Qi & Qd & H) | [(x & q & Hb & Qi & Qd & H) |
                [(left & q & Hf & Qi & Qd & H) | (q & Qi & Qd & H)]]].
  - left. exists a, q, w. repeat split; congruence.
  - right. left. exists x, q. destruct H as [H1 H2].
    split; [exact Hb |]. split; [congruence |]. split; [congruence |]. auto.
  - right. right. left. exists left, q.
    destruct H as (H1 & H2 & H3 & H4).
    split; [exact Hf |]. split; [congruence |]. split; [congruence |].
    split; [exact H1 |]. split; [exact H2 |]. split; [exact H3 |].
    destruct H4 as [[He Hz] | He]; [left; split; congruence | now right].
  - right. right. right. exists q. destruct H as (H1 & H2 & H3).
    split; [congruence |]. split; [congruence |]. auto.
Qed.

Lemma restart_loop_py_raises
  (b : number) (cfg : config) (fuel : nat) (i : Z) (p : problem) (s : state) (e : exn) :
  snd (restart_loop_py b cfg fuel i p s) = Raises e -> problem_error b cfg p e.
Proof.
  revert i p s. induction fuel as [| fuel IH]; intros i p s;
    rewrite restart_loop_py_unfold;
    destruct (restart_guard_py b p) as [[|] | e0] eqn:G; cbn [snd]; try discriminate.
  - intros [= <-]. apply restart_guard_py_raise in G.
    destruct (evalsleft_py_raise b p e0 G) as ((x & Hb) & Hk).
    right. left. exists x, p. auto.
  - apply restart_guard_py_true in G as (left & El & Hpos & Hhit).
    pose proof (restart_body_py_spec b cfg (i + 1) p s) as B.
    destruct (restart_body_py b cfg (i + 1) p s) as [t o].
    destruct B as [(_ & e1 & Ho & Hr) | (left' & a & rest & El' & _ & _ & _ & _ & Ho)];
      cbn [fst snd] in *.
    + subst o. cbn [snd]. intros [= <-].
      destruct Hr as [Hr | (Hf & left' & El' & Hr)]; [congruence |].
      rewrite El in El'. injection El' as <-.
      right. right. left. exists left, p. repeat split; auto.
      apply slsqp_iter_py_raise in Hr as [[-> Hz] | ->]; auto.
    + destruct o as [[[p' stop] s'] | e1 |]; [| | contradiction].
      * destruct Ho as [Hi Hd]. destruct stop; cbn [snd]; [discriminate |].
        specialize (IH (i + 1) p' s').
        destruct (restart_loop_py b cfg fuel (i + 1) p' s') as [t' r]. cbn [snd] in *.
        intros Hr. apply (problem_error_same_problem b cfg p p' e Hi Hd). now apply IH.
      * cbn [snd]. intros [= <-]. destruct Ho as [w Hw].
        left. exists a, p, w. auto.
  - intros [= <-]. apply restart_guard_py_raise in G.
    destruct (evalsleft_py_raise b p e0 G) as ((x & Hb) & Hk).
    right. left. exists x, p. auto.
Qed.

Lemma record_timing_py_outcome (time1 : Q) (p : problem) (s : state) :
  match snd (record_timing_py time1 p s) with
  | Returns (_, s') => timings s' <> ∅
  | Raises e =>
      evaluations p <> 0 /\ float_of_int (evaluations p) = Raise e /\ e = OverflowError
  | OutOfFuel => False
  end.
Proof.
  assert (forall (d : gmap Z (list Q)) (x : Q),
            defaultdict_append d (dimension p) x <> ∅) as Hne.
  { intros d x He.
    pose proof (defaultdict_append_lookup d (dimension p) x) as L.
    rewrite He, lookup_empty in L. discriminate. }
  unfold record_timing_py, timing_sample_py, timings_append.
  destruct (evaluations p =? 0) eqn:E; cbn [negb].
  - run. apply Hne.
  - apply Z.eqb_neq in E. run.
    destruct (time_time (the_world s)) as [now w]. cbn.
    destruct (float_of_int (evaluations p)) as [d | e] eqn:Ef; cbn.
    + rewrite (py_truediv_nonzero _ _ E). cbn. apply Hne.
    + split; [exact E |]. split; [reflexivity |].
      eapply float_of_int_raise; eassumption.
Qed.

Lemma write_results_file_timings (s : state) :
  exists s', snd (write_results_file s) = Returns (tt, s') /\ timings s' = timings s.
Proof. unfold write_results_file. run. eexists. split; reflexivity. Qed.

Lemma process_problem_py_outcome
  (b : number) (cfg : config) (fuel : nat) (len : Z) (p : problem) (s : state) :
  match snd (process_problem_py b cfg fuel len p s) with
  | Returns (_, s') => timings s' <> ∅
  | Raises e => problem_error b cfg p e
  | OutOfFuel => True
  end.
Proof.
  unfold process_problem_py, mbind, driver_bind.
  rewrite snd_bind, note_dimension_state. rewrite snd_bind. unfold emit at 1. cbn [snd].
  rewrite snd_bind.
  match goal with |- context [problem_call p ?x ?s1] =>
    destruct (problem_call_run p x s1) as (hit & w & ->) end.
  cbn [snd]. rewrite snd_bind. unfold external at 1.
  match goal with |- context [time_time ?w1] => destruct (time_time w1) as [time1 w2] end.
  cbn [snd]. rewrite snd_bind.
  match goal with |- context [restart_loop_py b cfg fuel (-1) ?q ?s2] =>
    pose proof (restart_loop_py_raises b cfg fuel (-1) q s2) as Hl;
    pose proof (restart_loop_py_timings b cfg fuel (-1) q s2) as Hd;
    destruct (snd (restart_loop_py b cfg fuel (-1) q s2)) as [[[ir p2] s3] | e |]
  end.
  - rewrite snd_bind.
    assert (index p2 = index p /\ dimension p2 = dimension p) as [Hi2 Hd2]
      by (destruct Hd as (_ & H1 & H2); cbn in H1, H2; auto).
    pose proof (record_timing_py_outcome time1 p2 s3) as Hr.
    destruct (snd (record_timing_py time1 p2 s3)) as [[[] s4] | e |];
      [| | contradiction].
    + rewrite snd_bind. unfold emit at 1. cbn [snd].
      destruct (write_results_file_timings s4) as (s5 & -> & Ht). now rewrite Ht.
    + right. right. right. exists p2. destruct Hr as (H1 & H2 & H3).
      repeat split; assumption.
  - apply (problem_error_same_problem b cfg p (evaluated p hit) e eq_refl eq_refl).
    now apply Hl.
  - exact I.
Qed.


Lemma batch_skips_raise (n i k : Z) (e : exn) :
  batch_skips n i k = Raise e -> e = ZeroDivisionError /\ n = 0.
Proof.
  forget_world. unfold batch_skips, py_mod.
  destruct (n =? 0) eqn:E; [| discriminate].
  apply Z.eqb_eq in E. intros [= <-]. auto.
Qed.

Lemma suite_loop_py_outcome
  (b : number) (cfg : config) (fuel : nat) (len : Z) (suite : list problem) :
  forall (k : Z) (s : state),
    match snd (suite_loop_py b cfg fuel len k suite s) with
    | Returns (_, s') =>
        timings s <> ∅ \/ batch_from (batches cfg) (current_batch cfg) k suite <> [] ->
        timings s' <> ∅
    | Raises e =>
        (e = ZeroDivisionError /\ batches cfg = 0 /\ suite <> []) \/
        exists j p,
          (j, p) ∈ batch_from (batches cfg) (current_batch cfg) k suite /\
          problem_error b cfg p e
    | OutOfFuel => True
    end.
Proof.
  induction suite as [| p rest IH]; intros k s.
  { cbn. intros [H | H]; [exact H | contradiction]. }
  cbn [suite_loop_py batch_from]. unfold mbind, driver_bind.
  rewrite snd_bind.
  destruct (batch_skips (batches cfg) (current_batch cfg) k) as [skip | e0] eqn:Es;
    unfold lift at 1; cbn [snd].
  2:{ apply batch_skips_raise in Es as [-> Hz]. left. repeat split; auto. }
  rewrite snd_bind. destruct skip.
  - unfold ret at 1. cbn [snd]. specialize (IH (k + 1) s).
    destruct (snd (suite_loop_py b cfg fuel len (k + 1) rest s)) as [[[] s2] | e |];
      [exact IH | | exact I].
    destruct IH as [(He & Hz & _) | IH]; [| right; exact IH].
    left. repeat split; auto; discriminate.
  - pose proof (process_problem_py_outcome b cfg fuel len p s) as O.
    destruct (snd (process_problem_py b cfg fuel len p s)) as [[[] s1] | e |].
    + specialize (IH (k + 1) s1).
      destruct (snd (suite_loop_py b cfg fuel len (k + 1) rest s1)) as [[[] s2] | e |].
      * intros _. apply IH. now left.
      * destruct IH as [(He & Hz & _) | (j & q & Hin & Hq)];
          [left; repeat split; auto; discriminate |].
        right. exists j, q. split; [| exact Hq]. apply elem_of_cons. now right.
      * exact I.
    + right. exists k, p. split; [| exact O]. apply elem_of_cons. now left.
    + exact I.
Qed.

End Driver.

(** * The model on the sample world *)

Module Run.
Import Sample.

Abbreviation state0 := (initial_state nat unit 0%nat).
Abbreviation run_restart_loop :=
  (restart_loop nat unit evaluate random_row run_solver cma_popsize).
Abbreviation run_suite_loop :=
  (suite_loop nat unit time_time evaluate random_row run_solver cma_popsize).
Abbreviation run_script :=
  (script nat unit time_time evaluate random_row run_solver cma_popsize
          cocoex_suite args_to_dict interpreter_globals).

(** C1, counterexample: with [budget_multiplier=0.5] a 3-dimensional
    problem evaluated once has [3 * 0.5 + 1 - 1 = 1.5] left by the formula,
    and [evalsleft()] is 1. *)
Lemma evalsleft_truncates :
  evalsleft (1 # 2) evaluated_once = 1 /\
  (budget_expr (1 # 2) evaluated_once == 3 # 2)%Q /\
  ~ (inject_Z (evalsleft (1 # 2) evaluated_once) == budget_expr (1 # 2) evaluated_once)%Q.
Proof.
  split; [reflexivity |]. split; [reflexivity |].
  vm_compute. discriminate.
Qed.

(** The same in double arithmetic, where 1.5 is exact. *)
Example evalsleft_py_truncates :
  evalsleft_py (float_number (1 # 2)) evaluated_once = Ok 1.
Proof. vm_compute. reflexivity. Qed.

(** The shipped [budget_multiplier = 2 * 1e5 + 0] on a 2-dimensional
    problem after its first evaluation. *)
Example evalsleft_py_shipped :
  evalsleft_py (float_number (budget_multiplier shipped_config))
    {| index := 0; dimension := 2; evaluations := 1;
       evaluations_constraints := 0; final_target_hit := false |} = Ok 400000.
Proof. vm_compute. reflexivity. Qed.

(** Rounding shows where the numbers are not small integers:
    [100 * 0.29] is 28.999999999999996 as a double, and with
    [budget_multiplier=1e16] the sum [2e16 + 1 - 2] is rounded to [2e16]. *)
Example evalsleft_py_rounds :
  evalsleft_py (float_number (29 # 100))
    {| index := 0; dimension := 100; evaluations := 1;
       evaluations_constraints := 0; final_target_hit := false |} = Ok 28 /\
  evalsleft (29 # 100)
    {| index := 0; dimension := 100; evaluations := 1;
       evaluations_constraints := 0; final_target_hit := false |} = 29 /\
  evalsleft_py (float_number (inject_Z (10 ^ 16)))
    {| index := 0; dimension := 2; evaluations := 2;
       evaluations_constraints := 0; final_target_hit := false |}
    = Ok 20000000000000000 /\
  evalsleft (inject_Z (10 ^ 16))
    {| index := 0; dimension := 2; evaluations := 2;
       evaluations_constraints := 0; final_target_hit := false |} = 19999999999999999.
Proof. repeat split; vm_compute; reflexivity. Qed.

(** With [budget_multiplier=1e308] on a 40-dimensional problem the product
    is infinite and [int(...)] raises. *)
Example evalsleft_py_overflows :
  evalsleft_py (float_number (inject_Z (10 ^ 308))) (fresh_problem 0 40)
  = Raise OverflowError.
Proof. vm_compute. reflexivity. Qed.

(** The loop of the counterexample hands the truncated budget to cma. *)
Example half_budget_first_call :
  head (solver_calls unit
          (fst (run_restart_loop (with_budget_multiplier shipped_config (1 # 2)) 10 (-1)
                  evaluated_once state0)))
  = Some (0, evaluated_once, args_cma 2 1 (cma_popsize 3) 0).
Proof. vm_compute. reflexivity. Qed.

(** C2, witness: the shipped configuration on a fresh 2-dimensional
    problem. *)
Lemma restart_loop_at_most_ten_witness :
  takes_default_branch (fmin shipped_config) = true /\
  (10 <= 10)%nat /\
  snd (run_restart_loop shipped_config 10 (-1) (fresh_problem 0 2) state0) <> OutOfFuel /\
  (length (solver_calls unit
     (fst (run_restart_loop shipped_config 10 (-1) (fresh_problem 0 2) state0))) <= 10)%nat.
Proof.
  split; [reflexivity |]. split; [lia |].
  apply (restart_loop_at_most_ten nat unit evaluate random_row run_solver cma_popsize
           shipped_config 10 (fresh_problem 0 2) state0); [reflexivity | lia].
Defined.

(** On the sample world the cap is reached: ten calls, then [break]. *)
Example shipped_loop_ten_calls :
  length (solver_calls unit
    (fst (run_restart_loop shipped_config 10 (-1) (fresh_problem 0 2) state0))) = 10%nat.
Proof. vm_compute. reflexivity. Qed.

(** The hints of these ten calls: 7, 14, 28, ... *)
Example shipped_loop_hints :
  hinted unit
    (fst (run_restart_loop shipped_config 10 (-1) (fresh_problem 0 2) state0))
  = [(0, 7); (1, 14); (2, 28); (3, 56); (4, 112); (5, 224); (6, 448); (7, 896);
     (8, 1792); (9, 3584)].
Proof. vm_compute. reflexivity. Qed.

(** C2, counterexample: under [fmin = scipy.optimize.fmin_slsqp] nothing caps
    the loop. With a solver that spends one evaluation per call and a
    budget of 400001, eleven passes of fuel give eleven calls and the loop
    asks for more. *)
Lemma slsqp_loop_exceeds_ten :
  ~ (length (solver_calls unit
       (fst (run_restart_loop (with_solver shipped_config scipy_fmin_slsqp) 11 (-1)
               (fresh_problem 0 2) state0))) <= 10)%nat /\
  length (solver_calls unit
    (fst (run_restart_loop (with_solver shipped_config scipy_fmin_slsqp) 11 (-1)
            (fresh_problem 0 2) state0))) = 11%nat /\
  snd (run_restart_loop (with_solver shipped_config scipy_fmin_slsqp) 11 (-1)
         (fresh_problem 0 2) state0) = OutOfFuel.
Proof.
  assert (length (solver_calls unit
            (fst (run_restart_loop (with_solver shipped_config scipy_fmin_slsqp) 11 (-1)
                    (fresh_problem 0 2) state0))) = 11%nat) as E
    by (vm_compute; reflexivity).
  split; [rewrite E; lia |]. split; [exact E |].
  vm_compute. reflexivity.
Qed.


(** On the sample world the run [batch=1/2] takes up and reports the
    problem at position 1, and the run [batch=2/2] those at positions 0
    and 2. *)
Example sample_batches_of_two :
  taken_up unit (fst (run_suite_loop (with_batch shipped_config 1 2) 12 3 0
                        small_suite state0)) = [1] /\
  reported_done unit (fst (run_suite_loop (with_batch shipped_config 1 2) 12 3 0
                             small_suite state0)) = [1] /\
  taken_up unit (fst (run_suite_loop (with_batch shipped_config 2 2) 12 3 0
                        small_suite state0)) = [0; 2] /\
  reported_done unit (fst (run_suite_loop (with_batch shipped_config 2 2) 12 3 0
                             small_suite state0)) = [0; 2].
Proof. repeat split; vm_compute; reflexivity. Qed.

(** The trace of the suite loop over one fresh problem with
    [budget_multiplier=0]. *)
Abbreviation no_budget_trace :=
  (fst (run_suite_loop (with_budget_multiplier shipped_config 0) 10 1 0
          [fresh_problem 0 2] state0)).


(** C5, counterexample: on a machine with every library but cma the script
    ends in [NameError] at [fmin = cma.fmin2]; with cma it runs to the
    end. *)
Lemma missing_cma_is_fatal :
  snd (run_script 10 (without_cma (full_environment [])) state0)
    = Raises (NameError "cma") /\
  exists s', snd (run_script 10 (full_environment []) state0) = Returns (tt, s').
Proof.
  split; [vm_compute; reflexivity |].
  eexists. vm_compute. reflexivity.
Qed.

(** C5, witness: the script run with [budget_multiplier=3] as its only
    argument. *)
Lemma missing_mkl_cocopp_never_fatal_witness :
  (is_main (full_environment ["budget_multiplier=3"%string]) = true ->
   cocopp_not_addressed nat args_to_dict interpreter_globals
     (full_environment ["budget_multiplier=3"%string])) /\
  snd (run_script 10 (without_mkl (full_environment ["budget_multiplier=3"%string])) state0)
    = snd (run_script 10 (full_environment ["budget_multiplier=3"%string]) state0) /\
  snd (run_script 10 (without_mkl_cocopp (full_environment ["budget_multiplier=3"%string]))
         state0)
    = snd (run_script 10 (full_environment ["budget_multiplier=3"%string]) state0).
Proof.
  assert (is_main (full_environment ["budget_multiplier=3"%string]) = true ->
          cocopp_not_addressed nat args_to_dict interpreter_globals
            (full_environment ["budget_multiplier=3"%string])) as H
    by (intros _ w; reflexivity).
  split; [exact H |].
  destruct (missing_mkl_cocopp_never_fatal nat unit time_time evaluate random_row
              run_solver cma_popsize cocoex_suite args_to_dict interpreter_globals 10
              (full_environment ["budget_multiplier=3"%string]) state0) as (_ & A & B).
  split; [exact A | exact (B H)].
Defined.

(** An argument that addresses [cocopp] is not read alike: without the
    library [cocopp=None] is an unknown name, with it the run goes
    through. *)
Example cocopp_argument_needs_cocopp :
  snd (run_script 10 (without_mkl_cocopp (full_environment ["cocopp=None"%string])) state0)
    = Raises (ValueError "not found or ambiguous in known_names") /\
  exists s', snd (run_script 10 (full_environment ["cocopp=None"%string]) state0)
             = Returns (tt, s').
Proof.
  split; [vm_compute; reflexivity |].
  eexists. vm_compute. reflexivity.
Qed.

(** C6, witness: [--help] as the only argument. *)
Lemma help_as_first_argument_witness :
  is_main (full_environment ["--help"%string]) = true /\
  has_numpy (full_environment ["--help"%string]) = true /\
  has_cocoex (full_environment ["--help"%string]) = true /\
  has_scipy (full_environment ["--help"%string]) = true /\
  has_cma (full_environment ["--help"%string]) = true /\
  (argv (full_environment ["--help"%string]) !! 1%nat = Some "--help"%string) /\
  In "--help"%string help_tokens /\
  snd (run_script 10 (full_environment ["--help"%string]) state0)
    = Raises (ValueError "printed help and aborted") /\
  exists setup,
    fst (run_script 10 (full_environment ["--help"%string]) state0)
      = setup ++ [ev_print unit msg_doc] /\
    Forall (fun e => is_thread_setup unit e = true) setup.
Proof.
  assert (In "--help"%string help_tokens) as Htok by (simpl; auto).
  repeat (split; [first [reflexivity | exact Htok] |]).
  apply (help_as_first_argument nat unit time_time evaluate random_row run_solver
           cma_popsize cocoex_suite args_to_dict interpreter_globals 10
           (full_environment ["--help"%string]) state0 "--help"%string);
    first [reflexivity | exact Htok].
Defined.

(** C6, counterexample: a help token after another argument is not looked
    at; the documentation is not printed (here [args_to_dict] rejects the
    token). *)
Lemma help_not_first_is_ignored :
  In "--help"%string (argv (full_environment ["budget_multiplier=3"; "--help"]%string)) /\
  ~ In (ev_print unit msg_doc)
       (fst (run_script 10 (full_environment ["budget_multiplier=3"; "--help"]%string)
               state0)) /\
  snd (run_script 10 (full_environment ["budget_multiplier=3"; "--help"]%string) state0)
    <> Raises (ValueError "printed help and aborted").
Proof.
  split; [simpl; auto |]. split.
  - vm_compute. intros H. repeat (destruct H as [H | H]; [discriminate |]). exact H.
  - vm_compute. discriminate.
Qed.

End Run.

(** * Further runs on the sample world *)

Module RunExtra.
Import Sample.

Abbreviation state0 := (initial_state nat unit 0%nat).
Abbreviation run_random_search :=
  (random_search_run nat unit evaluate random_row).
Abbreviation run_restart_loop :=
  (restart_loop nat unit evaluate random_row run_solver cma_popsize).
Abbreviation run_process_problem :=
  (process_problem nat unit time_time evaluate random_row run_solver cma_popsize).
Abbreviation run_suite_loop :=
  (suite_loop nat unit time_time evaluate random_row run_solver cma_popsize).
Abbreviation run_process_all :=
  (process_all nat unit time_time evaluate random_row run_solver cma_popsize).
Abbreviation run_restart_loop_py :=
  (restart_loop_py nat unit evaluate random_row run_solver cma_popsize).
Abbreviation run_process_problem_py :=
  (process_problem_py nat unit time_time evaluate random_row run_solver cma_popsize).
Abbreviation run_experiment_py :=
  (experiment_py nat unit time_time evaluate random_row run_solver cma_popsize
     cocoex_suite).
Abbreviation evaluated_origin :=
  {| index := 0; dimension := 2; evaluations := 1;
     evaluations_constraints := 0; final_target_hit := false |}.
Abbreviation run_experiment :=
  (experiment nat unit time_time evaluate random_row run_solver cma_popsize cocoex_suite).


(** X2, witness: three evaluations in the box of a 2-dimensional problem. *)
Lemma random_search_spends_evals_witness :
  0 <= 3 /\
  length [-5; -5] = length [5; 5] /\
  (forall n w, length (fst (random_row n w)) = n) /\
  exists xs p' w,
    run_random_search (fresh_problem 0 2) [-5; -5] [5; 5] 3 state0 =
      (map (ev_evaluate unit (index (fresh_problem 0 2))) xs,
       Returns (p', with_world nat unit state0 w)) /\
    length xs = Z.to_nat 3 /\
    Forall (fun x => length x = length [5; 5]) xs /\
    evaluations p' = evaluations (fresh_problem 0 2) + 3 /\
    evaluations_constraints p' = evaluations_constraints (fresh_problem 0 2) /\
    index p' = index (fresh_problem 0 2) /\ dimension p' = dimension (fresh_problem 0 2).
Proof.
  assert (forall n w, length (fst (random_row n w)) = n) as Hrow
    by (intros n w; simpl; apply repeat_length).
  split; [lia |]. split; [reflexivity |]. split; [exact Hrow |].
  apply (random_search_spends_evals nat unit evaluate random_row
           (fresh_problem 0 2) [-5; -5] [5; 5] 3 state0);
    [lia | reflexivity | exact Hrow].
Defined.



(** On the sample world that pass makes the five evaluations of the
    budget. *)
Example random_search_uses_five :
  snd (run_restart_loop
         (with_budget_multiplier (with_solver shipped_config random_search) 2)
         1 (-1) (fresh_problem 0 2) state0)
  = Returns (0, {| index := 0; dimension := 2; evaluations := 5;
                   evaluations_constraints := 0; final_target_hit := false |}, state0).
Proof. vm_compute. reflexivity. Qed.

(** CPython names the platform of Windows [win32]: there the threads are
    set, on [darwin] they are not. *)
Example threads_on_win32 :
  fst (prologue nat unit
         {| platform_lower := "win32"; is_main := true; argv := [];
            has_mkl := false; has_numpy := true; has_cocoex := true;
            has_cocopp := true; has_scipy := true; has_cma := true |} state0)
  = thread_setup unit false /\
  fst (prologue nat unit
         {| platform_lower := "darwin"; is_main := true; argv := [];
            has_mkl := false; has_numpy := true; has_cocoex := true;
            has_cocopp := true; has_scipy := true; has_cma := true |} state0)
  = [].
Proof. split; vm_compute; reflexivity. Qed.

(** X12, witness: [batch=1/0] on the sample suite. *)
Lemma zero_batches_raise_witness :
  batches (with_batch shipped_config 1 0) = 0 /\
  small_suite <> [] /\
  run_suite_loop (with_batch shipped_config 1 0) 10 3 0 small_suite state0
    = ([], Raises ZeroDivisionError).
Proof.
  assert (small_suite <> []) as Hs by discriminate.
  split; [reflexivity |]. split; [exact Hs |].
  apply (zero_batches_raise nat unit time_time evaluate random_row run_solver cma_popsize
           (with_batch shipped_config 1 0) 10 3 0 small_suite state0);
    [reflexivity | exact Hs].
Defined.

(** X13, witness: [batch=5/8] on the three problems of the sample suite. *)
Lemma empty_batch_raises_IndexError_witness :
  cocoex_suite (suite_name (with_batch shipped_config 5 8))
               (suite_filter_options (with_batch shipped_config 5 8))
               (the_world nat unit state0) = (Ok small_suite, 0%nat) /\
  batches (with_batch shipped_config 5 8) <> 0 /\
  batch_of (batches (with_batch shipped_config 5 8))
           (current_batch (with_batch shipped_config 5 8)) small_suite = [] /\
  snd (run_experiment (with_batch shipped_config 5 8) 10 state0) = Raises IndexError /\
  Forall (fun e => is_solver_call unit e || is_evaluation unit e || is_report unit e = false)
         (fst (run_experiment (with_batch shipped_config 5 8) 10 state0)).
Proof.
  assert (batches (with_batch shipped_config 5 8) <> 0) as Hb by (simpl; lia).
  split; [reflexivity |]. split; [exact Hb |]. split; [reflexivity |].
  apply (empty_batch_raises_IndexError nat unit time_time evaluate random_row run_solver
           cma_popsize cocoex_suite (with_batch shipped_config 5 8) 10 state0
           small_suite 0%nat); [reflexivity | exact Hb | reflexivity].
Defined.

(** Line 149 on the sample world: [fmin_slsqp] on a fresh 2-dimensional
    problem with the shipped multiplier is first called with
    [iter = int(400000 / 2 + 1)]. *)
Example slsqp_first_iteration_limit :
  head (solver_calls unit
          (fst (run_restart_loop_py (float_number (budget_multiplier shipped_config))
                  (with_solver shipped_config scipy_fmin_slsqp) 3 (-1)
                  evaluated_origin state0)))
  = Some (0, evaluated_origin, args_slsqp 200001).
Proof. vm_compute. reflexivity. Qed.

(** Beyond [2^53] the limit can exceed the budget plus one: for a budget
    of 36028797018963973 on a problem of dimension 1 it is
    36028797018963976. *)
Example slsqp_iter_py_rounds :
  slsqp_iter_py 36028797018963973 1 = Ok 36028797018963976 /\
  slsqp_iter_py 5 0 = Raise ZeroDivisionError /\
  slsqp_iter_py 400000 2 = Ok 200001.
Proof. repeat split; vm_compute; reflexivity. Qed.

(** Lines 201-202 on the sample world: with [budget_multiplier=0] the loop
    is not entered, the problem has its one evaluation at the origin, and
    the clock has advanced by one between the two readings: the sample is
    [1 / 1]. *)
Example sample_timing :
  exists s',
    snd (run_process_problem_py (int_number 0) shipped_config 12 1
           (fresh_problem 0 2) state0) = Returns (tt, s') /\
    timings nat unit s' !! 2 = Some [1%Q].
Proof. eexists. split; vm_compute; reflexivity. Qed.



(** With the shipped variables the experiment with Python's arithmetic
    runs through on the sample world. *)
Example shipped_experiment_py_returns :
  exists s', snd (run_experiment_py (float_number (budget_multiplier shipped_config))
                    shipped_config 12 state0) = Returns (tt, s').
Proof. eexists. vm_compute. reflexivity. Qed.

(** X18, witness: the three problems of the sample suite in 8 batches. *)
Lemma batches_are_balanced_witness :
  1 <= 8 /\
  Z.of_nat (length (batch_of 8 1 small_suite))
    = (Z.of_nat (length small_suite) + 8 - 1 - 1 mod 8) / 8 /\
  Z.of_nat (length small_suite) / 8 <= Z.of_nat (length (batch_of 8 1 small_suite))
    <= (Z.of_nat (length small_suite) + 8 - 1) / 8.
Proof.
  split; [lia |]. apply (batches_are_balanced 8 1 small_suite). lia.
Defined.

(** X21, witness: the sample suite, of dimensions 2, 2 and 3. *)
Lemma one_progress_line_per_further_dimension_witness :
  timings nat unit state0 = ∅ /\
  match run_suite_loop shipped_config 12 3 0 small_suite state0 with
  | (t, Returns (_, s')) =>
      dom (timings nat unit s')
        = dimensions_of
            (batch_from (batches shipped_config) (current_batch shipped_config)
               0 small_suite) /\
      length (List.filter (is_dimension_done unit) t) = (size (timings nat unit s') - 1)%nat
  | _ => True
  end.
Proof.
  split; [reflexivity |].
  apply (one_progress_line_per_further_dimension nat unit time_time evaluate random_row
           run_solver cma_popsize shipped_config 12 3 0 small_suite state0).
  reflexivity.
Defined.

(** On the sample suite the loop returns, and prints the one line, when
    the first problem of dimension 3 comes. *)
Example sample_suite_one_progress_line :
  exists t s',
    run_suite_loop shipped_config 12 3 0 small_suite state0 = (t, Returns (tt, s')) /\
    length (List.filter (is_dimension_done unit) t) = 1%nat /\
    size (timings nat unit s') = 2%nat.
Proof. eexists _, _. split; [vm_compute; reflexivity |]. split; vm_compute; reflexivity. Qed.

(** X23, witness: [batch=9/8] and [batch=1/8]. *)
Lemma batches_write_to_different_folders_witness :
  1 < 8 /\ 1 < 8 /\ (9, 8) <> (1, 8) /\
  output_folder EmptyString (with_batch shipped_config 9 8)
    <> output_folder EmptyString (with_batch shipped_config 1 8) /\
  results_file_name EmptyString (with_batch shipped_config 9 8)
    <> results_file_name EmptyString (with_batch shipped_config 1 8).
Proof.
  assert ((9, 8) <> (1, 8)) as Hne by discriminate.
  split; [lia |]. split; [lia |]. split; [exact Hne |].
  apply (batches_write_to_different_folders EmptyString shipped_config 9 8 1 8);
    [lia | lia | exact Hne].
Defined.

(** The names as the script prints them. *)
Example output_folder_batch_3_of_32 :
  output_folder EmptyString (with_batch shipped_config 3 32)
  = "fmin2_of_cma.evolution_strategy_200000D_on_bbob_batch003of32"%string /\
  output_folder EmptyString shipped_config
  = "fmin2_of_cma.evolution_strategy_200000D_on_bbob"%string /\
  format_0d 3 (-5) = "-05"%string /\
  format_0d 3 1234 = "1234"%string.
Proof. repeat split; vm_compute; reflexivity. Qed.

(** X24, witness: batch 1 of 2 on the sample suite. *)
Lemma suite_loop_processes_batch_witness :
  batches (with_batch shipped_config 1 2) <> 0 /\
  run_suite_loop (with_batch shipped_config 1 2) 12 3 0 small_suite state0 =
  run_process_all (with_batch shipped_config 1 2) 12 3
    (batch_from (batches (with_batch shipped_config 1 2))
                (current_batch (with_batch shipped_config 1 2)) 0 small_suite) state0.
Proof.
  assert (batches (with_batch shipped_config 1 2) <> 0) as Hb by (simpl; lia).
  split; [exact Hb |].
  apply (suite_loop_processes_batch nat unit time_time evaluate random_row run_solver
           cma_popsize (with_batch shipped_config 1 2) 12 3 Hb small_suite 0 state0).
Defined.

End RunExtra.
